(** * sldownloader: line, title and collector-number reconciliation

    A shallow embedding of the pure core of [main.go] and [scryfall.go]:
    the text canonicaliser ([cleanLine]), the title canonicaliser
    ([cleanTitle]), the OCR token filter ([extractNumber]), the gallery
    pass with its fold mode, the backfill of missing collector numbers
    and the filter applied to Scryfall search results.

    Go strings are byte sequences; they are modelled by [string], whose
    characters are bytes, so that [String.length] is Go's [len]. The
    type [int] is taken to be 64 bits wide. *)

From Stdlib Require Import ZArith Ascii String DecimalString Bool Lia.
From Stdlib Require DecimalPos.
From stdpp Require Import base list.

Open Scope string_scope.
Open Scope Z_scope.

(** ** Bytes and literals *)

Definition bytes (l : list nat) : string :=
  string_of_list_ascii (map ascii_of_nat l).

Definition byteVal (c : ascii) : Z := Z.of_nat (nat_of_ascii c).

(** The non-ASCII literals of the source, by their UTF-8 bytes. *)
Definition NNBSP : string := bytes [226; 128; 175]%nat.    (* U+202F *)
Definition RSQUO : string := bytes [226; 128; 153]%nat.    (* U+2019 *)
Definition LSQUO : string := bytes [226; 128; 152]%nat.    (* U+2018 *)
Definition RDQUO : string := bytes [226; 128; 157]%nat.    (* U+201D *)
Definition LDQUO : string := bytes [226; 128; 156]%nat.    (* U+201C *)
Definition REGISTERED : string := bytes [194; 174]%nat.    (* U+00AE *)
Definition TRADEMARK : string := bytes [226; 132; 162]%nat. (* U+2122 *)
Definition COPYRIGHT : string := bytes [194; 169]%nat.     (* U+00A9 *)
Definition BLACKSTAR : string := bytes [226; 152; 133]%nat. (* U+2605 *)
Definition DQUOTE : string := bytes [34]%nat.
Definition BACKSLASH : string := bytes [92]%nat.

(** ** Package [strings] *)

Module GoStrings.

Fixpoint HasPrefix (s prefix : string) : bool :=
  match prefix, s with
  | EmptyString, _ => true
  | String _ _, EmptyString => false
  | String p ps, String c cs => Ascii.eqb c p && HasPrefix cs ps
  end.

Fixpoint dropBytes (n : nat) (s : string) : string :=
  match n, s with
  | O, _ => s
  | S _, EmptyString => EmptyString
  | S k, String _ cs => dropBytes k cs
  end.

(** [len(s) >= len(suffix) && s[len(s)-len(suffix):] == suffix] *)
Definition HasSuffix (s suffix : string) : bool :=
  (String.length suffix <=? String.length s)%nat
  && String.eqb (dropBytes (String.length s - String.length suffix) s) suffix.

Fixpoint Contains (s substr : string) : bool :=
  HasPrefix s substr
  || match s with
     | EmptyString => false
     | String _ cs => Contains cs substr
     end.

(** [Split(s, sep)] for a non-empty separator: the text is scanned
    from the left, every leftmost occurrence of [sep] closes a field
    and the scan resumes after it ([skip] counts the bytes of the
    separator still to pass over). Every separator of the program is a
    non-empty literal. *)
Fixpoint splitFrom (sep : string) (skip : nat) (s : string) : list string :=
  match s with
  | EmptyString => [EmptyString]
  | String c cs =>
      match skip with
      | S k => splitFrom sep k cs
      | O =>
          if HasPrefix s sep
          then EmptyString :: splitFrom sep (String.length sep - 1) cs
          else match splitFrom sep 0 cs with
               | f :: fs => String c f :: fs
               | [] => [String c EmptyString]
               end
      end
  end.

Definition Split (s sep : string) : list string := splitFrom sep 0 s.

(** [Replace(s, old, new, n)] for a non-empty [old]: the first [n]
    non-overlapping occurrences, all of them when [n < 0]. [limit] is
    the number of replacements left, [None] when unbounded. *)
Fixpoint replaceFrom (old new : string) (limit : option nat) (skip : nat)
    (s : string) : string :=
  match s with
  | EmptyString => EmptyString
  | String c cs =>
      match skip with
      | S k => replaceFrom old new limit k cs
      | O =>
          match limit with
          | Some O => s
          | _ =>
              if HasPrefix s old
              then new ++ replaceFrom old new (pred <$> limit)
                            (String.length old - 1) cs
              else String c (replaceFrom old new limit 0 cs)
          end
      end
  end.

Definition Replace (s old new : string) (n : Z) : string :=
  if String.eqb old new || (n =? 0) then s
  else replaceFrom old new (if n <? 0 then None else Some (Z.to_nat n)) 0 s.

(** [NewReplacer(oldnew...).Replace(s)], generic algorithm: at each
    position the pairs are tried in argument order, the first whose
    old string starts there is applied, matches do not overlap. All
    old strings of the program's table are non-empty. *)
Fixpoint replacerFrom (oldnew : list (string * string)) (skip : nat)
    (s : string) : string :=
  match s with
  | EmptyString => EmptyString
  | String c cs =>
      match skip with
      | S k => replacerFrom oldnew k cs
      | O =>
          match find (fun p => HasPrefix s (fst p)) oldnew with
          | Some (old, new) =>
              new ++ replacerFrom oldnew (String.length old - 1) cs
          | None => String c (replacerFrom oldnew 0 cs)
          end
      end
  end.

Definition ReplacerReplace (oldnew : list (string * string)) (s : string)
  : string := replacerFrom oldnew 0 s.

(** White space in the sense of [unicode.IsSpace], as UTF-8 byte
    sequences: the six ASCII ones, U+0085, U+00A0, U+1680,
    U+2000..U+200A, U+2028, U+2029, U+202F, U+205F and U+3000. A byte
    that starts one of them is never a continuation byte, so looking
    for these sequences at a byte position agrees with decoding runes. *)
Definition spaces : list string :=
  map bytes
    [ [9]; [10]; [11]; [12]; [13]; [32];
      [194; 133]; [194; 160]; [225; 154; 128];
      [226; 128; 128]; [226; 128; 129]; [226; 128; 130]; [226; 128; 131];
      [226; 128; 132]; [226; 128; 133]; [226; 128; 134]; [226; 128; 135];
      [226; 128; 136]; [226; 128; 137]; [226; 128; 138];
      [226; 128; 168]; [226; 128; 169]; [226; 128; 175];
      [226; 129; 159]; [227; 128; 128] ]%nat.

(** The white-space sequence at the head of [s], if any. *)
Definition spaceAt (s : string) : option string :=
  find (HasPrefix s) spaces.

Fixpoint trimLeftFrom (skip : nat) (s : string) : string :=
  match s with
  | EmptyString => EmptyString
  | String _ cs =>
      match skip with
      | S k => trimLeftFrom k cs
      | O =>
          match spaceAt s with
          | Some sp => trimLeftFrom (String.length sp - 1) cs
          | None => s
          end
      end
  end.

Definition revString (s : string) : string :=
  string_of_list_ascii (rev (list_ascii_of_string s)).

(** The white-space sequence at the end of the text whose bytes are
    given last first. *)
Definition spaceAtEnd (r : string) : option string :=
  find (fun sp => HasPrefix r (revString sp)) spaces.

Fixpoint trimRightFrom (skip : nat) (r : string) : string :=
  match r with
  | EmptyString => EmptyString
  | String _ cs =>
      match skip with
      | S k => trimRightFrom k cs
      | O =>
          match spaceAtEnd r with
          | Some sp => trimRightFrom (String.length sp - 1) cs
          | None => r
          end
      end
  end.

Definition TrimSpace (s : string) : string :=
  revString (trimRightFrom 0 (revString (trimLeftFrom 0 s))).

(** [Fields(s)]: the maximal runs of bytes free of white space.
    [fieldsFrom] returns the run in progress and the later fields. *)
Fixpoint fieldsFrom (skip : nat) (s : string) : string * list string :=
  match s with
  | EmptyString => (EmptyString, [])
  | String c cs =>
      match skip with
      | S k => fieldsFrom k cs
      | O =>
          match spaceAt s with
          | Some sp =>
              let '(f, fs) := fieldsFrom (String.length sp - 1) cs in
              (EmptyString, if String.eqb f EmptyString then fs else f :: fs)
          | None =>
              let '(f, fs) := fieldsFrom 0 cs in (String c f, fs)
          end
      end
  end.

Definition Fields (s : string) : list string :=
  let '(f, fs) := fieldsFrom 0 s in
  if String.eqb f EmptyString then fs else f :: fs.

Fixpoint memByte (c : ascii) (cutset : string) : bool :=
  match cutset with
  | EmptyString => false
  | String d ds => Ascii.eqb c d || memByte c ds
  end.

(** [TrimLeft] and [TrimRight] for a cutset of ASCII bytes (the
    program passes "0", "(" and ")"): byte-wise. *)
Fixpoint TrimLeft (s cutset : string) : string :=
  match s with
  | EmptyString => EmptyString
  | String c cs => if memByte c cutset then TrimLeft cs cutset else s
  end.

Definition TrimRight (s cutset : string) : string :=
  revString (TrimLeft (revString s) cutset).

(** [Index(s, substr)]: the position of the first occurrence, -1 when
    there is none. *)
Fixpoint Index (s substr : string) : Z :=
  if HasPrefix s substr then 0
  else match s with
       | EmptyString => -1
       | String _ cs =>
           let i := Index cs substr in
           if i <? 0 then -1 else i + 1
       end.

Definition isASCIIByte (c : ascii) : bool := byteVal c <? 128.

Fixpoint isASCII (s : string) : bool :=
  match s with
  | EmptyString => true
  | String c cs => isASCIIByte c && isASCII cs
  end.

Definition lowerByte (c : ascii) : ascii :=
  if (65 <=? byteVal c) && (byteVal c <=? 90)
  then ascii_of_nat (nat_of_ascii c + 32)
  else c.

Fixpoint mapBytes (f : ascii -> ascii) (s : string) : string :=
  match s with
  | EmptyString => EmptyString
  | String c cs => String (f c) (mapBytes f cs)
  end.

(** [ToLower]: byte-wise on ASCII text; on other text Go maps every
    rune through the Unicode case tables, which are not part of the
    program: [unicodeLower] stands for [Map(unicode.ToLower, s)]. *)
Definition ToLower (unicodeLower : string -> string) (s : string) : string :=
  if isASCII s then mapBytes lowerByte s else unicodeLower s.

End GoStrings.

(** ** Package [strconv] and [fmt.Sprint] on [int] *)

Module GoStrconv.

Definition maxInt : Z := 2 ^ 63 - 1.
Definition minInt : Z := - 2 ^ 63.
Definition maxUint64 : Z := 2 ^ 64 - 1.

(** Two's-complement wrap-around of [int] arithmetic. *)
Definition intWrap (z : Z) : Z := (z + 2 ^ 63) mod 2 ^ 64 - 2 ^ 63.
Definition intAdd (a b : Z) : Z := intWrap (a + b).
Definition intSub (a b : Z) : Z := intWrap (a - b).

Inductive NumError := ErrSyntax | ErrRange.

Definition isDigit (c : ascii) : bool :=
  (48 <=? byteVal c) && (byteVal c <=? 57).

(** The loop of [ParseUint(s, 10, 64)]: a byte that is no digit is a
    syntax error, an overflow of 64 bits stops the scan at once with
    the largest value and a range error. *)
Fixpoint parseUintLoop (n : Z) (s : string) : Z * option NumError :=
  match s with
  | EmptyString => (n, None)
  | String c cs =>
      if negb (isDigit c) then (0, Some ErrSyntax)
      else if maxUint64 / 10 + 1 <=? n then (maxUint64, Some ErrRange)
      else
        let n1 := n * 10 + (byteVal c - 48) in
        if maxUint64 <? n1 then (maxUint64, Some ErrRange)
        else parseUintLoop n1 cs
  end.

Definition ParseUint (s : string) : Z * option NumError :=
  match s with
  | EmptyString => (0, Some ErrSyntax)
  | _ => parseUintLoop 0 s
  end.

(** [ParseInt(s, 10, 0)]. *)
Definition ParseInt (s : string) : Z * option NumError :=
  match s with
  | EmptyString => (0, Some ErrSyntax)
  | String c cs =>
      let '(neg, digits) :=
        if Ascii.eqb c "+" then (false, cs)
        else if Ascii.eqb c "-" then (true, cs)
        else (false, s) in
      match ParseUint digits with
      | (_, Some ErrSyntax) => (0, Some ErrSyntax)
      | (un, _) =>
          if negb neg && (2 ^ 63 <=? un) then (maxInt, Some ErrRange)
          else if neg && (2 ^ 63 <? un) then (minInt, Some ErrRange)
          else (if neg then - un else un, None)
      end
  end.

(** [Atoi]: its fast path for short inputs computes what [ParseInt]
    computes, so [Atoi] is [ParseInt(s, 10, 0)] with the value
    converted to [int]. The value is returned next to the error: the
    program reads it even when it drops the error. *)
Definition Atoi (s : string) : Z * option NumError := ParseInt s.

(** [fmt.Sprint] of an [int]: decimal digits, a minus sign when
    negative, no padding. *)
Definition Sprint (z : Z) : string := NilZero.string_of_int (Z.to_int z).

End GoStrconv.

Import GoStrings GoStrconv.

(** ** Data model ([main.go]) *)

Record CardData := mkCardData {
  Name : string;
  Number : string;
  Foil : bool;
  Etched : bool;
  Token : bool;
}.

Record CardSet := mkCardSet {
  Title : string;
  Filename : string;
  Cards : list CardData;
}.

Definition withNumber (card : CardData) (number : string) : CardData :=
  mkCardData (Name card) number (Foil card) (Etched card) (Token card).

Definition len (s : string) : Z := Z.of_nat (String.length s).

(** [a[i]] on a slice of strings. The program only indexes within
    bounds, so the default is never read: [Split] returns at least one
    field, and at least two when the separator occurs
    ([Split_not_nil], [Split_two_fields]); the last field of the gallery
    title is read once that title is known to contain " (". *)
Definition elemAt (a : list string) (i : nat) : string := nth i a EmptyString.

Definition noError (r : Z * option NumError) : bool :=
  match snd r with None => true | Some _ => false end.

(** *** Vocabulary for statements about texts *)

Fixpoint allBytes (P : ascii -> bool) (s : string) : bool :=
  match s with
  | EmptyString => true
  | String c cs => P c && allBytes P cs
  end.

Fixpoint lastByte (s : string) : option ascii :=
  match s with
  | EmptyString => None
  | String c cs =>
      match cs with
      | EmptyString => Some c
      | String _ _ => lastByte cs
      end
  end.

(** The six ASCII white-space bytes. *)
Definition asciiSpace (c : ascii) : bool :=
  memByte c (bytes [9; 10; 11; 12; 13; 32]%nat).

(** A byte that can stand in a text accepted by [Atoi]. *)
Definition countByte (c : ascii) : bool :=
  isDigit c || Ascii.eqb c "+" || Ascii.eqb c "-".

(** A text put where the count of a line stands: ASCII, without "x",
    not starting with white space. *)
Definition countText (ds : string) : bool :=
  isASCII ds
  && negb (memByte "x" ds)
  && match ds with
     | EmptyString => true
     | String c _ => negb (asciiSpace c)
     end.

(** A card name as plain as the listing lines of the shop: ASCII text,
    not empty, that does not end in white space and in which no "x" is
    followed by a space. *)
Definition plainName (name : string) : bool :=
  isASCII name
  && negb (Contains name "x ")
  && match lastByte name with
     | Some c => negb (asciiSpace c)
     | None => false
     end.

(** ** [extractNumber] and [getNumberFromLink] *)

Fixpoint extractNumber (fields : list string) (minLen : Z) : string :=
  match fields with
  | [] => ""
  | field :: rest =>
      (* Finding any of these characters means it's over *)
      if String.eqb field TRADEMARK || String.eqb field COPYRIGHT then ""
      else if (minLen <? len field) && noError (Atoi field) then field
      else extractNumber rest minLen
  end.

(** What [getNumberFromLink] does with the fields of the recognised
    text: a strict scan, then a relaxed one when the first found nothing. *)
Definition pickNumber (fields : list string) : string :=
  let num := extractNumber fields 3 in
  if String.eqb num "" then extractNumber fields 2 else num.

Definition numberFromText (text : string) : string :=
  pickNumber (Fields text).

(** *** Vocabulary of the specification of the token filter *)

(** A terminator glyph standing alone as a token. *)
Definition isTerminator (token : string) : bool :=
  String.eqb token TRADEMARK || String.eqb token COPYRIGHT.

(** A token longer than [minLen] that parses as an integer. *)
Definition qualifies (minLen : Z) (token : string) : bool :=
  (minLen <? len token) && noError (Atoi token).

(** The first token longer than [minLen] that parses as an integer. *)
Definition firstQualifying (minLen : Z) (fields : list string) : option string :=
  find (qualifies minLen) fields.

(** The tokens that come before the first terminator. *)
Fixpoint beforeTerminator (fields : list string) : list string :=
  match fields with
  | [] => []
  | token :: rest =>
      if isTerminator token then [] else token :: beforeTerminator rest
  end.

(** ** [cleanLine] *)

Inductive LineError := UnexpectedLineFormat | InvalidNumberInLine.

Definition errorMessage (e : LineError) : string :=
  match e with
  | UnexpectedLineFormat => "unexpected line format"
  | InvalidNumberInLine => "invalid number in line"
  end.

Definition denylist : list string :=
  [ "Full-Text"; "Full-Art"; "Full-art"; "Alt-Art";
    "Reversible"; "Old Frame"; "Retro Frame";
    "Poster"; "Stained Glass";
    "Foil-etched"; "Etched"; "Foil"; "Tokens"; "Token";
    "Different"; "Hand-Drawn"; "Borderless";
    "Showcase"; "Left-Handed"; "Edition"; "cards"; "Japanese";
    "Regular Human Guy"; "Ichor-E"; "DFC"; "Italian-language"; "*" ].

(** ** [cleanTitle] *)

Definition replacerStrings : list (string * string) :=
  [ (* Unicode characters *)
    (NNBSP, " "); (RSQUO, "'"); (LSQUO, "'"); (REGISTERED, ""); (TRADEMARK, "");
    (* Windows special characters *)
    ("<", ""); (">", ""); ("/", ""); (BACKSLASH, ""); ("*", ""); (" - ", " ");
    (* Compatibility layer *)
    ("Regular", ""); ("DD ", ""); ("Secret Lair x ", ""); ("(English)", "");
    ("English", ""); (" EN", "");
    (* Spaces (need to be at the end to capture as much as possible) *)
    ("   ", " "); ("  ", " ") ].

Definition cleanTitle (title : string) : string * string :=
  let title :=
    if Contains title "|" then
      let ogTitle := title in
      let title := elemAt (Split title " | ") 0 in
      if HasSuffix ogTitle "Foil Edition" then title ++ " Foil Edition"
      else title
    else title in
  let title := ReplacerReplace replacerStrings title in
  (* "Secret Lair High" needs to stay *)
  let title :=
    if negb (Contains title "High") then Replace title "Secret Lair " "" 1
    else title in
  let title := Replace title "S.P.E.C.I.A.L." "SPECIAL" 1 in
  let title := if HasSuffix title "Foil" then title ++ " Edition" else title in
  let originalName := TrimSpace title in
  let title := Replace title ":" "-" (-1) in
  let filename := TrimSpace title in
  (filename, originalName).

(** ** Backfill (the end of [scrapeProduct]) *)

(** The loop that counts the cards carrying a number. *)
Fixpoint foundNum (cards : list CardData) : nat :=
  match cards with
  | [] => O
  | card :: rest =>
      if negb (String.eqb (Number card) "") then S (foundNum rest)
      else foundNum rest
  end.

(** The loop that looks for the longest number: [i] is the position of
    the head of [cards], [num] and [pos] are the loop's variables. *)
Fixpoint findLongest (i : nat) (cards : list CardData) (num : string) (pos : Z)
  : string * Z :=
  match cards with
  | [] => (num, pos)
  | card :: rest =>
      if negb (String.eqb (Number card) "") && (len num <? len (Number card))
      then findLongest (S i) rest (Number card) (Z.of_nat i)
      else findLongest (S i) rest num pos
  end.

Definition backfill (cards : list CardData) : list CardData :=
  if negb (foundNum cards =? length cards)%nat then
    let '(num, pos) := findLongest 0 cards "" (-1) in
    if negb (String.eqb num "") then
      let cn := fst (Atoi (TrimLeft num "0")) in
      if 0 <? cn then
        imap (fun j card =>
                withNumber card (Sprint (intSub (intAdd cn (Z.of_nat j)) pos)))
             cards
      else cards
    else cards
  else cards.

(** ** The result filter of [search] ([scryfall.go]) *)

Module Scryfall.

(** The fields of a [scryfall.Card] that [search] reads; a face is
    represented by its name. *)
Record Card := mkCard {
  Name : string;
  CollectorNumber : string;
  CardFaces : list string;
  TypeLine : string;
  PromoTypes : list string;
}.

End Scryfall.

Definition searchEntry (card : Scryfall.Card) : CardData :=
  (* Only preserve one chunk of the card *)
  let name := elemAt (Split (Scryfall.Name card) " // ") 0 in
  let number := Scryfall.CollectorNumber card in
  (* Special case since upstream treates faces differently *)
  let number :=
    if (0 <? length (Scryfall.CardFaces card))%nat then number ++ "a"
    else number in
  (* In case we need it for later *)
  let isToken := Contains (Scryfall.TypeLine card) "Token" in
  mkCardData name number false false isToken.

(** The loop of [search] over [result.Cards]. *)
Fixpoint searchCards (cards : list Scryfall.Card) : list CardData :=
  match cards with
  | [] => []
  | card :: rest =>
      (* Make sure to exclude bonus cards, they are tracked elsewhere *)
      if existsb (String.eqb "sldbonus") (Scryfall.PromoTypes card)
      then searchCards rest
      (* Skip (older) duplicated foil-only cards *)
      else if HasSuffix (Scryfall.CollectorNumber card) BLACKSTAR
      then searchCards rest
      else searchEntry card :: searchCards rest
  end.

(** ** Fold mode *)

(** The number of images that the gallery title declares: its last
    field without the parentheses, read by [Atoi] whose error is dropped. *)
Definition declaredTotal (galleryTitle : string) : Z :=
  let fields := Fields galleryTitle in
  let expectedNum := elemAt fields (length fields - 1) in
  let expectedNum := TrimLeft expectedNum "(" in
  let expectedNum := TrimRight expectedNum ")" in
  fst (Atoi expectedNum).

(** The flag [foldMode]; [/] on [int] truncates toward zero. *)
Definition foldModeOf (galleryTitle : string) (cards : list CardData) : bool :=
  if Contains galleryTitle " (" then
    let expectedNumber := declaredTotal galleryTitle in
    Z.quot expectedNumber 2 =? Z.of_nat (length cards)
  else false.

Section Scraper.

(** [Map(unicode.ToLower, s)] on text that is not ASCII. *)
Variable unicodeLower : string -> string.

(** The text that the OCR engine recognises in the image behind a
    link; [None] when the download or the recognition fails. *)
Variable recognize : string -> option string.

Definition getNumberFromLink (link : string) : option string :=
  numberFromText <$> recognize link.

Definition stripTag (cardLine tag : string) : string :=
  let cardLine := Replace cardLine tag "" (-1) in
  Replace cardLine (ToLower unicodeLower tag) "" (-1).

(** The loop over the denylist. *)
Definition stripDenylist (cardLine : string) : string :=
  fold_left stripTag denylist cardLine.

(** A name in which no tag of the denylist occurs, as written or in
    lower case. *)
Definition tagFree (name : string) : bool :=
  forallb (fun tag =>
             negb (Contains name tag)
             && negb (Contains name (ToLower unicodeLower tag)))
          denylist.

(** [cleanLine] up to the split of the count. *)
Definition normalizeLine (cardLine : string) : string :=
  let cardLine := Replace cardLine NNBSP " " (-1) in
  let cardLine := Replace cardLine RSQUO "'" (-1) in
  let cardLine := Replace cardLine RDQUO DQUOTE (-1) in
  let cardLine := Replace cardLine LDQUO DQUOTE (-1) in
  TrimSpace cardLine.

(** [cleanLine] from [cardLine = strings.TrimSpace(fields[1])] on. *)
Definition cleanName (field : string) : string :=
  let cardLine := TrimSpace field in
  (* Remove anything appearing after a parenthesis *)
  let cardLine :=
    if Contains cardLine "(" then elemAt (Split cardLine "(") 0
    else cardLine in
  (* Remove everything before "Foil" *)
  let cardLine :=
    if Contains cardLine "Foil"
       && negb (HasSuffix cardLine "Foil Edition")
       && negb (HasSuffix cardLine "Foil Etched")
    then elemAt (Split cardLine "Foil") 1
    else cardLine in
  (* Remove this tag except for the cards with Phyrexian in them *)
  let cardLine :=
    if negb (Contains cardLine "Tower")
       && negb (Contains cardLine "Crusader")
       && negb (Contains cardLine "Unlife")
    then Replace cardLine "Phyrexian" "" (-1)
    else cardLine in
  (* Remove random prefixes from card names *)
  let cardLine := stripDenylist cardLine in
  (* Remove flavor names *)
  let cardLine :=
    if Contains cardLine " as " then elemAt (Split cardLine " as ") 0
    else cardLine in
  let cardLine :=
    if Contains cardLine " by " then elemAt (Split cardLine " by ") 0
    else cardLine in
  (* Bob Ross Drop *)
  let cardLine :=
    if Contains cardLine " with art" then elemAt (Split cardLine " with art") 0
    else cardLine in
  (* Standardize DFC *)
  let cardLine :=
    if Contains cardLine "//" && negb (Contains cardLine " // ")
    then Replace cardLine "//" " // " (-1)
    else cardLine in
  (* Only keep one face of the card *)
  let cardLine := elemAt (Split cardLine " // ") 0 in
  (* Use upstream sheet name *)
  let cardLine := Replace cardLine "Sticker Sheets" "Sticker sheet" (-1) in
  (* Typo *)
  let cardLine := Replace cardLine "Xenegos" "Xenagos" (-1) in
  TrimSpace cardLine.

Definition cleanLine (cardLine : string) : LineError + (string * Z) :=
  let cardLine := normalizeLine cardLine in
  let fields := Split cardLine "x " in
  if negb (length fields =? 2)%nat then inl UnexpectedLineFormat
  else
    match Atoi (elemAt fields 0) with
    | (_, Some _) => inl InvalidNumberInLine
    | (num, None) => inr (cleanName (elemAt fields 1), num)
    end.

(** ** Items of a listing line (the loops of [scrapeProduct]) *)

(** [for i := 0; i < num; i++ { cards = append(cards, card); if
    astrology { break } }], with [n] the iterations that are left. *)
Fixpoint appendCopies (astrology : bool) (n : nat) (card : CardData)
    (cards : list CardData) : list CardData :=
  match n with
  | O => cards
  | S k =>
      let cards := (cards ++ [card])%list in
      (* Special hack for this set *)
      if astrology then cards else appendCopies astrology k card cards
  end.

Definition lineCard (line cardLine : string) : CardData :=
  mkCardData cardLine ""
    (Contains (ToLower unicodeLower line) "foil")
    (Contains (ToLower unicodeLower line) "etched")
    (Contains (ToLower unicodeLower line) "token").

(** The body run for one line, by the bullet-point loop and by the
    fallback loop alike: a line in error adds nothing. *)
Definition addLine (title : string) (cards : list CardData) (line : string)
  : list CardData :=
  match cleanLine line with
  | inl _ => cards
  | inr (cardLine, num) =>
      appendCopies (Contains title "Astrology Lands") (Z.to_nat num)
        (lineCard line cardLine) cards
  end.

(** The cards of a page: the bullet points, or, when they give no
    card, the lines of the product information; [None] stands for the
    error "no cards found". *)
Definition pageCards (title : string) (bullets : list string)
    (productInfo : string) : option (list CardData) :=
  let cards := fold_left (addLine title) bullets [] in
  if (length cards =? 0)%nat then
    let cards := fold_left (addLine title) (Split productInfo "<br/>") cards in
    if (length cards =? 0)%nat then None else Some cards
  else Some cards.

(** ** The gallery pass *)

(** The callback of [EachWithBreak] over the [figure a] elements, each
    given by its [href] attribute if it has one; [idx] is the position
    of the head of [images]. *)
Fixpoint imagePass (foldMode : bool) (idx : nat)
    (images : list (option string)) (cards : list CardData)
  : list CardData :=
  match images with
  | [] => cards
  | href :: rest =>
      let i := if foldMode then (idx / 2)%nat else idx in
      match cards !! i with
      | None => cards (* more images than loaded cards: stop *)
      | Some card =>
          if negb (String.eqb (Number card) "")
          then imagePass foldMode (S idx) rest cards
          else
            match href with
            | None => imagePass foldMode (S idx) rest cards
            | Some imgLink =>
                let imgLink :=
                  if HasPrefix imgLink "/"
                  then "https://secretlair.wizards.com" ++ imgLink
                  else imgLink in
                match getNumberFromLink imgLink with
                | None => imagePass foldMode (S idx) rest cards
                | Some num =>
                    imagePass foldMode (S idx) rest
                      (<[i := withNumber card num]> cards)
                end
            end
      end
  end.

(** [scrapeProduct] after the match against the catalogue: the gallery
    pass when OCR is on, then the backfill. *)
Definition resolveNumbers (doOCR : bool) (galleryTitle : string)
    (images : list (option string)) (cards : list CardData)
  : list CardData :=
  let cards :=
    if doOCR
    then imagePass (foldModeOf galleryTitle cards) 0 images cards
    else cards in
  backfill cards.

End Scraper.

(** * The rest of the scraper *)

Definition BULLET : string := bytes [226; 128; 162]%nat.   (* U+2022 *)
Definition LF : string := bytes [10]%nat.

(** ** The catalogue headers ([loadScryfallHeaders]) *)

Module Header.

Record scryfallHeader := mk {
  Title : string;
  URI : string;
}.

End Header.

(** The body of the loop over the header elements of the catalogue
    page: [text] is the text of the element, [href] the attribute of its
    link, read as "" when there is none. *)
Definition headerOf (text : string) (href : option string)
  : Header.scryfallHeader :=
  let title := elemAt (Split text BULLET) 0 in
  let title := TrimSpace title in
  let uri := default "" href in
  Header.mk title uri.

Definition loadScryfallHeaders (elements : list (string * option string))
  : list Header.scryfallHeader :=
  map (fun element => headerOf (fst element) (snd element)) elements.

(** ** The match against the catalogue ([scrapeProduct]) *)

(** The name-to-number map that the catalogue query returns. The
    program only reads it, key by key, so it is represented by its
    lookup; a key that is missing reads as "" in Go. *)
Definition NameMap : Type := string -> option string.

(** The display title without its cosmetic suffixes. *)
Definition matchingTitle (title : string) : string :=
  let cleanTitle := Replace title " Foil Edition" "" (-1) in
  let cleanTitle := Replace cleanTitle " Raised" "" (-1) in
  Replace cleanTitle " Galaxy" "" (-1).

(** [for i, card := range cards { cards[i].Number = results[card.Name] }] *)
Definition assignNumbers (results : NameMap) (cards : list CardData)
  : list CardData :=
  map (fun card => withNumber card (default "" (results (Name card)))) cards.

(** ** The output ([dumpCards]) *)

(** The line written for one card. *)
Definition cardLineText (card : CardData) : string :=
  let number :=
    if negb (String.eqb (Number card) "") then ":" ++ Number card
    else Number card in
  "1 [SLD" ++ number ++ "] " ++ Name card
  ++ (if Foil card then " [foil]" else "")
  ++ (if Etched card then " [etched]" else "")
  ++ (if Token card then " [token]" else "")
  ++ LF.

Fixpoint cardLinesText (cards : list CardData) : string :=
  match cards with
  | [] => ""
  | card :: rest => cardLineText card ++ cardLinesText rest
  end.

(** The name of the file that [dumpCards] creates and the text it
    writes into it. *)
Definition dumpFileName (cardSet : CardSet) : string :=
  Filename cardSet ++ ".txt".

Definition dumpText (cardSet : CardSet) (link releaseDate : string) : string :=
  "// NAME: " ++ Title cardSet ++ LF
  ++ "// SOURCE: " ++ link ++ LF
  ++ (if negb (String.eqb releaseDate "")
      then "// DATE: " ++ releaseDate ++ LF else "")
  ++ cardLinesText (Cards cardSet).

(** ** The product page as a whole ([scrapeProduct]) *)

(** What [scrapeProduct] reads in the page: the text of the title, the
    texts of the bullet points, the product information, the title of
    the gallery and, for each image link of the gallery, its [href]. *)
Record Page := mkPage {
  PageTitle : string;
  Bullets : list string;
  ProductInfo : string;
  GalleryTitle : string;
  Images : list (option string);
}.

Section Product.

Variable unicodeLower : string -> string.
Variable recognize : string -> option string.

(** [fuzzy.Match] of the fuzzysearch library. *)
Variable fuzzyMatch : string -> string -> bool.

(** The catalogue query for a header's URI; [None] when it fails. *)
Variable search : string -> option NameMap.

(** The loop over the headers: the first header whose title matches and
    whose query succeeds gives the numbers; the flag is [foundMatch]. *)
Fixpoint matchHeaders (cleanTitle : string)
    (headers : list Header.scryfallHeader) (cards : list CardData)
  : list CardData * bool :=
  match headers with
  | [] => (cards, false)
  | header :: rest =>
      let a := ToLower unicodeLower cleanTitle in
      let b := ToLower unicodeLower (Header.Title header) in
      if negb (fuzzyMatch a b || Contains a b || Contains b a)
      then matchHeaders cleanTitle rest cards
      else
        match search (Header.URI header) with
        | None => matchHeaders cleanTitle rest cards
        | Some results => (assignNumbers results cards, true)
        end
  end.

(** [scrapeProduct] once the page is fetched; [None] stands for the
    error "no cards found". *)
Definition scrapeProduct (headers : list Header.scryfallHeader) (page : Page)
    (doOCR : bool) : option CardSet :=
  let title := PageTitle page in
  let '(filename, displayTitle) := cleanTitle title in
  match pageCards unicodeLower title (Bullets page) (ProductInfo page) with
  | None => None
  | Some cards =>
      let cleanTitle := matchingTitle displayTitle in
      let '(cards, _) := matchHeaders cleanTitle headers cards in
      let cards :=
        resolveNumbers recognize doOCR (GalleryTitle page) (Images page) cards in
      Some (mkCardSet displayTitle filename cards)
  end.

End Product.

(** *** Vocabulary for the further properties *)

(** What an Item is apart from its number. *)
Definition itemShape (card : CardData) : string * bool * bool * bool :=
  (Name card, Foil card, Etched card, Token card).

Fixpoint occurrences (c : ascii) (s : string) : nat :=
  match s with
  | EmptyString => O
  | String d ds => (if Ascii.eqb d c then 1 else 0) + occurrences c ds
  end.

Definition colonToHyphen (c : ascii) : ascii :=
  if Ascii.eqb c ":" then "-"%char else c.

(** The test of the loop over the headers: the title of the product
    and the title of the header, in lower case, match fuzzily or one
    contains the other. *)
Definition headerMatches (unicodeLower : string -> string)
    (fuzzyMatch : string -> string -> bool) (cleanTitle : string)
    (header : Header.scryfallHeader) : bool :=
  let a := ToLower unicodeLower cleanTitle in
  let b := ToLower unicodeLower (Header.Title header) in
  fuzzyMatch a b || Contains a b || Contains b a.

(** A header that gives no numbers: its title does not match or its
    query fails. *)
Definition headerSkipped (unicodeLower : string -> string)
    (fuzzyMatch : string -> string -> bool) (search : string -> option NameMap)
    (cleanTitle : string) (header : Header.scryfallHeader) : bool :=
  negb (headerMatches unicodeLower fuzzyMatch cleanTitle header)
  || match search (Header.URI header) with
     | None => true
     | Some _ => false
     end.

(** *** Scenarios for the further properties *)

(** A stand-in for the fuzzy matcher: equal titles only. *)
Definition exactMatch (a b : string) : bool := String.eqb a b.

(** A catalogue with one query that succeeds, and one name in its map. *)
Definition boltCatalogue (uri : string) : option NameMap :=
  if String.eqb uri "/search?q=bolt"
  then Some (fun name =>
               if String.eqb name "Lightning Bolt" then Some "82" else None)
  else None.

Definition boltHeaders : list Header.scryfallHeader :=
  [Header.mk "Commander Deck" "/search?q=deck";
   Header.mk "Bolt Drop Extra" "/search?q=broken";
   Header.mk "Bolt Drop" "/search?q=bolt";
   Header.mk "The Bolt Drop" "/search?q=late"].

Definition boltPage : Page :=
  mkPage "Secret Lair Bolt Drop: Part 1/2 | Foil Edition"
    ["1x Foil Lightning Bolt"; "2x Island"] "" "Gallery" [].

(** The bytes that the table of [cleanTitle] removes as special
    characters of Windows file names. *)
Definition unsafeBytes : string := "<>/" ++ BACKSLASH ++ "*".

(** The test that lets a record of the catalogue into the result. *)
Definition retained (card : Scryfall.Card) : bool :=
  negb (existsb (String.eqb "sldbonus") (Scryfall.PromoTypes card))
  && negb (HasSuffix (Scryfall.CollectorNumber card) BLACKSTAR).

(** ** Scenarios *)

(** A stand-in for the Unicode case tables in statements about
    concrete ASCII texts, on which [ToLower] never consults them. *)
Definition noUnicode : string -> string := fun s => s.

Definition mkItem (name number : string) : CardData :=
  mkCardData name number false false false.

(** Scenario D of the specification. *)
Definition scenarioD : list CardData :=
  [mkItem "A" ""; mkItem "B" "012"; mkItem "C" ""].

(** A product whose third card was numbered before the backfill. *)
Definition scenarioResolved : list CardData :=
  [mkItem "A" ""; mkItem "B" "100"; mkItem "C" "250"].

(** A product whose only number, 1, is on the third card. *)
Definition scenarioLow : list CardData :=
  [mkItem "A" ""; mkItem "B" ""; mkItem "C" "1"].

Definition threeCards : list CardData :=
  [mkItem "A" ""; mkItem "B" ""; mkItem "C" ""].

(** An OCR engine that reads nothing on a front image and "999" on
    every other image. *)
Definition backOnly (link : string) : option string :=
  if String.eqb link "https://secretlair.wizards.com/front.png" then Some ""
  else Some "999".

(** An OCR engine that reads "1234" everywhere. *)
Definition always1234 (link : string) : option string := Some "1234".

Definition bonusCard : Scryfall.Card :=
  Scryfall.mkCard "Lightning Bolt" "901" [] "Instant" ["sldbonus"].

Definition starCard : Scryfall.Card :=
  Scryfall.mkCard "Lightning Bolt" ("82" ++ BLACKSTAR) [] "Instant" [].

Definition twoFacedCard : Scryfall.Card :=
  Scryfall.mkCard "Delver of Secrets // Insectile Aberration" "1025"
    ["Delver of Secrets"; "Insectile Aberration"]
    "Creature // Creature" [].

(** Case analysis on the eight bits of a byte. *)
Ltac by_bytes c :=
  destruct c as [[] [] [] [] [] [] [] []];
  try discriminate; try reflexivity.

(** * Properties *)

(** ** The model of the Go library on sample texts *)

Example literals_are_utf8 :
  "™" = TRADEMARK /\ "©" = COPYRIGHT /\ "★" = BLACKSTAR /\ "’" = RSQUO.
Proof. repeat split; reflexivity. Qed.

Example Split_samples :
  Split "2 x Lightning Bolt (Foil)" "x " = ["2 "; "Lightning Bolt (Foil)"]
  /\ Split "1x Sphinx of the Second Sun" "x " = ["1"; "Sphin"; "of the Second Sun"]
  /\ Split "ax " "x " = ["a"; ""]
  /\ Split "abc" "x " = ["abc"].
Proof. repeat split; reflexivity. Qed.

Example Replace_samples :
  Replace "aaaa" "aa" "b" (-1) = "bb"
  /\ Replace "Secret Lair Secret Lair x" "Secret Lair " "" 1 = "Secret Lair x"
  /\ ReplacerReplace replacerStrings "A  -  B (English) EN" = "A - B "
  /\ ToLower noUnicode "Foil Etched" = "foil etched".
Proof. repeat split; reflexivity. Qed.

Example Atoi_samples :
  Atoi "2 " = (0, Some ErrSyntax)
  /\ Atoi "" = (0, Some ErrSyntax)
  /\ Atoi "012" = (12, None)
  /\ Atoi "-7" = (-7, None)
  /\ Atoi "9223372036854775807" = (maxInt, None)
  /\ Atoi "9223372036854775808" = (maxInt, Some ErrRange)
  /\ Atoi "99999999999999999999a" = (maxInt, Some ErrRange).
Proof. repeat split; reflexivity. Qed.

Example Sprint_samples :
  Sprint 0 = "0" /\ Sprint (-1) = "-1" /\ Sprint 120 = "120".
Proof. repeat split; reflexivity. Qed.

Example white_space_samples :
  TrimSpace ("  a b " ++ NNBSP) = "a b"
  /\ Fields (" 12  ab" ++ NNBSP ++ "c ") = ["12"; "ab"; "c"]
  /\ TrimLeft "0012" "0" = "12"
  /\ TrimRight (TrimLeft "(24)" "(") ")" = "24".
Proof. repeat split; reflexivity. Qed.

Example cleanLine_samples :
  cleanLine noUnicode "2x Lightning Bolt (Foil)" = inr ("Lightning Bolt", 2)
  /\ cleanLine noUnicode "1x Foil Borderless Thalia, Guardian of Thraben"
     = inr ("Thalia, Guardian of Thraben", 1)
  /\ cleanLine noUnicode "1x Sphinx of the Second Sun" = inl UnexpectedLineFormat
  /\ addLine noUnicode "Secret Lair: The Astrology Lands" [] "2x Island"
     = [mkCardData "Island" "" false false false].
Proof. repeat split; reflexivity. Qed.

(** ** Arithmetic of [int] *)

Lemma intWrap_small z : minInt <= z <= maxInt -> intWrap z = z.
Proof.
  unfold intWrap, minInt, maxInt. intros H.
  rewrite Z.mod_small; lia.
Qed.

Lemma intWrap_range z : minInt <= intWrap z <= maxInt.
Proof.
  unfold intWrap, minInt, maxInt.
  pose proof (Z.mod_pos_bound (z + 2 ^ 63) (2 ^ 64)). lia.
Qed.

Lemma intSub_intAdd a b c : intSub (intAdd a b) c = intWrap (a + b - c).
Proof.
  unfold intSub, intAdd, intWrap.
  replace ((a + b + 2 ^ 63) mod 2 ^ 64 - 2 ^ 63 - c + 2 ^ 63)
    with ((a + b + 2 ^ 63) mod 2 ^ 64 + (- c)) by lia.
  rewrite Zplus_mod_idemp_l.
  f_equal. f_equal. lia.
Qed.

(** ** The anchor of the backfill *)

Lemma len_nonneg s : 0 <= len s.
Proof. unfold len. lia. Qed.

Lemma len_zero s : len s <= 0 -> s = "".
Proof. unfold len. destruct s; simpl; [reflexivity | lia]. Qed.

Lemma eqb_empty_false s : s <> "" -> String.eqb s "" = false.
Proof. intros H. apply String.eqb_neq. exact H. Qed.

Lemma findLongest_pick (card : CardData) (num : string) :
  negb (String.eqb (Number card) "") && (len num <? len (Number card))
  = (len num <? len (Number card)).
Proof.
  destruct (String.eqb_spec (Number card) "") as [E | E]; simpl; [| reflexivity].
  rewrite E. symmetry. apply Z.ltb_ge. apply len_nonneg.
Qed.

(** What the anchor loop returns: its variables unchanged when no card
    has a longer number, otherwise the first card of the greatest
    length. *)
Lemma findLongest_spec (cards : list CardData) :
  forall (i : nat) (num : string) (pos : Z) (num' : string) (pos' : Z),
    findLongest i cards num pos = (num', pos') ->
    (num' = num /\ pos' = pos /\
     forall (j : nat) (c : CardData),
       cards !! j = Some c -> len (Number c) <= len num)
    \/
    (exists (k : nat) (anchor : CardData),
        cards !! k = Some anchor /\ num' = Number anchor /\
        pos' = Z.of_nat (i + k) /\ len num < len num' /\
        (forall (j : nat) (c : CardData),
            (j < k)%nat -> cards !! j = Some c -> len (Number c) < len num') /\
        (forall (j : nat) (c : CardData),
            cards !! j = Some c -> len (Number c) <= len num')).
Proof.
  induction cards as [| card rest IH]; intros i num pos num' pos' H; simpl in H.
  - left. inversion H; subst. repeat split; try reflexivity.
    intros j c Hj. rewrite lookup_nil in Hj. discriminate.
  - rewrite findLongest_pick in H.
    destruct (Z.ltb_spec (len num) (len (Number card))) as [Hlt | Hge].
    + right. apply IH in H as [(-> & -> & Hall) | (k & anchor & Hk & -> & -> & Hlen & Hbefore & Hall)].
      * exists 0%nat, card. repeat split; try assumption; try reflexivity.
        -- f_equal. lia.
        -- intros j c Hj. lia.
        -- intros [| j] c Hj; simpl in Hj.
           ++ inversion Hj; subst. lia.
           ++ apply (Hall j c Hj).
      * exists (S k), anchor. repeat split; try assumption; try reflexivity.
        -- f_equal. lia.
        -- lia.
        -- intros [| j] c Hj Hc; simpl in Hc.
           ++ inversion Hc; subst. lia.
           ++ apply (Hbefore j c); [lia | assumption].
        -- intros [| j] c Hc; simpl in Hc.
           ++ inversion Hc; subst. lia.
           ++ apply (Hall j c Hc).
    + apply IH in H as [(-> & -> & Hall) | (k & anchor & Hk & -> & -> & Hlen & Hbefore & Hall)].
      * left. repeat split; try reflexivity.
        intros [| j] c Hc; simpl in Hc.
        -- inversion Hc; subst. lia.
        -- apply (Hall j c Hc).
      * right. exists (S k), anchor. repeat split; try assumption; try reflexivity.
        -- f_equal. lia.
        -- intros [| j] c Hj Hc; simpl in Hc.
           ++ inversion Hc; subst. lia.
           ++ apply (Hbefore j c); [lia | assumption].
        -- intros [| j] c Hc; simpl in Hc.
           ++ inversion Hc; subst. lia.
           ++ apply (Hall j c Hc).
Qed.

Lemma foundNum_le (cards : list CardData) : (foundNum cards <= length cards)%nat.
Proof.
  induction cards as [| card rest IH]; simpl; [lia |].
  destruct (negb (String.eqb (Number card) "")); lia.
Qed.

Lemma foundNum_all (cards : list CardData) :
  foundNum cards = length cards ->
  forall c : CardData, c ∈ cards -> Number c <> "".
Proof.
  induction cards as [| card rest IH]; simpl; intros H c Hc.
  - inversion Hc.
  - pose proof (foundNum_le rest) as Hle.
    destruct (String.eqb_spec (Number card) "") as [E | E]; simpl in H; [lia |].
    apply elem_of_cons in Hc as [-> | Hc]; [assumption |].
    apply IH; [lia | assumption].
Qed.

Lemma foundNum_missing (cards : list CardData) (c : CardData) :
  c ∈ cards -> Number c = "" -> foundNum cards <> length cards.
Proof.
  intros Hc E H. exact (foundNum_all cards H c Hc E).
Qed.

(** The backfill of a product with some, not all, numbers resolved. *)
Lemma backfill_spec (cards : list CardData) :
  (exists c : CardData, c ∈ cards /\ Number c <> "") ->
  (exists c : CardData, c ∈ cards /\ Number c = "") ->
  exists (p : nat) (anchor : CardData),
    cards !! p = Some anchor /\ Number anchor <> "" /\
    (forall (j : nat) (c : CardData),
        cards !! j = Some c -> len (Number c) <= len (Number anchor)) /\
    (forall (j : nat) (c : CardData),
        (j < p)%nat -> cards !! j = Some c ->
        len (Number c) < len (Number anchor)) /\
    let v := fst (Atoi (TrimLeft (Number anchor) "0")) in
    (0 < v ->
     forall (i : nat) (c : CardData),
       cards !! i = Some c ->
       backfill cards !! i
       = Some (withNumber c (Sprint (intWrap (v + Z.of_nat i - Z.of_nat p))))) /\
    (v <= 0 -> backfill cards = cards).
Proof.
  intros (c1 & Hc1 & Hn1) (c0 & Hc0 & Hn0).
  destruct (findLongest 0 cards "" (-1)) as [num pos] eqn:Hfind.
  pose proof (findLongest_spec cards 0 "" (-1) num pos Hfind) as Hspec.
  destruct Hspec as [(-> & -> & Hall) | (k & anchor & Hk & -> & -> & Hlen & Hbefore & Hall)].
  - exfalso. apply list_elem_of_lookup_1 in Hc1 as [j Hj].
    apply Hn1, len_zero. exact (Hall j c1 Hj).
  - assert (Hne : Number anchor <> "").
    { intros E. rewrite E in Hlen. unfold len in Hlen. simpl in Hlen. lia. }
    exists k, anchor. repeat split; try assumption.
    + intros Hv i c Hi. unfold backfill.
      rewrite (proj2 (Nat.eqb_neq _ _) (foundNum_missing cards c0 Hc0 Hn0)).
      simpl negb. cbv iota. rewrite Hfind.
      rewrite (eqb_empty_false _ Hne). simpl negb. cbv iota.
      rewrite (proj2 (Z.ltb_lt _ _) Hv).
      rewrite list_lookup_imap, Hi. simpl.
      rewrite intSub_intAdd. reflexivity.
    + intros Hv. unfold backfill.
      rewrite (proj2 (Nat.eqb_neq _ _) (foundNum_missing cards c0 Hc0 Hn0)).
      simpl negb. cbv iota. rewrite Hfind.
      rewrite (eqb_empty_false _ Hne). simpl negb. cbv iota.
      rewrite (proj2 (Z.ltb_ge _ _) Hv). reflexivity.
Qed.

(** ** Values returned by [Atoi] *)

Lemma parseUintLoop_range (s : string) :
  forall n : Z, 0 <= n <= maxUint64 ->
    0 <= fst (parseUintLoop n s) <= maxUint64.
Proof.
  induction s as [| c cs IH]; intros n Hn; simpl; [assumption |].
  destruct (negb (isDigit c)) eqn:Hd; simpl; [unfold maxUint64; lia |].
  destruct (maxUint64 / 10 + 1 <=? n); simpl; [unfold maxUint64; lia |].
  destruct (Z.ltb_spec maxUint64 (n * 10 + (byteVal c - 48))); simpl;
    [unfold maxUint64; lia |].
  apply IH. apply negb_false_iff in Hd. unfold isDigit in Hd.
  apply andb_true_iff in Hd as [H1 H2].
  apply Z.leb_le in H1, H2. lia.
Qed.

Lemma Atoi_range (s : string) : minInt <= fst (Atoi s) <= maxInt.
Proof.
  unfold Atoi, ParseInt.
  destruct s as [| c cs]; [simpl; unfold minInt, maxInt; lia |].
  assert (Hu : forall d : string, 0 <= fst (ParseUint d) <= maxUint64).
  { intros [| d ds]; [simpl; unfold maxUint64; lia |].
    apply parseUintLoop_range. unfold maxUint64. lia. }
  destruct (if Ascii.eqb c "+" then (false, cs)
            else if Ascii.eqb c "-" then (true, cs) else (false, String c cs))
    as [neg digits].
  specialize (Hu digits).
  destruct (ParseUint digits) as [un [[] |]]; simpl in Hu;
    try (simpl; unfold minInt, maxInt; lia).
  - destruct neg; simpl.
    + destruct (Z.ltb_spec (2 ^ 63) un); simpl; unfold minInt, maxInt; lia.
    + destruct (Z.leb_spec (2 ^ 63) un); simpl; unfold minInt, maxInt; lia.
  - destruct neg; simpl.
    + destruct (Z.ltb_spec (2 ^ 63) un); simpl; unfold minInt, maxInt; lia.
    + destruct (Z.leb_spec (2 ^ 63) un); simpl; unfold minInt, maxInt; lia.
Qed.

(** ** The token filter *)

Lemma extractNumber_spec (fields : list string) (minLen : Z) :
  extractNumber fields minLen
  = default "" (firstQualifying minLen (beforeTerminator fields)).
Proof.
  unfold firstQualifying.
  induction fields as [| field rest IH]; simpl; [reflexivity |].
  unfold isTerminator.
  destruct (String.eqb field TRADEMARK || String.eqb field COPYRIGHT);
    [reflexivity |].
  simpl. unfold qualifies at 1.
  destruct ((minLen <? len field) && noError (Atoi field)); [reflexivity |].
  exact IH.
Qed.

Lemma firstQualifying_nonempty (minLen : Z) (fields : list string) (t : string) :
  0 <= minLen -> firstQualifying minLen fields = Some t -> t <> "".
Proof.
  unfold firstQualifying. intros Hm H.
  apply find_some in H as [_ H]. unfold qualifies in H.
  apply andb_true_iff in H as [H _]. apply Z.ltb_lt in H.
  intros ->. unfold len in H. simpl in H. lia.
Qed.

(** ** Lemmas on the model of package [strings] *)

Lemma HasPrefix_refl_app (p s : string) : HasPrefix (p ++ s) p = true.
Proof.
  induction p as [| c p IH]; simpl; [destruct s; reflexivity |].
  rewrite Ascii.eqb_refl. exact IH.
Qed.

Lemma HasPrefix_empty (s : string) : HasPrefix s "" = true.
Proof. destruct s; reflexivity. Qed.

Lemma Contains_false_head (s sub : string) :
  Contains s sub = false -> HasPrefix s sub = false.
Proof.
  destruct s; simpl; intros H; apply orb_false_iff in H as [H _]; exact H.
Qed.

Lemma Contains_false_tail (c : ascii) (s sub : string) :
  Contains (String c s) sub = false -> Contains s sub = false.
Proof.
  simpl. intros H. apply orb_false_iff in H as [_ H]. exact H.
Qed.

Lemma splitFrom_skip (sep t s : string) :
  splitFrom sep (String.length t) (t ++ s) = splitFrom sep 0 s.
Proof.
  induction t as [| c t IH]; simpl; [reflexivity | exact IH].
Qed.

Lemma splitFrom_not_nil (sep : string) (s : string) :
  forall skip : nat, splitFrom sep skip s <> [].
Proof.
  induction s as [| c cs IH]; intros skip H; cbn [splitFrom] in H;
    [discriminate H |].
  destruct skip as [| k]; [| exact (IH k H)].
  revert H. destruct (HasPrefix (String c cs) sep); [discriminate |].
  destruct (splitFrom sep 0 cs); discriminate.
Qed.

(** Text without the separator is a single field. *)
Lemma Split_none (s sep : string) :
  Contains s sep = false -> Split s sep = [s].
Proof.
  unfold Split. induction s as [| c cs IH]; intros H; cbn [splitFrom];
    [reflexivity |].
  rewrite (Contains_false_head _ _ H).
  rewrite (IH (Contains_false_tail _ _ _ H)). reflexivity.
Qed.

(** The first field ends at the first occurrence of the separator. *)
Lemma Split_first (sep s2 : string) (s1 : string) :
  sep <> "" ->
  Index (s1 ++ sep ++ s2) sep = len s1 ->
  Split (s1 ++ sep ++ s2) sep = s1 :: Split s2 sep.
Proof.
  unfold Split. intros Hsep.
  induction s1 as [| c s1 IH]; intros H.
  - destruct sep as [| d sep]; [contradiction |].
    change ("" ++ String d sep ++ s2) with (String d (sep ++ s2)).
    cbn [splitFrom].
    change (String d (sep ++ s2)) with (String d sep ++ s2).
    rewrite HasPrefix_refl_app.
    replace (String.length (String d sep) - 1)%nat with (String.length sep)
      by (simpl; lia).
    rewrite splitFrom_skip. reflexivity.
  - change (String c s1 ++ sep ++ s2) with (String c (s1 ++ sep ++ s2)) in *.
    cbn [Index] in H. cbn [splitFrom].
    destruct (HasPrefix (String c (s1 ++ sep ++ s2)) sep).
    + unfold len in H. simpl in H. lia.
    + destruct (Z.ltb_spec (Index (s1 ++ sep ++ s2) sep) 0) as [Hneg | Hpos].
      * unfold len in H. simpl in H. lia.
      * rewrite IH; [reflexivity |].
        unfold len in *. simpl String.length in H. lia.
Qed.

Lemma Index_after_prefix (sep s2 : string) (d : ascii) (s1 : string) :
  HasPrefix sep (String d "") = true ->
  memByte d s1 = false ->
  Index (s1 ++ sep ++ s2) sep = len s1.
Proof.
  intros Hd. induction s1 as [| c s1 IH]; intros Hmem.
  - simpl. destruct sep as [| e sep]; [discriminate |].
    change (String e sep ++ s2) with (String e (sep ++ s2)).
    cbn [Index]. change (String e (sep ++ s2)) with (String e sep ++ s2).
    rewrite HasPrefix_refl_app. reflexivity.
  - simpl in Hmem. apply orb_false_iff in Hmem as [Hdc Hmem].
    change (String c s1 ++ sep ++ s2) with (String c (s1 ++ sep ++ s2)).
    cbn [Index].
    destruct sep as [| e sep]; [discriminate |].
    cbn [HasPrefix] in Hd. rewrite HasPrefix_empty, andb_true_r in Hd.
    apply Ascii.eqb_eq in Hd. subst e.
    cbn [HasPrefix]. rewrite Ascii.eqb_sym in Hdc. rewrite Hdc.
    cbn [andb]. cbv zeta. rewrite (IH Hmem).
    destruct (Z.ltb_spec (len s1) 0) as [Hneg | _].
    + pose proof (len_nonneg s1). lia.
    + unfold len. simpl String.length. lia.
Qed.

(** Replacing text that does not occur changes nothing. *)
Lemma replaceFrom_none (old new : string) (limit : option nat) (s : string) :
  Contains s old = false -> replaceFrom old new limit 0 s = s.
Proof.
  induction s as [| c cs IH]; intros H; cbn [replaceFrom]; [reflexivity |].
  destruct limit as [[| k] |]; [reflexivity | |].
  - rewrite (Contains_false_head _ _ H).
    rewrite (IH (Contains_false_tail _ _ _ H)). reflexivity.
  - rewrite (Contains_false_head _ _ H).
    rewrite (IH (Contains_false_tail _ _ _ H)). reflexivity.
Qed.

Lemma Replace_none (s old new : string) (n : Z) :
  Contains s old = false -> Replace s old new n = s.
Proof.
  intros H. unfold Replace.
  destruct (String.eqb old new || (n =? 0)); [reflexivity |].
  apply replaceFrom_none. exact H.
Qed.

(** ** Appending and reversing texts *)

Lemma append_nil_r (s : string) : s ++ "" = s.
Proof. induction s as [| c s IH]; simpl; [reflexivity | now rewrite IH]. Qed.

Lemma append_assoc (a b c : string) : (a ++ b) ++ c = a ++ b ++ c.
Proof. induction a as [| x a IH]; simpl; [reflexivity | now rewrite IH]. Qed.

Lemma list_ascii_of_string_app (a b : string) :
  list_ascii_of_string (a ++ b)
  = (list_ascii_of_string a ++ list_ascii_of_string b)%list.
Proof. induction a as [| x a IH]; simpl; [reflexivity | now rewrite IH]. Qed.

Lemma string_of_list_ascii_app (l1 l2 : list ascii) :
  string_of_list_ascii (l1 ++ l2)%list
  = string_of_list_ascii l1 ++ string_of_list_ascii l2.
Proof. induction l1 as [| x l1 IH]; simpl; [reflexivity | now rewrite IH]. Qed.

Lemma revString_app (a b : string) :
  revString (a ++ b) = revString b ++ revString a.
Proof.
  unfold revString.
  rewrite list_ascii_of_string_app, rev_app_distr.
  apply string_of_list_ascii_app.
Qed.

Lemma revString_involutive (s : string) : revString (revString s) = s.
Proof.
  unfold revString.
  rewrite list_ascii_of_string_of_list_ascii, rev_involutive.
  apply string_of_list_ascii_of_string.
Qed.

Lemma revString_last (s : string) (c : ascii) :
  lastByte s = Some c -> exists r : string, revString s = String c r.
Proof.
  induction s as [| a s IH]; intros H; [discriminate |].
  change (String a s) with (String a "" ++ s). rewrite revString_app.
  destruct s as [| b s].
  - simpl in H. inversion H; subst. exists "". reflexivity.
  - cbn [lastByte] in H. destruct (IH H) as [r Hr].
    rewrite Hr. exists (r ++ revString (String a "")). reflexivity.
Qed.

Lemma lastByte_app (a b : string) :
  b <> "" -> lastByte (a ++ b) = lastByte b.
Proof.
  intros Hb. induction a as [| x a IH]; [reflexivity |].
  change (String x a ++ b) with (String x (a ++ b)).
  cbn [lastByte]. destruct (a ++ b) eqn:E; [| exact IH].
  destruct a; [simpl in E; contradiction | discriminate].
Qed.

Lemma lastByte_some_nonempty (s : string) (c : ascii) :
  lastByte s = Some c -> s <> "".
Proof. intros H ->. discriminate. Qed.

(** ** ASCII text *)

Lemma isASCII_app (a b : string) : isASCII (a ++ b) = isASCII a && isASCII b.
Proof.
  induction a as [| x a IH]; simpl; [reflexivity |].
  rewrite IH. apply andb_assoc.
Qed.

Lemma isASCII_lastByte (s : string) (c : ascii) :
  isASCII s = true -> lastByte s = Some c -> isASCIIByte c = true.
Proof.
  induction s as [| a s IH]; intros Hs H; [discriminate |].
  simpl in Hs. apply andb_true_iff in Hs as [Ha Hs].
  destruct s as [| b s].
  - simpl in H. inversion H; subst. exact Ha.
  - cbn [lastByte] in H. exact (IH Hs H).
Qed.

Lemma ascii_eqb_class (P : ascii -> bool) (c p : ascii) :
  P c = true -> P p = false -> Ascii.eqb c p = false.
Proof.
  intros Hc Hp. apply Ascii.eqb_neq. intros ->. congruence.
Qed.

(** ASCII text contains no sequence that starts with a byte above 127. *)
Lemma isASCII_Contains (s : string) (p : ascii) (ps : string) :
  isASCII s = true -> isASCIIByte p = false ->
  Contains s (String p ps) = false.
Proof.
  intros Hs Hp. induction s as [| c s IH]; [reflexivity |].
  simpl in Hs. apply andb_true_iff in Hs as [Hc Hs].
  cbn [Contains HasPrefix].
  rewrite (ascii_eqb_class isASCIIByte c p Hc Hp). simpl.
  exact (IH Hs).
Qed.

(** ** Classes of bytes *)

Lemma countByte_ascii (c : ascii) : countByte c = true -> isASCIIByte c = true.
Proof. by_bytes c. Qed.

Lemma countByte_not_x (c : ascii) :
  countByte c = true -> Ascii.eqb "x" c = false.
Proof. by_bytes c. Qed.

Lemma isDigit_countByte (c : ascii) : isDigit c = true -> countByte c = true.
Proof. unfold countByte. intros ->. reflexivity. Qed.

Lemma countByte_no_space (c : ascii) (s : string) :
  countByte c = true -> spaceAt (String c s) = None.
Proof. intros H. revert H. by_bytes c. Qed.

Lemma x_no_space (s : string) : spaceAt (String "x" s) = None.
Proof. reflexivity. Qed.

Lemma plain_byte_no_space_end (c : ascii) (r : string) :
  isASCIIByte c = true -> asciiSpace c = false ->
  spaceAtEnd (String c r) = None.
Proof. intros H1 H2. revert H1 H2. by_bytes c. Qed.

Lemma allBytes_countByte_ascii (s : string) :
  allBytes countByte s = true -> isASCII s = true.
Proof.
  induction s as [| c s IH]; simpl; [reflexivity |].
  intros H. apply andb_true_iff in H as [Hc Hs].
  rewrite (countByte_ascii c Hc), (IH Hs). reflexivity.
Qed.

Lemma allBytes_countByte_no_x (s : string) :
  allBytes countByte s = true -> memByte "x" s = false.
Proof.
  induction s as [| c s IH]; cbn [memByte allBytes]; [reflexivity |].
  intros H. apply andb_true_iff in H as [Hc Hs].
  rewrite (countByte_not_x c Hc), (IH Hs). reflexivity.
Qed.

(** ** Texts accepted by [Atoi] *)

Lemma parseUintLoop_ok (s : string) :
  forall (n v : Z), parseUintLoop n s = (v, None) -> allBytes isDigit s = true.
Proof.
  induction s as [| c cs IH]; intros n v H; [reflexivity |].
  cbn [parseUintLoop] in H. cbn [allBytes].
  destruct (isDigit c); [| discriminate H]. cbn [negb andb] in *.
  destruct (maxUint64 / 10 + 1 <=? n); [discriminate H |].
  destruct (maxUint64 <? n * 10 + (byteVal c - 48)); [discriminate H |].
  exact (IH _ _ H).
Qed.

Lemma parseUintLoop_range_error (s : string) :
  forall (n v : Z), parseUintLoop n s = (v, Some ErrRange) -> v = maxUint64.
Proof.
  induction s as [| c cs IH]; intros n v H; [discriminate H |].
  cbn [parseUintLoop] in H.
  destruct (negb (isDigit c)); [discriminate H |].
  destruct (maxUint64 / 10 + 1 <=? n); [inversion H; reflexivity |].
  destruct (maxUint64 <? n * 10 + (byteVal c - 48)); [inversion H; reflexivity |].
  exact (IH _ _ H).
Qed.

Lemma allBytes_weaken (P Q : ascii -> bool) (s : string) :
  (forall c : ascii, P c = true -> Q c = true) ->
  allBytes P s = true -> allBytes Q s = true.
Proof.
  intros HPQ. induction s as [| c s IH]; simpl; [reflexivity |].
  intros H. apply andb_true_iff in H as [Hc Hs].
  rewrite (HPQ c Hc), (IH Hs). reflexivity.
Qed.

Lemma ParseUint_digits (digits : string) (un : Z) (e : option NumError) :
  ParseUint digits = (un, e) -> e <> Some ErrSyntax ->
  (e = None -> digits <> "" /\ allBytes isDigit digits = true) /\
  (e = Some ErrRange -> un = maxUint64).
Proof.
  intros H He. destruct digits as [| d ds].
  - simpl in H. inversion H; subst. contradiction.
  - unfold ParseUint in H. split.
    + intros ->. split; [discriminate |]. exact (parseUintLoop_ok _ _ _ H).
    + intros ->. exact (parseUintLoop_range_error _ _ _ H).
Qed.

Lemma ParseInt_after_sign (neg : bool) (digits : string) (n : Z) :
  match ParseUint digits with
  | (_, Some ErrSyntax) => (0, Some ErrSyntax)
  | (un, _) =>
      if negb neg && (2 ^ 63 <=? un) then (maxInt, Some ErrRange)
      else if neg && (2 ^ 63 <? un) then (minInt, Some ErrRange)
      else (if neg then - un else un, None)
  end = (n, None) ->
  digits <> "" /\ allBytes isDigit digits = true.
Proof.
  destruct (ParseUint digits) as [un e] eqn:HU. intros H.
  destruct e as [[] |].
  - discriminate H.
  - assert (Hun : un = maxUint64).
    { apply (ParseUint_digits digits un (Some ErrRange) HU); [discriminate | reflexivity]. }
    subst un. destruct neg; vm_compute in H; discriminate H.
  - apply (ParseUint_digits digits un None HU); [discriminate | reflexivity].
Qed.

(** A text that [Atoi] accepts is a sign or a digit followed by digits. *)
Lemma Atoi_ok_bytes (s : string) (n : Z) :
  Atoi s = (n, None) ->
  exists (c : ascii) (cs : string),
    s = String c cs /\ countByte c = true /\ allBytes countByte cs = true.
Proof.
  unfold Atoi, ParseInt. destruct s as [| c cs]; [discriminate |].
  intros H. exists c, cs. split; [reflexivity |].
  destruct (Ascii.eqb_spec c "+") as [-> | Hplus].
  - apply ParseInt_after_sign in H as [_ H].
    split; [reflexivity |].
    exact (allBytes_weaken _ _ _ isDigit_countByte H).
  - destruct (Ascii.eqb_spec c "-") as [-> | Hminus].
    + apply ParseInt_after_sign in H as [_ H].
      split; [reflexivity |].
      exact (allBytes_weaken _ _ _ isDigit_countByte H).
    + apply ParseInt_after_sign in H as [_ H].
      pose proof (allBytes_weaken _ _ _ isDigit_countByte H) as H'.
      simpl in H'. apply andb_true_iff in H'. exact H'.
Qed.

Lemma plain_byte_no_space (c : ascii) (s : string) :
  isASCIIByte c = true -> asciiSpace c = false -> spaceAt (String c s) = None.
Proof. intros H1 H2. revert H1 H2. by_bytes c. Qed.

Lemma countByte_not_space (c : ascii) : countByte c = true -> asciiSpace c = false.
Proof. by_bytes c. Qed.

(** ** [TrimSpace] on text without surrounding white space *)

Lemma TrimSpace_id (s : string) (d : ascii) (r : string) :
  spaceAt s = None ->
  revString s = String d r ->
  spaceAtEnd (String d r) = None ->
  TrimSpace s = s.
Proof.
  intros Hhead Hrev Hend. unfold TrimSpace.
  destruct s as [| c cs]; [discriminate Hrev |].
  cbn [trimLeftFrom]. rewrite Hhead, Hrev.
  cbn [trimRightFrom]. rewrite Hend, <- Hrev.
  apply revString_involutive.
Qed.

Lemma plainName_parts (name : string) :
  plainName name = true ->
  isASCII name = true /\ Contains name "x " = false /\
  exists c : ascii,
    lastByte name = Some c /\ isASCIIByte c = true /\ asciiSpace c = false.
Proof.
  unfold plainName. intros H.
  apply andb_true_iff in H as [H Hlast].
  apply andb_true_iff in H as [Hascii Hx].
  apply negb_true_iff in Hx.
  destruct (lastByte name) as [c |] eqn:Hc; [| discriminate].
  apply negb_true_iff in Hlast.
  repeat split; try assumption.
  exists c. repeat split; try assumption.
  exact (isASCII_lastByte name c Hascii Hc).
Qed.

Lemma countText_parts (ds : string) :
  countText ds = true ->
  isASCII ds = true /\ memByte "x" ds = false /\
  forall rest : string, spaceAt (ds ++ "x " ++ rest) = None.
Proof.
  unfold countText. intros H.
  apply andb_true_iff in H as [H Hhead].
  apply andb_true_iff in H as [Hascii Hx].
  apply negb_true_iff in Hx.
  repeat split; try assumption.
  intros rest. destruct ds as [| c cs]; [reflexivity |].
  apply negb_true_iff in Hhead.
  simpl in Hascii. apply andb_true_iff in Hascii as [Hc _].
  exact (plain_byte_no_space c _ Hc Hhead).
Qed.

Lemma Atoi_ok_countText (ds : string) (n : Z) :
  Atoi ds = (n, None) -> countText ds = true.
Proof.
  intros H. apply Atoi_ok_bytes in H as (c & cs & -> & Hc & Hcs).
  unfold countText.
  assert (Hall : allBytes countByte (String c cs) = true).
  { simpl. rewrite Hc, Hcs. reflexivity. }
  rewrite (allBytes_countByte_ascii _ Hall), (allBytes_countByte_no_x _ Hall).
  rewrite (countByte_not_space c Hc). reflexivity.
Qed.

(** A line made of a count text, "x ", and a plain name is left alone
    by the first steps of [cleanLine] and splits into its two parts. *)
Lemma normalizeLine_plain (ds name : string) :
  countText ds = true -> plainName name = true ->
  normalizeLine (ds ++ "x " ++ name) = ds ++ "x " ++ name.
Proof.
  intros Hds Hname.
  destruct (countText_parts ds Hds) as (Hascii & _ & Hhead).
  destruct (plainName_parts name Hname) as (Hn & _ & c & Hlast & Hc & Hsp).
  assert (Hline : isASCII (ds ++ "x " ++ name) = true).
  { rewrite !isASCII_app, Hascii, Hn. reflexivity. }
  unfold normalizeLine.
  rewrite (Replace_none _ NNBSP); [| apply isASCII_Contains; [exact Hline | reflexivity]].
  rewrite (Replace_none _ RSQUO); [| apply isASCII_Contains; [exact Hline | reflexivity]].
  rewrite (Replace_none _ RDQUO); [| apply isASCII_Contains; [exact Hline | reflexivity]].
  rewrite (Replace_none _ LDQUO); [| apply isASCII_Contains; [exact Hline | reflexivity]].
  assert (Hl : lastByte (ds ++ "x " ++ name) = Some c).
  { rewrite <- append_assoc.
    rewrite lastByte_app; [exact Hlast | exact (lastByte_some_nonempty _ _ Hlast)]. }
  destruct (revString_last _ _ Hl) as [r Hr].
  apply (TrimSpace_id _ c r); [apply Hhead | exact Hr |].
  exact (plain_byte_no_space_end c r Hc Hsp).
Qed.

(** A text without "x", then "x ", then a text without "x " splits
    into these two texts. *)
Lemma Split_count (ds name : string) :
  memByte "x" ds = false -> Contains name "x " = false ->
  Split (ds ++ "x " ++ name) "x " = [ds; name].
Proof.
  intros Hx Hn.
  rewrite Split_first.
  - rewrite (Split_none name "x " Hn). reflexivity.
  - discriminate.
  - apply (Index_after_prefix "x " name "x"); [reflexivity | exact Hx].
Qed.

(** On a line whose normal form is a text without "x", then "x ", then
    a text without "x ", the outcome of [cleanLine] is decided by [Atoi]
    on the first text alone. *)
Lemma cleanLine_normal (unicodeLower : string -> string)
    (line ds name : string) :
  normalizeLine line = ds ++ "x " ++ name ->
  memByte "x" ds = false -> Contains name "x " = false ->
  cleanLine unicodeLower line
  = match Atoi ds with
    | (_, Some _) => inl InvalidNumberInLine
    | (num, None) => inr (cleanName unicodeLower name, num)
    end.
Proof.
  intros Hline Hx Hn. unfold cleanLine.
  rewrite Hline, (Split_count ds name Hx Hn).
  reflexivity.
Qed.

Lemma cleanLine_plain (unicodeLower : string -> string) (ds name : string) :
  countText ds = true -> plainName name = true ->
  cleanLine unicodeLower (ds ++ "x " ++ name)
  = match Atoi ds with
    | (_, Some _) => inl InvalidNumberInLine
    | (num, None) => inr (cleanName unicodeLower name, num)
    end.
Proof.
  intros Hds Hname.
  destruct (countText_parts ds Hds) as (_ & Hx & _).
  destruct (plainName_parts name Hname) as (_ & Hn & _).
  apply cleanLine_normal; [| exact Hx | exact Hn].
  exact (normalizeLine_plain ds name Hds Hname).
Qed.

Lemma Atoi_ok_no_x (ds : string) (n : Z) :
  Atoi ds = (n, None) -> memByte "x" ds = false.
Proof.
  intros H. apply Atoi_ok_countText in H.
  exact (proj1 (proj2 (countText_parts ds H))).
Qed.

(** ** The loop that appends the copies of a card *)

Lemma appendCopies_spec (astrology : bool) (n : nat) (card : CardData) :
  forall cards : list CardData,
    appendCopies astrology (S n) card cards
    = (cards ++ (if astrology then [card] else replicate (S n) card))%list.
Proof.
  destruct astrology; [reflexivity |].
  induction n as [| n IH]; intros cards; [reflexivity |].
  cbn [appendCopies] in *. rewrite IH.
  rewrite <- app_assoc. reflexivity.
Qed.

(** ** Indices into the fields of [Split] stay within bounds *)

Lemma Split_not_nil (s sep : string) : (1 <= length (Split s sep))%nat.
Proof.
  pose proof (splitFrom_not_nil sep s 0) as H. unfold Split.
  destruct (splitFrom sep 0 s); [contradiction | simpl; lia].
Qed.

Lemma Split_two_fields (s sep : string) :
  sep <> "" -> Contains s sep = true -> (2 <= length (Split s sep))%nat.
Proof.
  intros Hsep. unfold Split.
  induction s as [| c cs IH]; intros H.
  - destruct sep; [contradiction | discriminate H].
  - cbn [splitFrom]. cbn [Contains] in H.
    destruct (HasPrefix (String c cs) sep).
    + pose proof (splitFrom_not_nil sep cs (String.length sep - 1)) as Hn.
      destruct (splitFrom sep (String.length sep - 1) cs);
        [contradiction | simpl; lia].
    + simpl in H. specialize (IH H).
      destruct (splitFrom sep 0 cs); simpl in *; lia.
Qed.

(** ** The denylist pass *)

Lemma stripTag_none (unicodeLower : string -> string) (name tag : string) :
  Contains name tag = false ->
  Contains name (ToLower unicodeLower tag) = false ->
  stripTag unicodeLower name tag = name.
Proof.
  intros H1 H2. unfold stripTag.
  rewrite (Replace_none name tag "" (-1) H1).
  apply Replace_none. exact H2.
Qed.

Lemma stripTags_none (unicodeLower : string -> string) (name : string)
    (tags : list string) :
  forallb (fun tag =>
             negb (Contains name tag)
             && negb (Contains name (ToLower unicodeLower tag))) tags = true ->
  fold_left (stripTag unicodeLower) tags name = name.
Proof.
  induction tags as [| tag tags IH]; intros H; [reflexivity |].
  cbn [forallb] in H. apply andb_true_iff in H as [Htag H].
  apply andb_true_iff in Htag as [H1 H2].
  apply negb_true_iff in H1, H2.
  cbn [fold_left]. rewrite (stripTag_none _ _ _ H1 H2). exact (IH H).
Qed.

(** ** The gallery pass *)

Lemma imagePass_keeps (recognize : string -> option string) (foldMode : bool)
    (images : list (option string)) :
  forall (idx : nat) (cards : list CardData) (i : nat) (card : CardData),
    cards !! i = Some card -> Number card <> "" ->
    imagePass recognize foldMode idx images cards !! i = Some card.
Proof.
  induction images as [| href rest IH]; intros idx cards i card Hi Hnum;
    cbn [imagePass]; [exact Hi |].
  set (k := if foldMode then (idx / 2)%nat else idx).
  destruct (cards !! k) as [card0 |] eqn:Hk; [| exact Hi].
  destruct (String.eqb_spec (Number card0) "") as [E | E]; cbn [negb];
    [| exact (IH _ _ _ _ Hi Hnum)].
  destruct href as [imgLink |]; [| exact (IH _ _ _ _ Hi Hnum)].
  destruct (getNumberFromLink recognize _) as [num |];
    [| exact (IH _ _ _ _ Hi Hnum)].
  apply IH; [| exact Hnum].
  rewrite list_lookup_insert_ne; [exact Hi |].
  intros ->. rewrite Hi in Hk. inversion Hk; subst. contradiction.
Qed.

Lemma imagePass_length (recognize : string -> option string) (foldMode : bool)
    (images : list (option string)) :
  forall (idx : nat) (cards : list CardData),
    length (imagePass recognize foldMode idx images cards) = length cards.
Proof.
  induction images as [| href rest IH]; intros idx cards;
    cbn [imagePass]; [reflexivity |].
  set (k := if foldMode then (idx / 2)%nat else idx).
  destruct (cards !! k) as [card0 |]; [| reflexivity].
  destruct (negb (String.eqb (Number card0) "")); [apply IH |].
  destruct href as [imgLink |]; [| apply IH].
  destruct (getNumberFromLink recognize _) as [num |]; [| apply IH].
  rewrite IH. apply length_insert.
Qed.

(** ** Backfill when nothing or everything is resolved *)

Lemma backfill_all_found (cards : list CardData) :
  foundNum cards = length cards -> backfill cards = cards.
Proof.
  intros H. unfold backfill. rewrite H, Nat.eqb_refl. reflexivity.
Qed.

Lemma backfill_none_found (cards : list CardData) :
  (forall c : CardData, c ∈ cards -> Number c = "") -> backfill cards = cards.
Proof.
  intros Hall. unfold backfill.
  destruct (negb (foundNum cards =? length cards)%nat); [| reflexivity].
  destruct (findLongest 0 cards "" (-1)) as [num pos] eqn:Hfind.
  apply findLongest_spec in Hfind
    as [(-> & _ & _) | (k & anchor & Hk & -> & _ & Hlen & _)].
  - reflexivity.
  - apply list_elem_of_lookup_2 in Hk. rewrite (Hall anchor Hk) in Hlen.
    unfold len in Hlen. simpl in Hlen. lia.
Qed.

(** ** The result filter of [search] *)

Lemma searchCards_app (pre post : list Scryfall.Card) :
  searchCards (pre ++ post) = (searchCards pre ++ searchCards post)%list.
Proof.
  induction pre as [| card pre IH]; [reflexivity |].
  cbn [app searchCards].
  destruct (existsb _ _); [exact IH |].
  destruct (HasSuffix _ _); [exact IH |].
  cbn [app]. rewrite IH. reflexivity.
Qed.

Lemma existsb_eqb_elem (x : string) (l : list string) :
  existsb (String.eqb x) l = true <-> x ∈ l.
Proof.
  rewrite existsb_exists. split.
  - intros (y & Hy & E). apply String.eqb_eq in E. subst y.
    apply list_elem_of_In. exact Hy.
  - intros H. exists x. split; [apply list_elem_of_In; exact H |].
    apply String.eqb_refl.
Qed.

(** ** Lines with a space between the count and the "x" *)

Lemma allBytes_app (P : ascii -> bool) (a b : string) :
  allBytes P (a ++ b) = allBytes P a && allBytes P b.
Proof.
  induction a as [| x a IH]; simpl; [reflexivity |].
  rewrite IH. apply andb_assoc.
Qed.

Lemma memByte_app (c : ascii) (a b : string) :
  memByte c (a ++ b) = memByte c a || memByte c b.
Proof.
  induction a as [| x a IH]; cbn [append memByte]; [reflexivity |].
  rewrite IH. apply orb_assoc.
Qed.

Lemma Atoi_rejects_trailing_space (ds : string) :
  exists (v : Z) (e : NumError), Atoi (ds ++ " ") = (v, Some e).
Proof.
  destruct (Atoi (ds ++ " ")) as [v [e |]] eqn:H; [exists v, e; reflexivity |].
  exfalso. apply Atoi_ok_bytes in H as (c & cs & E & Hc & Hcs).
  assert (Hall : allBytes countByte (ds ++ " ") = true).
  { rewrite E. simpl. rewrite Hc, Hcs. reflexivity. }
  rewrite allBytes_app in Hall. apply andb_true_iff in Hall as [_ Hsp].
  discriminate Hsp.
Qed.

(** The shape "<n> x <name>": whatever stands before the space, the
    count field keeps that space and the line is in error. *)
Lemma spaced_count_always_rejected (unicodeLower : string -> string)
    (ds name : string) :
  ds <> "" -> countText ds = true -> plainName name = true ->
  cleanLine unicodeLower (ds ++ " x " ++ name) = inl InvalidNumberInLine.
Proof.
  intros Hne Hds Hname.
  change (ds ++ " x " ++ name) with (ds ++ " " ++ "x " ++ name).
  rewrite <- append_assoc.
  assert (Hds' : countText (ds ++ " ") = true).
  { unfold countText in *.
    apply andb_true_iff in Hds as [Hds Hhead].
    apply andb_true_iff in Hds as [Hascii Hx].
    apply negb_true_iff in Hx.
    rewrite isASCII_app, memByte_app, Hascii, Hx.
    destruct ds as [| c cs]; [contradiction | exact Hhead]. }
  rewrite (cleanLine_plain _ _ name Hds' Hname).
  destruct (Atoi_rejects_trailing_space ds) as (v & e & ->). reflexivity.
Qed.

(** * The claims of the specification *)

(** ** Numbers once resolved *)

(** C1 (as stated, refuted): the backfill pass does assign a number to
    an Item whose number is not empty. In [scenarioResolved] the third
    Item carries "250" before the backfill and "101" after it. *)
Lemma backfill_overwrites_resolved_number :
  scenarioResolved !! 2%nat = Some (mkItem "C" "250")
  /\ backfill scenarioResolved !! 2%nat = Some (mkItem "C" "101").
Proof. split; reflexivity. Qed.

(** C1 (amended): the image-extraction pass never changes an Item that
    carries a number. The backfill pass changes nothing when every Item
    carries a number and nothing when no Item does. When some Items carry a
    number and some do not, it takes an anchor Item with a number, of value
    [v]: if [v] is positive it assigns a number to every Item of the
    Product, those with a number included, and if not it changes nothing. *)
Theorem numbers_kept_by_images_rewritten_by_backfill :
  (forall (recognize : string -> option string) (foldMode : bool) (idx : nat)
          (images : list (option string)) (cards : list CardData)
          (i : nat) (card : CardData),
      cards !! i = Some card -> Number card <> "" ->
      imagePass recognize foldMode idx images cards !! i = Some card)
  /\ (forall cards : list CardData,
         foundNum cards = length cards -> backfill cards = cards)
  /\ (forall cards : list CardData,
         (forall c : CardData, c ∈ cards -> Number c = "") ->
         backfill cards = cards)
  /\ (forall cards : list CardData,
         (exists c : CardData, c ∈ cards /\ Number c <> "") ->
         (exists c : CardData, c ∈ cards /\ Number c = "") ->
         exists (p : nat) (anchor : CardData),
           cards !! p = Some anchor /\ Number anchor <> "" /\
           let v := fst (Atoi (TrimLeft (Number anchor) "0")) in
           (0 < v ->
            forall (i : nat) (c : CardData),
              cards !! i = Some c ->
              backfill cards !! i
              = Some (withNumber c
                        (Sprint (intWrap (v + Z.of_nat i - Z.of_nat p)))))
           /\ (v <= 0 -> backfill cards = cards)).
Proof.
  split; [| split; [| split]].
  - intros recognize foldMode idx images cards i card.
    apply imagePass_keeps.
  - exact backfill_all_found.
  - exact backfill_none_found.
  - intros cards H1 H0.
    destruct (backfill_spec cards H1 H0)
      as (p & anchor & Hp & Hne & _ & _ & Hpos & Hnot).
    exists p, anchor. repeat split; assumption.
Qed.

Lemma numbers_kept_by_images_rewritten_by_backfill_witness :
  imagePass always1234 false 0 [Some "/a.png"; Some "/b.png"]
    [mkItem "A" "77"; mkItem "B" ""] !! 0%nat
  = Some (mkItem "A" "77")
  /\ backfill [mkItem "A" "77"; mkItem "B" "78"]
     = [mkItem "A" "77"; mkItem "B" "78"]
  /\ backfill threeCards = threeCards
  /\ exists (p : nat) (anchor : CardData),
       scenarioResolved !! p = Some anchor /\ Number anchor <> "" /\
       let v := fst (Atoi (TrimLeft (Number anchor) "0")) in
       (0 < v ->
        forall (i : nat) (c : CardData),
          scenarioResolved !! i = Some c ->
          backfill scenarioResolved !! i
          = Some (withNumber c (Sprint (intWrap (v + Z.of_nat i - Z.of_nat p)))))
       /\ (v <= 0 -> backfill scenarioResolved = scenarioResolved).
Proof.
  destruct numbers_kept_by_images_rewritten_by_backfill
    as (Himg & Hall & Hnone & Hrun).
  split; [| split; [| split]].
  - apply Himg; [reflexivity | discriminate].
  - apply Hall. reflexivity.
  - apply Hnone. intros c Hc.
    apply list_elem_of_In in Hc. simpl in Hc.
    destruct Hc as [<- | [<- | [<- | []]]]; reflexivity.
  - apply Hrun.
    + exists (mkItem "B" "100"). split; [| discriminate].
      apply list_elem_of_In. simpl. auto.
    + exists (mkItem "A" ""). split; [| reflexivity].
      apply list_elem_of_In. simpl. auto.
Defined.

(** ** The anchor and the extrapolation *)

(** C2: in a Product with some, not all, numbers resolved, the backfill
    takes as anchor the Item with the longest number, the first of them
    by position; with [v] the integer that [Atoi] reads in that number
    once its leading zeros are stripped, if [v > 0] the Item at each
    position [i] receives the decimal text of [v + i - p] computed in
    [int], which is the decimal text of the integer [v + i - p]
    whenever that integer fits an [int]. Scenario D yields "11", "12"
    and "13". *)
Theorem backfill_extrapolates_from_longest_number :
  (forall cards : list CardData,
      (exists c : CardData, c ∈ cards /\ Number c <> "") ->
      (exists c : CardData, c ∈ cards /\ Number c = "") ->
      exists (p : nat) (anchor : CardData),
        cards !! p = Some anchor /\ Number anchor <> "" /\
        (forall (j : nat) (c : CardData),
            cards !! j = Some c -> len (Number c) <= len (Number anchor)) /\
        (forall (j : nat) (c : CardData),
            (j < p)%nat -> cards !! j = Some c ->
            len (Number c) < len (Number anchor)) /\
        let v := fst (Atoi (TrimLeft (Number anchor) "0")) in
        (0 < v ->
         forall (i : nat) (c : CardData),
           cards !! i = Some c ->
           backfill cards !! i
           = Some (withNumber c (Sprint (intWrap (v + Z.of_nat i - Z.of_nat p))))
           /\ (minInt <= v + Z.of_nat i - Z.of_nat p <= maxInt ->
               backfill cards !! i
               = Some (withNumber c (Sprint (v + Z.of_nat i - Z.of_nat p))))))
  /\ Number <$> backfill scenarioD = ["11"; "12"; "13"].
Proof.
  split; [| reflexivity].
  intros cards H1 H0.
  destruct (backfill_spec cards H1 H0)
    as (p & anchor & Hp & Hne & Hall & Hfirst & Hpos & _).
  exists p, anchor.
  split; [exact Hp |]. split; [exact Hne |].
  split; [exact Hall |]. split; [exact Hfirst |].
  cbv zeta in *. intros Hv i c Hi. split.
  - exact (Hpos Hv i c Hi).
  - intros Hfit. rewrite (Hpos Hv i c Hi), (intWrap_small _ Hfit). reflexivity.
Qed.

Lemma backfill_extrapolates_from_longest_number_witness :
  (exists c : CardData, c ∈ scenarioD /\ Number c <> "")
  /\ (exists c : CardData, c ∈ scenarioD /\ Number c = "")
  /\ backfill scenarioD !! 0%nat = Some (mkItem "A" "11")
  /\ backfill scenarioD !! 2%nat = Some (mkItem "C" "13").
Proof.
  assert (H1 : exists c : CardData, c ∈ scenarioD /\ Number c <> "").
  { exists (mkItem "B" "012"). split; [| discriminate].
    apply list_elem_of_In. simpl. auto. }
  assert (H0 : exists c : CardData, c ∈ scenarioD /\ Number c = "").
  { exists (mkItem "A" ""). split; [| reflexivity].
    apply list_elem_of_In. simpl. auto. }
  split; [exact H1 |]. split; [exact H0 |].
  destruct (proj1 backfill_extrapolates_from_longest_number scenarioD H1 H0)
    as (p & anchor & Hp & Hne & _ & _ & Hrun).
  destruct p as [| [| [| p]]]; simpl in Hp; inversion Hp; subst anchor;
    try (exfalso; apply Hne; reflexivity).
  assert (Hv : 0 < fst (Atoi (TrimLeft (Number (mkItem "B" "012")) "0")))
    by reflexivity.
  split.
  - exact (proj1 (Hrun Hv 0%nat (mkItem "A" "") eq_refl)).
  - exact (proj1 (Hrun Hv 2%nat (mkItem "C" "") eq_refl)).
Defined.

(** C10: the backfill has no lower bound. In a Product of at most
    [maxInt] Items with some, not all, numbers resolved, anchor of
    positive value [v] at position [p], every Item at a position [i] up to
    [p] receives the decimal text of the integer [v + i - p], zero and
    negative values included: when [v <= p] the Item at position [p - v]
    receives "0", and when [v < p] the Item before it receives "-1". In
    [scenarioLow] the numbers become "-1", "0" and "1". *)
Theorem backfill_has_no_lower_bound :
  (forall cards : list CardData,
      Z.of_nat (length cards) <= maxInt ->
      (exists c : CardData, c ∈ cards /\ Number c <> "") ->
      (exists c : CardData, c ∈ cards /\ Number c = "") ->
      exists (p : nat) (anchor : CardData),
        cards !! p = Some anchor /\ Number anchor <> "" /\
        (forall (j : nat) (c : CardData),
            cards !! j = Some c -> len (Number c) <= len (Number anchor)) /\
        (forall (j : nat) (c : CardData),
            (j < p)%nat -> cards !! j = Some c ->
            len (Number c) < len (Number anchor)) /\
        let v := fst (Atoi (TrimLeft (Number anchor) "0")) in
        (0 < v ->
         (forall (i : nat) (c : CardData),
             (i <= p)%nat -> cards !! i = Some c ->
             backfill cards !! i
             = Some (withNumber c (Sprint (v + Z.of_nat i - Z.of_nat p))))
         /\ (v <= Z.of_nat p ->
             exists c : CardData,
               cards !! (p - Z.to_nat v)%nat = Some c /\
               backfill cards !! (p - Z.to_nat v)%nat
               = Some (withNumber c "0"))
         /\ (v < Z.of_nat p ->
             exists c : CardData,
               cards !! (p - Z.to_nat v - 1)%nat = Some c /\
               backfill cards !! (p - Z.to_nat v - 1)%nat
               = Some (withNumber c "-1"))))
  /\ Number <$> backfill scenarioLow = ["-1"; "0"; "1"].
Proof.
  split; [| reflexivity].
  intros cards Hlen H1 H0.
  destruct (backfill_spec cards H1 H0)
    as (p & anchor & Hp & Hne & Hall & Hfirst & Hpos & _).
  exists p, anchor.
  split; [exact Hp |]. split; [exact Hne |].
  split; [exact Hall |]. split; [exact Hfirst |].
  cbv zeta. set (v := fst (Atoi (TrimLeft (Number anchor) "0"))) in *.
  intros Hv.
  pose proof (lookup_lt_Some _ _ _ Hp) as Hplt.
  pose proof (Atoi_range (TrimLeft (Number anchor) "0")) as Hrange.
  fold v in Hrange.
  assert (Hexact : forall (i : nat) (c : CardData),
             (i <= p)%nat -> cards !! i = Some c ->
             backfill cards !! i
             = Some (withNumber c (Sprint (v + Z.of_nat i - Z.of_nat p)))).
  { intros i c Hi Hc. rewrite (Hpos Hv i c Hc), intWrap_small; [reflexivity |].
    unfold minInt, maxInt in *. lia. }
  split; [exact Hexact |]. split.
  - intros Hle.
    destruct (lookup_lt_is_Some_2 cards (p - Z.to_nat v)%nat) as [c Hc]; [lia |].
    exists c. split; [exact Hc |].
    rewrite (Hexact _ c); [| lia | exact Hc].
    replace (v + Z.of_nat (p - Z.to_nat v) - Z.of_nat p) with 0 by lia.
    reflexivity.
  - intros Hlt.
    destruct (lookup_lt_is_Some_2 cards (p - Z.to_nat v - 1)%nat) as [c Hc];
      [lia |].
    exists c. split; [exact Hc |].
    rewrite (Hexact _ c); [| lia | exact Hc].
    replace (v + Z.of_nat (p - Z.to_nat v - 1) - Z.of_nat p) with (-1) by lia.
    reflexivity.
Qed.

Lemma backfill_has_no_lower_bound_witness :
  Z.of_nat (length scenarioLow) <= maxInt
  /\ (exists c : CardData, c ∈ scenarioLow /\ Number c <> "")
  /\ (exists c : CardData, c ∈ scenarioLow /\ Number c = "")
  /\ backfill scenarioLow !! 0%nat = Some (mkItem "A" "-1")
  /\ backfill scenarioLow !! 1%nat = Some (mkItem "B" "0").
Proof.
  assert (Hlen : Z.of_nat (length scenarioLow) <= maxInt) by (vm_compute; discriminate).
  assert (H1 : exists c : CardData, c ∈ scenarioLow /\ Number c <> "").
  { exists (mkItem "C" "1"). split; [| discriminate].
    apply list_elem_of_In. simpl. auto. }
  assert (H0 : exists c : CardData, c ∈ scenarioLow /\ Number c = "").
  { exists (mkItem "A" ""). split; [| reflexivity].
    apply list_elem_of_In. simpl. auto. }
  split; [exact Hlen |]. split; [exact H1 |]. split; [exact H0 |].
  destruct (proj1 backfill_has_no_lower_bound scenarioLow Hlen H1 H0)
    as (p & anchor & Hp & Hne & _ & _ & Hrun).
  destruct p as [| [| [| p]]]; simpl in Hp; inversion Hp; subst anchor;
    try (exfalso; apply Hne; reflexivity).
  assert (Hv : 0 < fst (Atoi (TrimLeft (Number (mkItem "C" "1")) "0")))
    by reflexivity.
  destruct (Hrun Hv) as (Hexact & _ & _).
  split.
  - apply (Hexact 0%nat (mkItem "A" "")); [lia | reflexivity].
  - apply (Hexact 1%nat (mkItem "B" "")); [lia | reflexivity].
Defined.

(** ** The OCR token filter *)

(** C5 (as stated, refuted): on the tokens "123", "™", "4567" the first
    token longer than 3 that parses as an integer is "4567", and the
    extraction returns neither it nor the empty result but "123": the
    strict scan stops at the terminator, and the relaxed scan, which
    starts again from the first token, accepts "123". *)
Lemma pickNumber_terminator_between :
  firstQualifying 3 ["123"; TRADEMARK; "4567"] = Some "4567"
  /\ pickNumber ["123"; TRADEMARK; "4567"] = "123"
  /\ numberFromText ("123 " ++ TRADEMARK ++ " 4567") = "123".
Proof. repeat split; reflexivity. Qed.

(** C5 (amended): each scan only sees the tokens that come before the
    first terminator glyph. The extraction returns the first of these
    that is longer than 3 and parses as an integer; when there is none,
    the first of these that is longer than 2 and parses as an integer;
    and the empty result when there is none either. *)
Theorem pickNumber_scans_before_terminator :
  (forall (fields : list string) (minLen : Z),
      extractNumber fields minLen
      = default "" (firstQualifying minLen (beforeTerminator fields)))
  /\ (forall fields : list string,
         pickNumber fields
         = match firstQualifying 3 (beforeTerminator fields) with
           | Some token => token
           | None => default "" (firstQualifying 2 (beforeTerminator fields))
           end).
Proof.
  split; [exact extractNumber_spec |].
  intros fields. unfold pickNumber. rewrite !extractNumber_spec.
  destruct (firstQualifying 3 (beforeTerminator fields)) as [token |] eqn:H;
    [| reflexivity].
  cbn [from_option id]. apply firstQualifying_nonempty in H; [| lia].
  rewrite (eqb_empty_false _ H). reflexivity.
Qed.

(** ** The Scryfall results *)

(** C7: a record with the promo type "sldbonus" adds nothing to the
    result, whatever its name, and so does a record whose collector
    number ends with the black star. Any other record adds one entry:
    its number is the collector number followed by "a" as soon as the
    record has faces (so whenever it has several), and the collector
    number itself when it has none; its name is the part of the record's
    name before the first " // ", that is the name of the first face. *)
Theorem search_excludes_bonus_and_star :
  forall (pre post : list Scryfall.Card) (card : Scryfall.Card),
    ("sldbonus" ∈ Scryfall.PromoTypes card ->
     searchCards (pre ++ card :: post)
     = (searchCards pre ++ searchCards post)%list)
    /\ (HasSuffix (Scryfall.CollectorNumber card) BLACKSTAR = true ->
        searchCards (pre ++ card :: post)
        = (searchCards pre ++ searchCards post)%list)
    /\ ("sldbonus" ∉ Scryfall.PromoTypes card ->
        HasSuffix (Scryfall.CollectorNumber card) BLACKSTAR = false ->
        searchCards (pre ++ card :: post)
        = (searchCards pre ++ searchEntry card :: searchCards post)%list
        /\ ((2 <= length (Scryfall.CardFaces card))%nat ->
            Number (searchEntry card) = Scryfall.CollectorNumber card ++ "a")
        /\ (Scryfall.CardFaces card <> [] ->
            Number (searchEntry card) = Scryfall.CollectorNumber card ++ "a")
        /\ (Scryfall.CardFaces card = [] ->
            Number (searchEntry card) = Scryfall.CollectorNumber card)
        /\ (forall face others : string,
               Scryfall.Name card = face ++ " // " ++ others ->
               Index (Scryfall.Name card) " // " = len face ->
               Name (searchEntry card) = face)).
Proof.
  intros pre post card.
  split; [| split].
  - intros H. rewrite searchCards_app. cbn [searchCards].
    rewrite (proj2 (existsb_eqb_elem _ _) H). reflexivity.
  - intros H. rewrite searchCards_app. cbn [searchCards].
    rewrite H. destruct (existsb _ _); reflexivity.
  - intros Hbonus Hstar.
    assert (Hb : existsb (String.eqb "sldbonus") (Scryfall.PromoTypes card) = false).
    { apply not_true_is_false. intros E. apply Hbonus.
      apply existsb_eqb_elem. exact E. }
    split; [| split; [| split; [| split]]].
    + rewrite searchCards_app. cbn [searchCards]. rewrite Hb, Hstar. reflexivity.
    + intros Hfaces. unfold searchEntry. cbn [Number].
      destruct (Scryfall.CardFaces card); [simpl in Hfaces; lia | reflexivity].
    + intros Hfaces. unfold searchEntry. cbn [Number].
      destruct (Scryfall.CardFaces card); [contradiction | reflexivity].
    + intros Hfaces. unfold searchEntry. cbn [Number].
      rewrite Hfaces. reflexivity.
    + intros face others Hname Hindex. unfold searchEntry. cbn [Name].
      rewrite Hname in *. rewrite Split_first; [reflexivity | discriminate | exact Hindex].
Qed.

Lemma search_excludes_bonus_and_star_witness :
  searchCards [twoFacedCard; bonusCard] = searchCards [twoFacedCard]
  /\ searchCards [starCard; twoFacedCard] = searchCards [twoFacedCard]
  /\ searchCards [twoFacedCard]
     = [mkCardData "Delver of Secrets" "1025a" false false false].
Proof.
  split; [| split].
  - apply (proj1 (search_excludes_bonus_and_star [twoFacedCard] [] bonusCard)).
    apply list_elem_of_In. simpl. auto.
  - apply (proj1 (proj2 (search_excludes_bonus_and_star [] [twoFacedCard] starCard))).
    reflexivity.
  - assert (Hbonus : "sldbonus" ∉ Scryfall.PromoTypes twoFacedCard).
    { intros H. apply list_elem_of_In in H. exact H. }
    assert (Hstar : HasSuffix (Scryfall.CollectorNumber twoFacedCard) BLACKSTAR = false)
      by reflexivity.
    destruct (proj2 (proj2 (search_excludes_bonus_and_star [] [] twoFacedCard))
                Hbonus Hstar) as (Hentry & Hfaces & _ & _ & Hname).
    simpl app in Hentry. rewrite Hentry.
    assert (Hn : Name (searchEntry twoFacedCard) = "Delver of Secrets").
    { apply (Hname "Delver of Secrets" "Insectile Aberration"); reflexivity. }
    assert (Hf : Number (searchEntry twoFacedCard) = "1025a").
    { apply Hfaces. simpl. lia. }
    cbn [searchCards].
    destruct (searchEntry twoFacedCard) as [name number foil etched token] eqn:E.
    simpl in Hn, Hf. subst name number.
    inversion E. reflexivity.
Defined.

(** ** Fold mode *)

(** C6 (what the code does): for a Product with Items, fold mode is
    entered exactly when the gallery title contains " (" and the total it
    declares is the double of the Item count or that double plus one. With
    three cards and a declared total of 7, which is not the double of 3,
    fold mode is entered; and in fold mode, when the first image of a pair
    is read without a number, the second image of the pair is read and
    its number is given to the Item. *)
Theorem foldMode_entered_on_odd_total :
  (forall (galleryTitle : string) (cards : list CardData),
      cards <> [] ->
      foldModeOf galleryTitle cards = true <->
      Contains galleryTitle " (" = true /\
      (declaredTotal galleryTitle = 2 * Z.of_nat (length cards) \/
       declaredTotal galleryTitle = 2 * Z.of_nat (length cards) + 1))
  /\ declaredTotal "Gallery (7)" = 7
  /\ foldModeOf "Gallery (7)" threeCards = true
  /\ imagePass backOnly true 0 [Some "/front.png"; Some "/back.png"]
       [mkItem "A" ""]
     = [mkItem "A" "999"].
Proof.
  split; [| repeat split; reflexivity].
  intros galleryTitle cards Hcards. unfold foldModeOf.
  assert (Hlen : 1 <= Z.of_nat (length cards)).
  { destruct cards; [contradiction | simpl length; lia]. }
  destruct (Contains galleryTitle " (").
  - cbv zeta. rewrite Z.eqb_eq. split.
    + intros H. split; [reflexivity |].
      pose proof (Z.quot_rem' (declaredTotal galleryTitle) 2) as Hqr.
      destruct (Z.le_gt_cases 0 (declaredTotal galleryTitle)) as [H0 | H0].
      * pose proof (Z.rem_bound_pos (declaredTotal galleryTitle) 2 H0) as Hpos.
        lia.
      * assert (Hq : Z.quot (declaredTotal galleryTitle) 2 <= 0).
        { apply Z.quot_le_upper_bound; lia. }
        lia.
    + intros [_ [H | H]]; rewrite H.
      * rewrite Z.mul_comm. apply Z.quot_mul. lia.
      * symmetry. apply Z.quot_unique with (r := 1); lia.
  - split; [discriminate | intros [H _]; discriminate H].
Qed.

Lemma foldMode_entered_on_odd_total_witness :
  threeCards <> []
  /\ Contains "Gallery (7)" " (" = true
  /\ declaredTotal "Gallery (7)" = 2 * Z.of_nat (length threeCards) + 1
  /\ foldModeOf "Gallery (7)" threeCards = true.
Proof.
  assert (Hcards : threeCards <> []) by discriminate.
  split; [exact Hcards |]. split; [reflexivity |]. split; [reflexivity |].
  apply (proj1 foldMode_entered_on_odd_total "Gallery (7)" threeCards Hcards).
  split; [reflexivity | right; reflexivity].
Defined.

(** ** The title *)

(** C8: the title of scenario B gives the file name "Drop- Heads I Win
    Foil Edition" and the display title "Drop: Heads I Win Foil
    Edition". *)
Theorem cleanTitle_scenario_B :
  cleanTitle "Secret Lair Drop: Heads I Win | Foil Edition"
  = ("Drop- Heads I Win Foil Edition", "Drop: Heads I Win Foil Edition").
Proof. reflexivity. Qed.

(** ** The denylist pass *)

(** C9 (as stated, refuted): the pass is not idempotent. Removing "*"
    from "To*ken" leaves "Token", a tag of the denylist, which the pass
    had looked for before it removed "*"; a second pass removes it. *)
Lemma stripDenylist_not_idempotent :
  stripDenylist noUnicode "To*ken" = "Token"
  /\ Contains (stripDenylist noUnicode "To*ken") "Token" = true
  /\ stripDenylist noUnicode (stripDenylist noUnicode "To*ken") = ""
  /\ stripDenylist noUnicode (stripDenylist noUnicode "To*ken")
     <> stripDenylist noUnicode "To*ken".
Proof. repeat split; try reflexivity. discriminate. Qed.

(** C9 (amended): the pass leaves unchanged every name in which no tag
    of the denylist occurs, neither as written nor in lower case; so a
    second pass changes nothing whenever the output of the first is such
    a name. *)
Theorem stripDenylist_fixes_tag_free_names :
  forall (unicodeLower : string -> string) (name : string),
    (tagFree unicodeLower name = true ->
     stripDenylist unicodeLower name = name)
    /\ (tagFree unicodeLower (stripDenylist unicodeLower name) = true ->
        stripDenylist unicodeLower (stripDenylist unicodeLower name)
        = stripDenylist unicodeLower name).
Proof.
  intros unicodeLower name. split.
  - apply stripTags_none.
  - apply stripTags_none.
Qed.

Lemma stripDenylist_fixes_tag_free_names_witness :
  tagFree noUnicode "Lightning Bolt" = true
  /\ stripDenylist noUnicode "Lightning Bolt" = "Lightning Bolt"
  /\ tagFree noUnicode (stripDenylist noUnicode "Foil Lightning Bolt") = true
  /\ stripDenylist noUnicode (stripDenylist noUnicode "Foil Lightning Bolt")
     = stripDenylist noUnicode "Foil Lightning Bolt".
Proof.
  split; [reflexivity |]. split.
  - apply (proj1 (stripDenylist_fixes_tag_free_names noUnicode "Lightning Bolt")).
    reflexivity.
  - split; [reflexivity |].
    apply (proj2 (stripDenylist_fixes_tag_free_names noUnicode "Foil Lightning Bolt")).
    reflexivity.
Defined.

(** ** Listing lines *)

(** C3 (as stated, refuted): the line "2 x Lightning Bolt (Foil)" is
    split at "x ", its count field is "2 " with the space, which [Atoi]
    rejects: the line is in error and yields no Item. *)
Lemma spaced_count_line_rejected :
  Split "2 x Lightning Bolt (Foil)" "x " = ["2 "; "Lightning Bolt (Foil)"]
  /\ cleanLine noUnicode "2 x Lightning Bolt (Foil)" = inl InvalidNumberInLine
  /\ addLine noUnicode "Secret Lair Drop" [] "2 x Lightning Bolt (Foil)" = [].
Proof. repeat split; reflexivity. Qed.

(** C3 (amended): take a raw line whose normal form (look-alike
    punctuation replaced, outer white space trimmed) is a count that
    [Atoi] reads as [n >= 1], immediately followed by "x ", then a name
    in which no "x" is followed by a space. Line canonicalization
    succeeds on it with the count [n], and the line yields [n] Items, all
    equal (same name, same flags) -- a single Item when the title of the
    product contains "Astrology Lands". A raw line made of such a count,
    "x " and a plain name is its own normal form. The line "2x Lightning
    Bolt (Foil)" yields two Items named "Lightning Bolt" with the foil
    flag set. *)
Theorem count_line_yields_copies :
  (forall (unicodeLower : string -> string) (title line ds name : string)
          (n : Z) (cards : list CardData),
      normalizeLine line = ds ++ "x " ++ name ->
      Atoi ds = (n, None) -> 1 <= n -> Contains name "x " = false ->
      let card := lineCard unicodeLower line (cleanName unicodeLower name) in
      cleanLine unicodeLower line = inr (cleanName unicodeLower name, n)
      /\ addLine unicodeLower title cards line
         = (cards ++ (if Contains title "Astrology Lands" then [card]
                      else replicate (Z.to_nat n) card))%list)
  /\ (forall (ds name : string) (n : Z),
         Atoi ds = (n, None) -> plainName name = true ->
         normalizeLine (ds ++ "x " ++ name) = ds ++ "x " ++ name
         /\ Contains name "x " = false)
  /\ addLine noUnicode "Secret Lair Drop" [] "2x Lightning Bolt (Foil)"
     = [mkCardData "Lightning Bolt" "" true false false;
        mkCardData "Lightning Bolt" "" true false false].
Proof.
  split; [| split; [| reflexivity]].
  - intros unicodeLower title line ds name n cards Hnorm Hds Hn Hname card.
    assert (Hline : cleanLine unicodeLower line
                    = inr (cleanName unicodeLower name, n)).
    { rewrite (cleanLine_normal _ line ds name Hnorm
                 (Atoi_ok_no_x ds n Hds) Hname), Hds.
      reflexivity. }
    split; [exact Hline |].
    unfold addLine. rewrite Hline.
    destruct (Z.to_nat n) as [| k] eqn:Hk; [lia |].
    fold card. apply appendCopies_spec.
  - intros ds name n Hds Hname. split.
    + exact (normalizeLine_plain ds name (Atoi_ok_countText ds n Hds) Hname).
    + exact (proj1 (proj2 (plainName_parts name Hname))).
Qed.

Lemma count_line_yields_copies_witness :
  normalizeLine ("  3x Urza" ++ RSQUO ++ "s Saga ") = "3x Urza's Saga"
  /\ Atoi "3" = (3, None) /\ 1 <= 3 /\ Contains "Urza's Saga" "x " = false
  /\ plainName "Sol Ring" = true
  /\ cleanLine noUnicode ("  3x Urza" ++ RSQUO ++ "s Saga ")
     = inr ("Urza's Saga", 3)
  /\ addLine noUnicode "Secret Lair Drop" [] ("  3x Urza" ++ RSQUO ++ "s Saga ")
     = replicate 3 (lineCard noUnicode ("  3x Urza" ++ RSQUO ++ "s Saga ")
                      "Urza's Saga")
  /\ normalizeLine "3x Sol Ring" = "3x Sol Ring".
Proof.
  assert (Hnorm : normalizeLine ("  3x Urza" ++ RSQUO ++ "s Saga ")
                  = "3" ++ "x " ++ "Urza's Saga") by reflexivity.
  assert (Hds : Atoi "3" = (3, None)) by reflexivity.
  assert (Hn : 1 <= 3) by lia.
  assert (Hname : Contains "Urza's Saga" "x " = false) by reflexivity.
  assert (Hplain : plainName "Sol Ring" = true) by reflexivity.
  destruct count_line_yields_copies as (Hcopies & Hself & _).
  split; [exact Hnorm |]. split; [exact Hds |]. split; [exact Hn |].
  split; [exact Hname |]. split; [exact Hplain |].
  destruct (Hcopies noUnicode "Secret Lair Drop"
              ("  3x Urza" ++ RSQUO ++ "s Saga ") "3" "Urza's Saga" 3 []
              Hnorm Hds Hn Hname) as [Hclean Hadd].
  split; [exact Hclean |]. split; [exact Hadd |].
  exact (proj1 (Hself "3" "Sol Ring" 3 Hds Hplain)).
Defined.

(** C4 (as stated, refuted): a count of 0 is no error. The line "0x
    Lightning Bolt" is accepted with the count 0, and then adds no Item. *)
Lemma zero_count_accepted :
  cleanLine noUnicode "0x Lightning Bolt" = inr ("Lightning Bolt", 0)
  /\ addLine noUnicode "Secret Lair Drop" [] "0x Lightning Bolt" = [].
Proof. split; reflexivity. Qed.

(** C4 (amended): line canonicalization returns the error "unexpected
    line format" when the line, once normalized, does not split at "x "
    into exactly two fields; when it does, it returns the error "invalid
    number in line" if [Atoi] rejects the first field and otherwise
    succeeds with the integer read, whatever it is. In particular, on a
    line made of a count text, "x " and a plain name, the count text
    decides: a count that is 0 or negative is accepted, and the line then
    adds no Item. *)
Theorem cleanLine_rejects_unparsed_counts_only :
  (forall (unicodeLower : string -> string) (line : string),
      length (Split (normalizeLine line) "x ") <> 2%nat ->
      cleanLine unicodeLower line = inl UnexpectedLineFormat)
  /\ (forall (unicodeLower : string -> string) (line count field : string),
         Split (normalizeLine line) "x " = [count; field] ->
         (forall (v : Z) (e : NumError),
             Atoi count = (v, Some e) ->
             cleanLine unicodeLower line = inl InvalidNumberInLine)
         /\ (forall n : Z,
                Atoi count = (n, None) ->
                cleanLine unicodeLower line
                = inr (cleanName unicodeLower field, n)))
  /\ (forall (unicodeLower : string -> string) (ds name : string),
         countText ds = true -> plainName name = true ->
         (forall (v : Z) (e : NumError),
             Atoi ds = (v, Some e) ->
             cleanLine unicodeLower (ds ++ "x " ++ name)
             = inl InvalidNumberInLine)
         /\ (forall n : Z,
                Atoi ds = (n, None) ->
                cleanLine unicodeLower (ds ++ "x " ++ name)
                = inr (cleanName unicodeLower name, n)
                /\ (n <= 0 ->
                    forall (title : string) (cards : list CardData),
                      addLine unicodeLower title cards (ds ++ "x " ++ name)
                      = cards))).
Proof.
  split; [| split].
  - intros unicodeLower line H. unfold cleanLine.
    rewrite (proj2 (Nat.eqb_neq _ _) H). reflexivity.
  - intros unicodeLower line count field H. unfold cleanLine. rewrite H.
    unfold elemAt. cbn [length Nat.eqb negb nth].
    split.
    + intros v e Hcount. rewrite Hcount. reflexivity.
    + intros n Hcount. rewrite Hcount. reflexivity.
  - intros unicodeLower ds name Hds Hname. split.
    + intros v e H. rewrite (cleanLine_plain _ ds name Hds Hname), H. reflexivity.
    + intros n H.
      assert (Hline : cleanLine unicodeLower (ds ++ "x " ++ name)
                      = inr (cleanName unicodeLower name, n)).
      { rewrite (cleanLine_plain _ ds name Hds Hname), H. reflexivity. }
      split; [exact Hline |].
      intros Hn title cards. unfold addLine. rewrite Hline.
      replace (Z.to_nat n) with 0%nat by lia. reflexivity.
Qed.

Lemma cleanLine_rejects_unparsed_counts_only_witness :
  cleanLine noUnicode "Lightning Bolt" = inl UnexpectedLineFormat
  /\ cleanLine noUnicode "x2x Sol Ring" = inl InvalidNumberInLine
  /\ cleanLine noUnicode "2 x Lightning Bolt" = inl InvalidNumberInLine
  /\ cleanLine noUnicode "0x Lightning Bolt" = inr ("Lightning Bolt", 0)
  /\ addLine noUnicode "Secret Lair Drop" [] "-1x Lightning Bolt" = [].
Proof.
  destruct cleanLine_rejects_unparsed_counts_only as (Hformat & Hfields & Hcount).
  split; [| split; [| split; [| split]]].
  - apply Hformat. vm_compute. lia.
  - apply (proj1 (Hfields noUnicode "x2x Sol Ring" "x2" "Sol Ring" eq_refl)
             0 ErrSyntax).
    reflexivity.
  - apply (proj1 (Hcount noUnicode "2 " "Lightning Bolt" eq_refl eq_refl)
             0 ErrSyntax).
    reflexivity.
  - apply (proj2 (Hcount noUnicode "0" "Lightning Bolt" eq_refl eq_refl) 0).
    reflexivity.
  - apply (proj2 (Hcount noUnicode "-1" "Lightning Bolt" eq_refl eq_refl) (-1));
      [reflexivity | lia].
Defined.

(** * Further properties of the scraper *)

(** ** What the resolution passes leave alone *)

Lemma itemShape_withNumber (card : CardData) (number : string) :
  itemShape (withNumber card number) = itemShape card.
Proof. reflexivity. Qed.

Lemma imap_shape (f : nat -> CardData -> CardData) (cards : list CardData) :
  (forall (j : nat) (card : CardData), itemShape (f j card) = itemShape card) ->
  map itemShape (imap f cards) = map itemShape cards.
Proof.
  revert f. induction cards as [| card rest IH]; intros f Hf; [reflexivity |].
  rewrite imap_cons. cbn [map]. rewrite Hf. f_equal.
  apply IH. intros j c. apply Hf.
Qed.

Lemma backfill_shape (cards : list CardData) :
  map itemShape (backfill cards) = map itemShape cards.
Proof.
  unfold backfill.
  destruct (negb (foundNum cards =? length cards)%nat); [| reflexivity].
  destruct (findLongest 0 cards "" (-1)) as [num pos].
  destruct (negb (String.eqb num "")); [| reflexivity].
  destruct (0 <? fst (Atoi (TrimLeft num "0"))); [| reflexivity].
  apply imap_shape. intros j card. reflexivity.
Qed.

Lemma insert_shape (cards : list CardData) (i : nat) (card : CardData)
    (number : string) :
  cards !! i = Some card ->
  map itemShape (<[i := withNumber card number]> cards) = map itemShape cards.
Proof.
  revert i. induction cards as [| c rest IH]; intros i Hi; [reflexivity |].
  destruct i as [| i]; simpl in Hi.
  - inversion Hi; subst. reflexivity.
  - cbn [map]. change (<[S i:=withNumber card number]> (c :: rest))
      with (c :: <[i:=withNumber card number]> rest).
    cbn [map]. f_equal. exact (IH i Hi).
Qed.

Lemma imagePass_shape (recognize : string -> option string) (foldMode : bool)
    (images : list (option string)) :
  forall (idx : nat) (cards : list CardData),
    map itemShape (imagePass recognize foldMode idx images cards)
    = map itemShape cards.
Proof.
  induction images as [| href rest IH]; intros idx cards;
    cbn [imagePass]; [reflexivity |].
  set (k := if foldMode then (idx / 2)%nat else idx).
  destruct (cards !! k) as [card0 |] eqn:Hk; [| reflexivity].
  destruct (negb (String.eqb (Number card0) "")); [apply IH |].
  destruct href as [imgLink |]; [| apply IH].
  destruct (getNumberFromLink recognize _) as [num |]; [| apply IH].
  rewrite IH. exact (insert_shape cards k card0 num Hk).
Qed.

Lemma assignNumbers_shape (results : NameMap) (cards : list CardData) :
  map itemShape (assignNumbers results cards) = map itemShape cards.
Proof.
  unfold assignNumbers. rewrite map_map. apply map_ext. intros card. reflexivity.
Qed.

Lemma matchHeaders_shape (unicodeLower : string -> string)
    (fuzzyMatch : string -> string -> bool) (search : string -> option NameMap)
    (title : string) (headers : list Header.scryfallHeader)
    (cards : list CardData) :
  map itemShape (fst (matchHeaders unicodeLower fuzzyMatch search title headers cards))
  = map itemShape cards.
Proof.
  induction headers as [| header rest IH]; cbn [matchHeaders]; [reflexivity |].
  destruct (negb _); [exact IH |].
  destruct (search (Header.URI header)) as [results |]; [| exact IH].
  apply assignNumbers_shape.
Qed.

Lemma resolveNumbers_shape (recognize : string -> option string) (doOCR : bool)
    (galleryTitle : string) (images : list (option string))
    (cards : list CardData) :
  map itemShape (resolveNumbers recognize doOCR galleryTitle images cards)
  = map itemShape cards.
Proof.
  unfold resolveNumbers. rewrite backfill_shape.
  destruct doOCR; [apply imagePass_shape | reflexivity].
Qed.

(** X1: the three resolution passes (match against the catalogue,
    gallery pass, backfill), alone or in sequence, change nothing of a
    Product but the numbers: the Items keep their count, their order,
    their names and their flags. *)
Theorem resolution_changes_numbers_only :
  forall (unicodeLower : string -> string) (recognize : string -> option string)
         (fuzzyMatch : string -> string -> bool)
         (search : string -> option NameMap)
         (title galleryTitle : string) (headers : list Header.scryfallHeader)
         (doOCR foldMode : bool) (idx : nat) (images : list (option string))
         (cards : list CardData),
    let matched :=
      fst (matchHeaders unicodeLower fuzzyMatch search title headers cards) in
    map itemShape matched = map itemShape cards
    /\ map itemShape (imagePass recognize foldMode idx images cards)
       = map itemShape cards
    /\ map itemShape (backfill cards) = map itemShape cards
    /\ map itemShape (resolveNumbers recognize doOCR galleryTitle images matched)
       = map itemShape cards
    /\ length (resolveNumbers recognize doOCR galleryTitle images matched)
       = length cards.
Proof.
  intros. subst matched.
  assert (Hall : map itemShape
                   (resolveNumbers recognize doOCR galleryTitle images
                      (fst (matchHeaders unicodeLower fuzzyMatch search title
                              headers cards)))
                 = map itemShape cards).
  { rewrite resolveNumbers_shape. apply matchHeaders_shape. }
  split; [apply matchHeaders_shape |].
  split; [apply imagePass_shape |].
  split; [apply backfill_shape |].
  split; [exact Hall |].
  apply (f_equal (@length _)) in Hall. rewrite !length_map in Hall. exact Hall.
Qed.

(** ** Printing an [int] and reading it back *)

Lemma Sprint_nonempty (z : Z) : Sprint z <> "".
Proof.
  unfold Sprint. destruct z as [| p | p]; cbn [Z.to_int NilZero.string_of_int].
  - discriminate.
  - unfold NilZero.string_of_uint. destruct (Pos.to_uint p); discriminate.
  - discriminate.
Qed.






(** ** The backfill, once more *)

Lemma foundNum_full (cards : list CardData) :
  (forall c : CardData, c ∈ cards -> Number c <> "") ->
  foundNum cards = length cards.
Proof.
  induction cards as [| card rest IH]; intros H; [reflexivity |].
  cbn [foundNum length].
  rewrite (eqb_empty_false _ (H card (list_elem_of_here _ _))). cbn [negb].
  f_equal. apply IH. intros c Hc. apply H. apply list_elem_of_further. exact Hc.
Qed.


Lemma backfill_unchanged_or_full (cards : list CardData) :
  backfill cards = cards
  \/ (forall c : CardData, c ∈ backfill cards -> Number c <> "").
Proof.
  unfold backfill.
  destruct (negb (foundNum cards =? length cards)%nat); [| left; reflexivity].
  destruct (findLongest 0 cards "" (-1)) as [num pos].
  destruct (negb (String.eqb num "")); [| left; reflexivity].
  destruct (0 <? fst (Atoi (TrimLeft num "0"))); [| left; reflexivity].
  right. intros c Hc.
  apply list_elem_of_lookup_1 in Hc as [i Hi].
  rewrite list_lookup_imap in Hi.
  destruct (cards !! i) as [c0 |]; [| discriminate Hi].
  inversion Hi; subst c. cbn [withNumber Number]. apply Sprint_nonempty.
Qed.

(** X2: the backfill either leaves the Product as it is or leaves no
    Item without a number; either way a second backfill changes nothing
    more. *)
Theorem backfill_idempotent :
  forall cards : list CardData,
    (backfill cards = cards
     \/ (forall c : CardData, c ∈ backfill cards -> Number c <> ""))
    /\ backfill (backfill cards) = backfill cards.
Proof.
  intros cards. split; [apply backfill_unchanged_or_full |].
  destruct (backfill_unchanged_or_full cards) as [H | H].
  - rewrite H. exact H.
  - apply backfill_all_found. apply foundNum_full. exact H.
Qed.



(** ** The token filter, once more *)

Lemma beforeTerminator_sound (fields : list string) (token : string) :
  token ∈ beforeTerminator fields ->
  token ∈ fields /\ isTerminator token = false.
Proof.
  induction fields as [| field rest IH]; cbn [beforeTerminator]; intros H.
  - inversion H.
  - destruct (isTerminator field) eqn:Hterm; [inversion H |].
    apply elem_of_cons in H as [-> | H].
    + split; [apply list_elem_of_here | exact Hterm].
    + destruct (IH H) as [Hin Hnot].
      split; [apply list_elem_of_further; exact Hin | exact Hnot].
Qed.

Lemma beforeTerminator_cut (pre post : list string) (token : string) :
  isTerminator token = true ->
  beforeTerminator (pre ++ token :: post) = beforeTerminator pre.
Proof.
  intros Hterm. induction pre as [| field rest IH]; cbn [app beforeTerminator].
  - rewrite Hterm. reflexivity.
  - destruct (isTerminator field); [reflexivity |]. rewrite IH. reflexivity.
Qed.

Lemma pickNumber_spec (fields : list string) :
  pickNumber fields
  = match firstQualifying 3 (beforeTerminator fields) with
    | Some token => token
    | None => default "" (firstQualifying 2 (beforeTerminator fields))
    end.
Proof.
  unfold pickNumber. rewrite !extractNumber_spec.
  destruct (firstQualifying 3 (beforeTerminator fields)) as [token |] eqn:H;
    [| reflexivity].
  cbn [from_option id]. apply firstQualifying_nonempty in H; [| lia].
  rewrite (eqb_empty_false _ H). reflexivity.
Qed.

(** X4: a number that the extraction returns is one of the recognised
    tokens, standing before every terminator glyph; it is longer than 2
    bytes, [Atoi] reads it without error, so that it is made of digits
    and signs only, and it is no terminator. *)
Theorem pickNumber_returns_a_numeric_token :
  forall (fields : list string) (number : string),
    pickNumber fields = number -> number <> "" ->
    number ∈ fields
    /\ number ∈ beforeTerminator fields
    /\ 2 < len number
    /\ noError (Atoi number) = true
    /\ allBytes countByte number = true
    /\ isTerminator number = false.
Proof.
  intros fields number Hpick Hne. rewrite pickNumber_spec in Hpick.
  assert (Hq : exists minLen : Z,
             2 <= minLen /\
             firstQualifying minLen (beforeTerminator fields) = Some number).
  { destruct (firstQualifying 3 (beforeTerminator fields)) as [t |] eqn:H3.
    - exists 3. split; [lia | congruence].
    - destruct (firstQualifying 2 (beforeTerminator fields)) as [t |] eqn:H2.
      + exists 2. split; [lia |]. cbn [from_option id] in Hpick. congruence.
      + cbn [from_option] in Hpick. congruence. }
  destruct Hq as (minLen & Hmin & Hfind).
  unfold firstQualifying in Hfind. apply find_some in Hfind as [Hin Hqual].
  apply list_elem_of_In in Hin.
  destruct (beforeTerminator_sound _ _ Hin) as [Hfields Hterm].
  unfold qualifies in Hqual. apply andb_true_iff in Hqual as [Hlen Hatoi].
  apply Z.ltb_lt in Hlen.
  assert (Hbytes : allBytes countByte number = true).
  { unfold noError in Hatoi.
    destruct (Atoi number) as [v [e |]] eqn:E; [discriminate Hatoi |].
    apply Atoi_ok_bytes in E as (c & cs & -> & Hc & Hcs).
    cbn [allBytes]. rewrite Hc, Hcs. reflexivity. }
  repeat split; try assumption. lia.
Qed.

Lemma pickNumber_returns_a_numeric_token_witness :
  pickNumber ["12"; "0457"; COPYRIGHT; "2024"] = "0457" /\ "0457" <> ""
  /\ "0457" ∈ ["12"; "0457"; COPYRIGHT; "2024"]
  /\ noError (Atoi "0457") = true.
Proof.
  assert (Hpick : pickNumber ["12"; "0457"; COPYRIGHT; "2024"] = "0457")
    by reflexivity.
  assert (Hne : "0457" <> "") by discriminate.
  split; [exact Hpick |]. split; [exact Hne |].
  destruct (pickNumber_returns_a_numeric_token _ _ Hpick Hne)
    as (Hin & _ & _ & Hatoi & _ & _).
  split; [exact Hin | exact Hatoi].
Defined.

(** X5: the tokens from the first terminator glyph on play no part:
    the extraction returns what it returns on the tokens before it. *)
Theorem pickNumber_ignores_tokens_after_terminator :
  forall (pre post : list string) (token : string),
    isTerminator token = true ->
    pickNumber (pre ++ token :: post) = pickNumber pre.
Proof.
  intros pre post token Hterm.
  rewrite !pickNumber_spec, (beforeTerminator_cut pre post token Hterm).
  reflexivity.
Qed.

Lemma pickNumber_ignores_tokens_after_terminator_witness :
  isTerminator TRADEMARK = true
  /\ pickNumber (["123"] ++ TRADEMARK :: ["4567"]) = pickNumber ["123"].
Proof.
  assert (H : isTerminator TRADEMARK = true) by reflexivity.
  split; [exact H |].
  exact (pickNumber_ignores_tokens_after_terminator ["123"] ["4567"] TRADEMARK H).
Defined.

(** ** The gallery pass, once more *)

Lemma imagePass_all_numbered (recognize : string -> option string)
    (foldMode : bool) (images : list (option string)) (cards : list CardData) :
  (forall c : CardData, c ∈ cards -> Number c <> "") ->
  forall idx : nat, imagePass recognize foldMode idx images cards = cards.
Proof.
  intros Hall. induction images as [| href rest IH]; intros idx;
    cbn [imagePass]; [reflexivity |].
  set (k := if foldMode then (idx / 2)%nat else idx).
  destruct (cards !! k) as [card0 |] eqn:Hk; [| reflexivity].
  rewrite (eqb_empty_false _ (Hall card0 (list_elem_of_lookup_2 _ _ _ Hk))).
  cbn [negb]. apply IH.
Qed.

Lemma imagePass_no_reading (recognize : string -> option string)
    (foldMode : bool) (images : list (option string)) :
  (forall link : string, recognize link = None) ->
  forall (idx : nat) (cards : list CardData),
    imagePass recognize foldMode idx images cards = cards.
Proof.
  intros Hnone. induction images as [| href rest IH]; intros idx cards;
    cbn [imagePass]; [reflexivity |].
  set (k := if foldMode then (idx / 2)%nat else idx).
  destruct (cards !! k) as [card0 |]; [| reflexivity].
  destruct (negb (String.eqb (Number card0) "")); [apply IH |].
  destruct href as [imgLink |]; [| apply IH].
  unfold getNumberFromLink. rewrite Hnone. cbn [fmap option_fmap option_map].
  apply IH.
Qed.

(** X6: the gallery pass returns the cards as they are when every card
    already has a number, and when the recognition fails on every image. *)
Theorem imagePass_identity_cases :
  forall (recognize : string -> option string) (foldMode : bool) (idx : nat)
         (images : list (option string)) (cards : list CardData),
    ((forall c : CardData, c ∈ cards -> Number c <> "") ->
     imagePass recognize foldMode idx images cards = cards)
    /\ ((forall link : string, recognize link = None) ->
        imagePass recognize foldMode idx images cards = cards).
Proof.
  intros recognize foldMode idx images cards. split.
  - intros H. apply imagePass_all_numbered. exact H.
  - intros H. apply imagePass_no_reading. exact H.
Qed.

Lemma imagePass_identity_cases_witness :
  imagePass always1234 true 0 [Some "/a.png"; None; Some "/b.png"]
    [mkItem "A" "77"; mkItem "B" "78"]
  = [mkItem "A" "77"; mkItem "B" "78"]
  /\ imagePass (fun _ => None) false 0 [Some "/a.png"; Some "/b.png"] threeCards
     = threeCards.
Proof.
  split.
  - apply (proj1 (imagePass_identity_cases always1234 true 0
                    [Some "/a.png"; None; Some "/b.png"]
                    [mkItem "A" "77"; mkItem "B" "78"])).
    intros c Hc. apply list_elem_of_In in Hc. simpl in Hc.
    destruct Hc as [<- | [<- | []]]; discriminate.
  - apply (proj2 (imagePass_identity_cases (fun _ => None) false 0
                    [Some "/a.png"; Some "/b.png"] threeCards)).
    intros link. reflexivity.
Defined.

Lemma imagePass_stops (recognize : string -> option string) (foldMode : bool)
    (images : list (option string)) (idx : nat) (cards : list CardData) :
  ((if foldMode then 2 else 1) * length cards <= idx)%nat ->
  imagePass recognize foldMode idx images cards = cards.
Proof.
  intros Hidx. destruct images as [| href rest]; cbn [imagePass]; [reflexivity |].
  rewrite (proj2 (lookup_ge_None cards _)); [reflexivity |].
  destruct foldMode; [| lia].
  apply Nat.div_le_lower_bound; lia.
Qed.

Lemma imagePass_extra_images (recognize : string -> option string)
    (foldMode : bool) (extra : list (option string))
    (images : list (option string)) :
  forall (idx : nat) (cards : list CardData),
    ((if foldMode then 2 else 1) * length cards <= idx + length images)%nat ->
    imagePass recognize foldMode idx (images ++ extra) cards
    = imagePass recognize foldMode idx images cards.
Proof.
  induction images as [| href rest IH]; intros idx cards Hlen.
  - cbn [app length] in *. cbn [imagePass].
    apply imagePass_stops. lia.
  - cbn [app imagePass]. cbn [length] in Hlen.
    set (k := if foldMode then (idx / 2)%nat else idx).
    destruct (cards !! k) as [card0 |]; [| reflexivity].
    destruct (negb (String.eqb (Number card0) "")); [apply IH; lia |].
    destruct href as [imgLink |]; [| apply IH; lia].
    destruct (getNumberFromLink recognize _) as [num |]; [| apply IH; lia].
    apply IH. rewrite length_insert. lia.
Qed.

(** X7: the images that come after one image per card (two per card in
    fold mode) are never read: the pass gives the same cards with and
    without them. *)
Theorem imagePass_ignores_extra_images :
  forall (recognize : string -> option string) (foldMode : bool)
         (images extra : list (option string)) (cards : list CardData),
    ((if foldMode then 2 else 1) * length cards <= length images)%nat ->
    imagePass recognize foldMode 0 (images ++ extra) cards
    = imagePass recognize foldMode 0 images cards.
Proof.
  intros recognize foldMode images extra cards Hlen.
  apply imagePass_extra_images. lia.
Qed.

Lemma imagePass_ignores_extra_images_witness :
  (1 * length [mkItem "A" ""] <= length [Some "/a.png"])%nat
  /\ imagePass backOnly false 0 ([Some "/front.png"] ++ [Some "/b.png"])
       [mkItem "A" ""]
     = [mkItem "A" ""].
Proof.
  assert (H : ((if false then 2 else 1) * length [mkItem "A" ""]
               <= length [Some "/front.png"])%nat) by (simpl; lia).
  split; [simpl; lia |].
  rewrite (imagePass_ignores_extra_images backOnly false [Some "/front.png"]
             [Some "/b.png"] [mkItem "A" ""] H).
  reflexivity.
Defined.

Lemma imagePass_before (recognize : string -> option string)
    (images : list (option string)) :
  forall (idx : nat) (cards : list CardData) (i : nat),
    (i < idx)%nat ->
    imagePass recognize false idx images cards !! i = cards !! i.
Proof.
  induction images as [| href rest IH]; intros idx cards i Hi;
    cbn [imagePass]; [reflexivity |].
  destruct (cards !! idx) as [card0 |]; [| reflexivity].
  destruct (negb (String.eqb (Number card0) "")); [apply IH; lia |].
  destruct href as [imgLink |]; [| apply IH; lia].
  destruct (getNumberFromLink recognize _) as [num |]; [| apply IH; lia].
  rewrite IH; [| lia]. apply list_lookup_insert_ne. lia.
Qed.

Lemma imagePass_at (recognize : string -> option string)
    (images : list (option string)) :
  forall (idx : nat) (cards : list CardData) (i : nat) (card : CardData)
         (link text : string),
    (idx <= i)%nat ->
    images !! (i - idx)%nat = Some (Some link) ->
    cards !! i = Some card -> Number card = "" ->
    recognize (if HasPrefix link "/"
               then "https://secretlair.wizards.com" ++ link else link)
    = Some text ->
    imagePass recognize false idx images cards !! i
    = Some (withNumber card (numberFromText text)).
Proof.
  induction images as [| href rest IH];
    intros idx cards i card link text Hidx Himg Hcard Hnum Hrec.
  - rewrite lookup_nil in Himg. discriminate Himg.
  - cbn [imagePass].
    destruct (Nat.eq_dec idx i) as [-> | Hneq].
    + rewrite Nat.sub_diag in Himg. cbn in Himg. inversion Himg; subst href.
      rewrite Hcard, Hnum. cbn [String.eqb negb].
      unfold getNumberFromLink. rewrite Hrec.
      cbn [fmap option_fmap option_map].
      rewrite imagePass_before; [| lia].
      apply list_lookup_insert_eq. exact (lookup_lt_Some _ _ _ Hcard).
    + assert (Hrest : rest !! (i - S idx)%nat = Some (Some link)).
      { replace (i - idx)%nat with (S (i - S idx)) in Himg by lia.
        exact Himg. }
      destruct (cards !! idx) as [card0 |] eqn:Hk.
      * destruct (negb (String.eqb (Number card0) ""));
          [apply (IH (S idx) cards i card link text); (lia || assumption) |].
        destruct href as [imgLink |];
          [| apply (IH (S idx) cards i card link text); (lia || assumption)].
        destruct (getNumberFromLink recognize _) as [num |];
          [| apply (IH (S idx) cards i card link text); (lia || assumption)].
        apply (IH (S idx) _ i card link text); try (lia || assumption).
        rewrite list_lookup_insert_ne; [exact Hcard | exact Hneq].
      * exfalso. pose proof (lookup_lt_Some _ _ _ Hcard) as Hlt.
        apply lookup_ge_None in Hk. lia.
Qed.

(** X8: without fold mode the images and the cards go by position. A
    card without number whose image, at the same position, has a link
    that the recognition reads, receives the number extracted from that
    reading (the site's address is put before a link that starts with
    "/"), whatever the other images are. *)
Theorem imagePass_numbers_by_position :
  forall (recognize : string -> option string) (images : list (option string))
         (cards : list CardData) (i : nat) (card : CardData)
         (link text : string),
    images !! i = Some (Some link) ->
    cards !! i = Some card -> Number card = "" ->
    recognize (if HasPrefix link "/"
               then "https://secretlair.wizards.com" ++ link else link)
    = Some text ->
    imagePass recognize false 0 images cards !! i
    = Some (withNumber card (numberFromText text)).
Proof.
  intros recognize images cards i card link text Himg Hcard Hnum Hrec.
  apply (imagePass_at recognize images 0 cards i card link text);
    try assumption; [lia |].
  rewrite Nat.sub_0_r. exact Himg.
Qed.

Lemma imagePass_numbers_by_position_witness :
  imagePass backOnly false 0 [Some "/front.png"; Some "/back.png"] threeCards
    !! 1%nat
  = Some (mkItem "B" "999").
Proof.
  apply (imagePass_numbers_by_position backOnly
           [Some "/front.png"; Some "/back.png"] threeCards 1
           (mkItem "B" "") "/back.png" "999"); reflexivity.
Defined.

(** ** The Items of a page *)

Lemma appendCopies_replicate (astrology : bool) (n : nat) (card : CardData)
    (cards : list CardData) :
  appendCopies astrology n card cards
  = (cards ++ replicate (if astrology then Nat.min 1 n else n) card)%list.
Proof.
  destruct n as [| n].
  - cbn [appendCopies]. destruct astrology; cbn; rewrite app_nil_r; reflexivity.
  - rewrite appendCopies_spec. destruct astrology; reflexivity.
Qed.

Lemma addLine_app (unicodeLower : string -> string) (title line : string)
    (cards : list CardData) :
  addLine unicodeLower title cards line
  = (cards ++ addLine unicodeLower title [] line)%list.
Proof.
  unfold addLine. destruct (cleanLine unicodeLower line) as [e | [name n]].
  - rewrite app_nil_r. reflexivity.
  - rewrite !appendCopies_replicate. reflexivity.
Qed.

Lemma fold_addLine (unicodeLower : string -> string) (title : string)
    (lines : list string) :
  forall cards : list CardData,
    fold_left (addLine unicodeLower title) lines cards
    = (cards ++ flat_map (addLine unicodeLower title []) lines)%list.
Proof.
  induction lines as [| line rest IH]; intros cards; cbn [fold_left flat_map].
  - rewrite app_nil_r. reflexivity.
  - rewrite IH, (addLine_app unicodeLower title line cards), <- app_assoc.
    reflexivity.
Qed.

Lemma addLine_numbers (unicodeLower : string -> string) (title line : string)
    (c : CardData) :
  c ∈ addLine unicodeLower title [] line -> Number c = "".
Proof.
  unfold addLine. destruct (cleanLine unicodeLower line) as [e | [name n]].
  - intros H. inversion H.
  - rewrite appendCopies_replicate. cbn [app]. intros H.
    apply elem_of_replicate in H as [-> _]. reflexivity.
Qed.

(** X9: a listing line that canonicalizes to a name and a count [n]
    adds, after the cards already there, [n] copies of one card (none
    when [n <= 0], one at most when the page title contains "Astrology
    Lands"); the card has that name, no number yet, and the flags read
    in the raw line. A line in error adds nothing. *)
Theorem addLine_appends_copies :
  forall (unicodeLower : string -> string) (title line : string)
         (cards : list CardData),
    (forall (name : string) (n : Z),
        cleanLine unicodeLower line = inr (name, n) ->
        addLine unicodeLower title cards line
        = (cards ++ replicate
                      (if Contains title "Astrology Lands"
                       then Nat.min 1 (Z.to_nat n) else Z.to_nat n)
                      (mkCardData name ""
                         (Contains (ToLower unicodeLower line) "foil")
                         (Contains (ToLower unicodeLower line) "etched")
                         (Contains (ToLower unicodeLower line) "token")))%list)
    /\ (forall e : LineError,
           cleanLine unicodeLower line = inl e ->
           addLine unicodeLower title cards line = cards).
Proof.
  intros unicodeLower title line cards. split.
  - intros name n H. unfold addLine. rewrite H.
    apply appendCopies_replicate.
  - intros e H. unfold addLine. rewrite H. reflexivity.
Qed.

Lemma addLine_appends_copies_witness :
  addLine noUnicode "Secret Lair Drop" [mkItem "A" "7"] "2x Etched Foil Sol Ring"
  = [mkItem "A" "7"; mkCardData "Sol Ring" "" true true false;
     mkCardData "Sol Ring" "" true true false]
  /\ addLine noUnicode "Secret Lair Drop" [mkItem "A" "7"] "Sol Ring"
     = [mkItem "A" "7"].
Proof.
  split.
  - apply (proj1 (addLine_appends_copies noUnicode "Secret Lair Drop"
                    "2x Etched Foil Sol Ring" [mkItem "A" "7"]) "Sol Ring" 2).
    reflexivity.
  - apply (proj2 (addLine_appends_copies noUnicode "Secret Lair Drop"
                    "Sol Ring" [mkItem "A" "7"]) UnexpectedLineFormat).
    reflexivity.
Defined.

(** X10: the cards of a page are the cards of its bullet points, line
    after line in page order; the lines of the product information are
    used instead when, and only when, the bullet points give no card; the
    error "no cards found" is returned exactly when both give none. The
    cards found are at least one and none of them has a number. *)
Theorem pageCards_in_page_order :
  forall (unicodeLower : string -> string) (title : string)
         (bullets : list string) (productInfo : string),
    let fromBullets := flat_map (addLine unicodeLower title []) bullets in
    let fromInfo :=
      flat_map (addLine unicodeLower title []) (Split productInfo "<br/>") in
    (fromBullets <> [] ->
     pageCards unicodeLower title bullets productInfo = Some fromBullets)
    /\ (fromBullets = [] -> fromInfo <> [] ->
        pageCards unicodeLower title bullets productInfo = Some fromInfo)
    /\ (fromBullets = [] -> fromInfo = [] ->
        pageCards unicodeLower title bullets productInfo = None)
    /\ (forall cards : list CardData,
           pageCards unicodeLower title bullets productInfo = Some cards ->
           cards <> [] /\ forall c : CardData, c ∈ cards -> Number c = "").
Proof.
  intros unicodeLower title bullets productInfo fromBullets fromInfo.
  assert (Hnum : forall (lines : list string) (c : CardData),
             c ∈ flat_map (addLine unicodeLower title []) lines ->
             Number c = "").
  { intros lines c Hc. apply list_elem_of_In, in_flat_map in Hc as (l & _ & Hc).
    apply list_elem_of_In in Hc. exact (addLine_numbers _ _ _ _ Hc). }
  unfold pageCards. rewrite fold_addLine. cbn [app]. fold fromBullets.
  destruct fromBullets as [| b bs] eqn:Eb.
  - cbn [length Nat.eqb]. rewrite fold_addLine. cbn [app]. fold fromInfo.
    destruct fromInfo as [| f fs] eqn:Ei.
    + cbn [length Nat.eqb].
      split; [intros H; contradiction |].
      split; [intros _ H; contradiction |].
      split; [reflexivity |]. intros cards H. discriminate H.
    + cbn [length Nat.eqb].
      split; [intros H; contradiction |].
      split; [reflexivity |].
      split; [intros _ H; discriminate H |].
      intros cards H. inversion H; subst cards. split; [discriminate |].
      intros c Hc. apply (Hnum (Split productInfo "<br/>")).
      unfold fromInfo in Ei. rewrite Ei. exact Hc.
  - cbn [length Nat.eqb].
    split; [reflexivity |].
    split; [intros H; discriminate H |].
    split; [intros H; discriminate H |].
    intros cards H. inversion H; subst cards. split; [discriminate |].
    intros c Hc. apply (Hnum bullets).
    unfold fromBullets in Eb. rewrite Eb. exact Hc.
Qed.

Lemma pageCards_in_page_order_witness :
  pageCards noUnicode "Secret Lair Drop" ["1x Sol Ring"; "Contents"; "2x Island"] ""
  = Some [mkItem "Sol Ring" ""; mkItem "Island" ""; mkItem "Island" ""]
  /\ pageCards noUnicode "Secret Lair Drop" ["Contents"] "1x Sol Ring<br/>1x Island"
     = Some [mkItem "Sol Ring" ""; mkItem "Island" ""]
  /\ pageCards noUnicode "Secret Lair Drop" ["Contents"] "Coming soon" = None.
Proof.
  split; [| split].
  - apply (proj1 (pageCards_in_page_order noUnicode "Secret Lair Drop"
                    ["1x Sol Ring"; "Contents"; "2x Island"] "")).
    discriminate.
  - apply (proj1 (proj2 (pageCards_in_page_order noUnicode "Secret Lair Drop"
                           ["Contents"] "1x Sol Ring<br/>1x Island")));
      [reflexivity | discriminate].
  - apply (proj1 (proj2 (proj2 (pageCards_in_page_order noUnicode
                                  "Secret Lair Drop" ["Contents"] "Coming soon"))));
      reflexivity.
Defined.

(** ** The bytes of a text through the string operations *)

Lemma memByte_revString (c : ascii) (s : string) :
  memByte c (revString s) = memByte c s.
Proof.
  induction s as [| d s IH]; [reflexivity |].
  change (String d s) with (String d "" ++ s) at 1.
  rewrite revString_app, memByte_app, IH.
  change (revString (String d "")) with (String d "").
  cbn [memByte]. rewrite orb_false_r. apply orb_comm.
Qed.

Lemma trimLeftFrom_suffix (s : string) :
  forall skip : nat, exists a : string, s = a ++ trimLeftFrom skip s.
Proof.
  induction s as [| c cs IH]; intros skip; cbn [trimLeftFrom].
  - exists "". reflexivity.
  - destruct skip as [| k].
    + destruct (spaceAt (String c cs)) as [sp |].
      * destruct (IH (String.length sp - 1)%nat) as [a Ha].
        exists (String c a). cbn [append]. rewrite <- Ha. reflexivity.
      * exists "". reflexivity.
    + destruct (IH k) as [a Ha].
      exists (String c a). cbn [append]. rewrite <- Ha. reflexivity.
Qed.

Lemma trimRightFrom_suffix (r : string) :
  forall skip : nat, exists a : string, r = a ++ trimRightFrom skip r.
Proof.
  induction r as [| c cs IH]; intros skip; cbn [trimRightFrom].
  - exists "". reflexivity.
  - destruct skip as [| k].
    + destruct (spaceAtEnd (String c cs)) as [sp |].
      * destruct (IH (String.length sp - 1)%nat) as [a Ha].
        exists (String c a). cbn [append]. rewrite <- Ha. reflexivity.
      * exists "". reflexivity.
    + destruct (IH k) as [a Ha].
      exists (String c a). cbn [append]. rewrite <- Ha. reflexivity.
Qed.

(** What [TrimSpace] returns is a part of the text. *)
Lemma TrimSpace_part (s : string) :
  exists a b : string, s = a ++ TrimSpace s ++ b.
Proof.
  unfold TrimSpace.
  destruct (trimLeftFrom_suffix s 0) as [a Ha].
  destruct (trimRightFrom_suffix (revString (trimLeftFrom 0 s)) 0) as [b Hb].
  exists a, (revString b).
  rewrite <- revString_app, <- Hb, revString_involutive. exact Ha.
Qed.

Lemma memByte_TrimSpace (c : ascii) (s : string) :
  memByte c s = false -> memByte c (TrimSpace s) = false.
Proof.
  intros H. destruct (TrimSpace_part s) as (a & b & E).
  rewrite E, !memByte_app in H.
  apply orb_false_iff in H as [_ H]. apply orb_false_iff in H as [H _]. exact H.
Qed.

Lemma memByte_replaceFrom (c : ascii) (old new : string) (s : string) :
  memByte c new = false ->
  forall (limit : option nat) (skip : nat),
    memByte c s = false ->
    memByte c (replaceFrom old new limit skip s) = false.
Proof.
  intros Hnew. induction s as [| d ds IH]; intros limit skip Hs;
    cbn [replaceFrom]; [reflexivity |].
  cbn [memByte] in Hs. apply orb_false_iff in Hs as [Hd Hds].
  destruct skip as [| k]; [| apply IH; exact Hds].
  assert (Hgo : memByte c
                  (if HasPrefix (String d ds) old
                   then new ++ replaceFrom old new (pred <$> limit)
                                 (String.length old - 1) ds
                   else String d (replaceFrom old new limit 0 ds)) = false).
  { destruct (HasPrefix (String d ds) old).
    - rewrite memByte_app, Hnew. apply IH. exact Hds.
    - cbn [memByte]. rewrite Hd. apply IH. exact Hds. }
  destruct limit as [[| n] |]; [| exact Hgo | exact Hgo].
  cbn [memByte]. rewrite Hd. exact Hds.
Qed.

Lemma memByte_Replace (c : ascii) (s old new : string) (n : Z) :
  memByte c new = false -> memByte c s = false ->
  memByte c (Replace s old new n) = false.
Proof.
  intros Hnew Hs. unfold Replace.
  destruct (String.eqb old new || (n =? 0)); [exact Hs |].
  apply memByte_replaceFrom; assumption.
Qed.

(** Replacing every occurrence of a byte leaves none of it. *)
Lemma replaceFrom_byte (c : ascii) (new : string) (s : string) :
  memByte c new = false ->
  memByte c (replaceFrom (String c "") new None 0 s) = false.
Proof.
  intros Hnew. induction s as [| d ds IH]; cbn [replaceFrom]; [reflexivity |].
  cbn [HasPrefix]. rewrite HasPrefix_empty, andb_true_r.
  destruct (Ascii.eqb_spec d c) as [-> | Hdc].
  - cbn [String.length Nat.sub fmap option_fmap option_map].
    rewrite memByte_app, Hnew. exact IH.
  - cbn [memByte]. rewrite (proj2 (Ascii.eqb_neq c d)); [exact IH |].
    intros E. apply Hdc. symmetry. exact E.
Qed.

(** The table-driven replacer leaves no byte that it replaces by
    nothing, provided no replacement text brings it back. *)
Lemma memByte_replacerFrom (c : ascii) (oldnew : list (string * string)) :
  (forall pair : string * string,
      In pair oldnew -> memByte c (snd pair) = false) ->
  (forall cs : string,
      find (fun p => HasPrefix (String c cs) (fst p)) oldnew <> None) ->
  forall (s : string) (skip : nat),
    memByte c (replacerFrom oldnew skip s) = false.
Proof.
  intros Hnew Hold. induction s as [| d ds IH]; intros skip;
    cbn [replacerFrom]; [reflexivity |].
  destruct skip as [| k]; [| apply IH].
  destruct (find (fun p => HasPrefix (String d ds) (fst p)) oldnew)
    as [[old new] |] eqn:Hfind.
  - rewrite memByte_app, IH, orb_false_r.
    apply find_some in Hfind as [Hin _]. exact (Hnew _ Hin).
  - cbn [memByte]. rewrite IH, orb_false_r.
    apply Ascii.eqb_neq. intros ->. exact (Hold ds Hfind).
Qed.

Lemma replacer_removes_unsafe (c : ascii) (s : string) :
  memByte c unsafeBytes = true ->
  memByte c (ReplacerReplace replacerStrings s) = false.
Proof.
  intros Hc. unfold ReplacerReplace. apply memByte_replacerFrom.
  - intros pair Hin. revert Hc. cbn in Hin.
    repeat (destruct Hin as [<- | Hin]; [by_bytes c |]).
    contradiction.
  - intros cs. revert Hc. by_bytes c; intros _; destruct cs; discriminate.
Qed.

(** ** [TrimSpace] twice, and through a change of bytes *)

Lemma find_none_iff {A : Type} (P : A -> bool) (l : list A) :
  find P l = None <-> forall x : A, In x l -> P x = false.
Proof.
  split; [apply find_none |].
  induction l as [| y l IH]; intros H; cbn [find]; [reflexivity |].
  rewrite (H y (or_introl eq_refl)). apply IH.
  intros x Hx. apply H. right. exact Hx.
Qed.

Lemma find_ext_in {A : Type} (P Q : A -> bool) (l : list A) :
  (forall x : A, In x l -> P x = Q x) -> find P l = find Q l.
Proof.
  induction l as [| y l IH]; intros H; cbn [find]; [reflexivity |].
  rewrite (H y (or_introl eq_refl)), IH; [reflexivity |].
  intros x Hx. apply H. right. exact Hx.
Qed.

Lemma HasPrefix_app_l (a b p : string) :
  HasPrefix a p = true -> HasPrefix (a ++ b) p = true.
Proof.
  revert a. induction p as [| c p IH]; intros a H.
  - apply HasPrefix_empty.
  - destruct a as [| d a]; [discriminate H |].
    cbn [append HasPrefix] in *.
    apply andb_true_iff in H as [H1 H2]. rewrite H1, (IH a H2). reflexivity.
Qed.

Lemma spaceAt_prefix (a b : string) :
  spaceAt (a ++ b) = None -> spaceAt a = None.
Proof.
  unfold spaceAt. rewrite !find_none_iff. intros H sp Hsp.
  specialize (H sp Hsp).
  destruct (HasPrefix a sp) eqn:E; [| reflexivity].
  rewrite (HasPrefix_app_l a b sp E) in H. discriminate H.
Qed.

Lemma spaceAt_trimLeftFrom (s : string) :
  forall skip : nat, spaceAt (trimLeftFrom skip s) = None.
Proof.
  induction s as [| c cs IH]; intros skip; cbn [trimLeftFrom]; [reflexivity |].
  destruct skip as [| k]; [| apply IH].
  destruct (spaceAt (String c cs)) as [sp |] eqn:E; [apply IH | exact E].
Qed.

Lemma spaceAtEnd_trimRightFrom (r : string) :
  forall skip : nat, spaceAtEnd (trimRightFrom skip r) = None.
Proof.
  induction r as [| c cs IH]; intros skip; cbn [trimRightFrom]; [reflexivity |].
  destruct skip as [| k]; [| apply IH].
  destruct (spaceAtEnd (String c cs)) as [sp |] eqn:E; [apply IH | exact E].
Qed.

Lemma trimLeftFrom_fixed (s : string) :
  spaceAt s = None -> trimLeftFrom 0 s = s.
Proof. intros H. destruct s; cbn [trimLeftFrom]; [| rewrite H]; reflexivity. Qed.

Lemma trimRightFrom_fixed (r : string) :
  spaceAtEnd r = None -> trimRightFrom 0 r = r.
Proof. intros H. destruct r; cbn [trimRightFrom]; [| rewrite H]; reflexivity. Qed.

(** A text that [TrimSpace] returned has no white space left to trim. *)
Lemma TrimSpace_idempotent (s : string) : TrimSpace (TrimSpace s) = TrimSpace s.
Proof.
  unfold TrimSpace at 1.
  assert (Hleft : spaceAt (TrimSpace s) = None).
  { unfold TrimSpace.
    destruct (trimRightFrom_suffix (revString (trimLeftFrom 0 s)) 0) as [a Ha].
    apply (spaceAt_prefix _ (revString a)).
    rewrite <- revString_app, <- Ha, revString_involutive.
    apply spaceAt_trimLeftFrom. }
  rewrite (trimLeftFrom_fixed _ Hleft).
  unfold TrimSpace. rewrite revString_involutive.
  rewrite (trimRightFrom_fixed _ (spaceAtEnd_trimRightFrom _ 0)).
  reflexivity.
Qed.

Lemma mapBytes_app (f : ascii -> ascii) (a b : string) :
  mapBytes f (a ++ b) = mapBytes f a ++ mapBytes f b.
Proof. induction a as [| c a IH]; cbn; [reflexivity | now rewrite IH]. Qed.

Lemma revString_mapBytes (f : ascii -> ascii) (s : string) :
  revString (mapBytes f s) = mapBytes f (revString s).
Proof.
  induction s as [| c s IH]; [reflexivity |].
  cbn [mapBytes].
  change (String (f c) (mapBytes f s)) with (String (f c) "" ++ mapBytes f s).
  change (String c s) with (String c "" ++ s).
  rewrite !revString_app, mapBytes_app, IH. reflexivity.
Qed.

Lemma mapBytes_length (f : ascii -> ascii) (s : string) :
  String.length (mapBytes f s) = String.length s.
Proof. induction s as [| c s IH]; cbn; [reflexivity | now rewrite IH]. Qed.

Lemma colonToHyphen_eqb (c b : ascii) :
  Ascii.eqb b ":" = false -> Ascii.eqb b "-" = false ->
  Ascii.eqb (colonToHyphen c) b = Ascii.eqb c b.
Proof.
  intros H1 H2. unfold colonToHyphen.
  destruct (Ascii.eqb_spec c ":") as [-> | _]; [| reflexivity].
  rewrite Ascii.eqb_sym, H2, Ascii.eqb_sym, H1. reflexivity.
Qed.

Lemma HasPrefix_colonToHyphen (sp : string) :
  memByte ":" sp = false -> memByte "-" sp = false ->
  forall s : string,
    HasPrefix (mapBytes colonToHyphen s) sp = HasPrefix s sp.
Proof.
  induction sp as [| b sp IH]; intros H1 H2 s.
  - rewrite !HasPrefix_empty. reflexivity.
  - cbn [memByte] in H1, H2.
    apply orb_false_iff in H1 as [Hb1 H1]. apply orb_false_iff in H2 as [Hb2 H2].
    destruct s as [| c s]; [reflexivity |].
    cbn [mapBytes HasPrefix].
    rewrite (IH H1 H2), colonToHyphen_eqb; [reflexivity | |].
    + rewrite Ascii.eqb_sym. exact Hb1.
    + rewrite Ascii.eqb_sym. exact Hb2.
Qed.

Lemma spaces_without_colon (sp : string) :
  In sp spaces ->
  memByte ":" sp = false /\ memByte "-" sp = false
  /\ memByte ":" (revString sp) = false /\ memByte "-" (revString sp) = false.
Proof.
  intros H. cbn in H.
  repeat (destruct H as [<- | H]; [repeat split; reflexivity |]).
  contradiction.
Qed.

Lemma spaceAt_colonToHyphen (s : string) :
  spaceAt (mapBytes colonToHyphen s) = spaceAt s.
Proof.
  unfold spaceAt. apply find_ext_in. intros sp Hsp.
  destruct (spaces_without_colon sp Hsp) as (H1 & H2 & _).
  apply HasPrefix_colonToHyphen; assumption.
Qed.

Lemma spaceAtEnd_colonToHyphen (r : string) :
  spaceAtEnd (mapBytes colonToHyphen r) = spaceAtEnd r.
Proof.
  unfold spaceAtEnd. apply find_ext_in. intros sp Hsp.
  destruct (spaces_without_colon sp Hsp) as (_ & _ & H1 & H2).
  apply HasPrefix_colonToHyphen; assumption.
Qed.

Lemma trimLeftFrom_colonToHyphen (s : string) :
  forall skip : nat,
    trimLeftFrom skip (mapBytes colonToHyphen s)
    = mapBytes colonToHyphen (trimLeftFrom skip s).
Proof.
  induction s as [| c cs IH]; intros skip; [reflexivity |].
  destruct skip as [| k]; [| cbn [mapBytes trimLeftFrom]; apply IH].
  change (trimLeftFrom 0 (mapBytes colonToHyphen (String c cs)))
    with (match spaceAt (mapBytes colonToHyphen (String c cs)) with
          | Some sp => trimLeftFrom (String.length sp - 1)
                         (mapBytes colonToHyphen cs)
          | None => mapBytes colonToHyphen (String c cs)
          end).
  rewrite spaceAt_colonToHyphen. cbn [trimLeftFrom].
  destruct (spaceAt (String c cs)) as [sp |]; [apply IH | reflexivity].
Qed.

Lemma trimRightFrom_colonToHyphen (r : string) :
  forall skip : nat,
    trimRightFrom skip (mapBytes colonToHyphen r)
    = mapBytes colonToHyphen (trimRightFrom skip r).
Proof.
  induction r as [| c cs IH]; intros skip; [reflexivity |].
  destruct skip as [| k]; [| cbn [mapBytes trimRightFrom]; apply IH].
  change (trimRightFrom 0 (mapBytes colonToHyphen (String c cs)))
    with (match spaceAtEnd (mapBytes colonToHyphen (String c cs)) with
          | Some sp => trimRightFrom (String.length sp - 1)
                         (mapBytes colonToHyphen cs)
          | None => mapBytes colonToHyphen (String c cs)
          end).
  rewrite spaceAtEnd_colonToHyphen. cbn [trimRightFrom].
  destruct (spaceAtEnd (String c cs)) as [sp |]; [apply IH | reflexivity].
Qed.

Lemma TrimSpace_colonToHyphen (s : string) :
  TrimSpace (mapBytes colonToHyphen s) = mapBytes colonToHyphen (TrimSpace s).
Proof.
  unfold TrimSpace.
  rewrite trimLeftFrom_colonToHyphen, revString_mapBytes,
    trimRightFrom_colonToHyphen, revString_mapBytes.
  reflexivity.
Qed.

Lemma Replace_colon (s : string) :
  Replace s ":" "-" (-1) = mapBytes colonToHyphen s.
Proof.
  unfold Replace. cbn [String.eqb Ascii.eqb Bool.eqb orb Z.eqb Z.ltb Z.compare].
  induction s as [| c cs IH]; [reflexivity |].
  cbn [replaceFrom mapBytes HasPrefix].
  rewrite HasPrefix_empty, andb_true_r. unfold colonToHyphen at 1.
  destruct (Ascii.eqb c ":").
  - cbn [String.length Nat.sub fmap option_fmap option_map append].
    rewrite IH. reflexivity.
  - rewrite IH. reflexivity.
Qed.

(** ** The two titles *)

Lemma unsafe_byte_news (c : ascii) :
  memByte c unsafeBytes = true ->
  memByte c "" = false /\ memByte c "SPECIAL" = false
  /\ memByte c " Edition" = false /\ memByte c "-" = false.
Proof. by_bytes c; intros _; repeat split; reflexivity. Qed.

(** Both titles come from one text, free of the special characters. *)
Lemma cleanTitle_form (title : string) :
  exists text : string,
    cleanTitle title = (TrimSpace (Replace text ":" "-" (-1)), TrimSpace text)
    /\ forall c : ascii,
         memByte c unsafeBytes = true -> memByte c text = false.
Proof.
  unfold cleanTitle. cbv zeta.
  set (piped := if Contains title "|" then _ else title).
  set (replaced := ReplacerReplace replacerStrings piped).
  set (unprefixed := if negb (Contains replaced "High") then _ else replaced).
  set (undotted := Replace unprefixed "S.P.E.C.I.A.L." "SPECIAL" 1).
  set (text := if HasSuffix undotted "Foil" then _ else undotted).
  exists text. split; [reflexivity |].
  intros c Hc.
  destruct (unsafe_byte_news c Hc) as (Hempty & Hspecial & Hedition & _).
  assert (H0 : memByte c replaced = false)
    by (apply replacer_removes_unsafe; exact Hc).
  assert (H1 : memByte c unprefixed = false).
  { unfold unprefixed. destruct (negb (Contains replaced "High")); [| exact H0].
    apply memByte_Replace; assumption. }
  assert (H2 : memByte c undotted = false)
    by (apply memByte_Replace; assumption).
  unfold text. destruct (HasSuffix undotted "Foil"); [| exact H2].
  rewrite memByte_app, H2, Hedition. reflexivity.
Qed.

(** X11: whatever the page title, the file name that [cleanTitle]
    returns contains none of the bytes [<], [>], [/], [\], [*] and [:],
    and the display title none of the first five. *)
Theorem cleanTitle_removes_special_characters :
  forall (title : string) (c : ascii),
    (memByte c unsafeBytes = true ->
     memByte c (fst (cleanTitle title)) = false
     /\ memByte c (snd (cleanTitle title)) = false)
    /\ memByte ":" (fst (cleanTitle title)) = false.
Proof.
  intros title c. destruct (cleanTitle_form title) as (text & -> & Hsafe).
  cbn [fst snd]. split.
  - intros Hc. destruct (unsafe_byte_news c Hc) as (_ & _ & _ & Hhyphen).
    split.
    + apply memByte_TrimSpace, memByte_Replace; [exact Hhyphen | exact (Hsafe c Hc)].
    + apply memByte_TrimSpace. exact (Hsafe c Hc).
  - apply memByte_TrimSpace. unfold Replace.
    cbn [String.eqb Ascii.eqb Bool.eqb orb Z.eqb Z.ltb Z.compare].
    apply replaceFrom_byte. reflexivity.
Qed.

Lemma cleanTitle_removes_special_characters_witness :
  memByte "/" unsafeBytes = true
  /\ cleanTitle "Secret Lair x Fallout: S.P.E.C.I.A.L. <Raised/Foil>"
     = ("Fallout- SPECIAL RaisedFoil Edition", "Fallout: SPECIAL RaisedFoil Edition")
  /\ memByte "/" (fst (cleanTitle
                        "Secret Lair x Fallout: S.P.E.C.I.A.L. <Raised/Foil>"))
     = false.
Proof.
  assert (H : memByte "/" unsafeBytes = true) by reflexivity.
  split; [exact H |]. split; [reflexivity |].
  exact (proj1 (proj1 (cleanTitle_removes_special_characters
                         "Secret Lair x Fallout: S.P.E.C.I.A.L. <Raised/Foil>"
                         "/") H)).
Defined.

(** X12: the file name is the display title with every colon turned
    into a hyphen, byte for byte, so the two have the same length; and
    neither has white space left at either end. *)
Theorem cleanTitle_file_name_of_display_title :
  forall title : string,
    fst (cleanTitle title) = mapBytes colonToHyphen (snd (cleanTitle title))
    /\ fst (cleanTitle title) = Replace (snd (cleanTitle title)) ":" "-" (-1)
    /\ String.length (fst (cleanTitle title))
       = String.length (snd (cleanTitle title))
    /\ TrimSpace (fst (cleanTitle title)) = fst (cleanTitle title)
    /\ TrimSpace (snd (cleanTitle title)) = snd (cleanTitle title).
Proof.
  intros title. destruct (cleanTitle_form title) as (text & -> & _).
  cbn [fst snd].
  assert (H : TrimSpace (Replace text ":" "-" (-1))
              = mapBytes colonToHyphen (TrimSpace text)).
  { rewrite Replace_colon. apply TrimSpace_colonToHyphen. }
  split; [exact H |].
  split; [rewrite (Replace_colon (TrimSpace text)); exact H |].
  split; [rewrite H; apply mapBytes_length |].
  split; apply TrimSpace_idempotent.
Qed.

(** ** The fields of [Split] *)

Lemma memByte_splitFrom (c : ascii) (sep : string) (s : string) :
  memByte c s = false ->
  forall (skip : nat) (f : string),
    In f (splitFrom sep skip s) -> memByte c f = false.
Proof.
  induction s as [| d ds IH]; intros Hs skip f Hf; cbn [splitFrom] in Hf.
  - destruct Hf as [<- | []]. reflexivity.
  - cbn [memByte] in Hs. apply orb_false_iff in Hs as [Hd Hds].
    destruct skip as [| k]; [| exact (IH Hds k f Hf)].
    destruct (HasPrefix (String d ds) sep).
    + destruct Hf as [<- | Hf]; [reflexivity | exact (IH Hds _ f Hf)].
    + destruct (splitFrom sep 0 ds) as [| f' fs] eqn:E.
      * destruct Hf as [<- | []]. cbn [memByte]. rewrite Hd. reflexivity.
      * destruct Hf as [<- | Hf].
        -- cbn [memByte]. rewrite Hd. apply (IH Hds 0%nat). rewrite E. left.
           reflexivity.
        -- apply (IH Hds 0%nat). rewrite E. right. exact Hf.
Qed.

Lemma memByte_elemAt_Split (c : ascii) (s sep : string) (i : nat) :
  memByte c s = false -> memByte c (elemAt (Split s sep) i) = false.
Proof.
  intros Hs. unfold elemAt.
  destruct (nth_in_or_default i (Split s sep) "") as [Hin | ->]; [| reflexivity].
  exact (memByte_splitFrom c sep s Hs 0 _ Hin).
Qed.

Lemma Contains_byte (c : ascii) (s : string) :
  Contains s (String c "") = memByte c s.
Proof.
  induction s as [| d ds IH]; [reflexivity |].
  cbn [Contains HasPrefix memByte].
  rewrite HasPrefix_empty, andb_true_r, IH, (Ascii.eqb_sym d c). reflexivity.
Qed.

(** The first field stops before the first occurrence of the separator:
    it is the beginning of the text and the separator does not occur in
    it. *)
Lemma Split_head (sep : string) (s : string) :
  sep <> "" ->
  Contains (elemAt (Split s sep) 0) sep = false
  /\ exists rest : string, s = elemAt (Split s sep) 0 ++ rest.
Proof.
  intros Hsep. unfold Split, elemAt.
  induction s as [| d ds IH]; cbn [splitFrom].
  - cbn [nth]. split; [| exists ""; reflexivity].
    destruct sep; [contradiction | reflexivity].
  - destruct (HasPrefix (String d ds) sep) eqn:Hp.
    + cbn [nth]. split; [| exists (String d ds); reflexivity].
      destruct sep; [contradiction | reflexivity].
    + destruct IH as [Hfree [rest Hrest]].
      destruct (splitFrom sep 0 ds) as [| f fs] eqn:E.
      * exfalso. exact (splitFrom_not_nil sep ds 0 E).
      * cbn [nth] in *. split.
        -- cbn [Contains]. rewrite Hfree, orb_false_r.
           destruct (HasPrefix (String d f) sep) eqn:Hpf; [| reflexivity].
           apply (HasPrefix_app_l _ rest) in Hpf.
           cbn [append] in Hpf. rewrite <- Hrest, Hp in Hpf. discriminate Hpf.
        -- exists rest. cbn [append]. rewrite <- Hrest. reflexivity.
Qed.

Lemma Contains_app_r (a b p : string) :
  Contains b p = true -> Contains (a ++ b) p = true.
Proof.
  intros H. induction a as [| c a IH]; [exact H |].
  cbn [append Contains]. rewrite IH. apply orb_true_r.
Qed.

Lemma Contains_app_l (a b p : string) :
  Contains a p = true -> Contains (a ++ b) p = true.
Proof.
  induction a as [| c a IH]; intros H.
  - destruct p as [| d p]; [| discriminate H].
    destruct b; reflexivity.
  - cbn [append Contains] in *. apply orb_true_iff in H as [H | H].
    + change (String c (a ++ b)) with (String c a ++ b).
      rewrite (HasPrefix_app_l _ b _ H). reflexivity.
    + rewrite (IH H). apply orb_true_r.
Qed.

Lemma Contains_TrimSpace (s p : string) :
  Contains s p = false -> Contains (TrimSpace s) p = false.
Proof.
  intros H. destruct (TrimSpace_part s) as (a & b & E).
  destruct (Contains (TrimSpace s) p) eqn:Ht; [| reflexivity].
  rewrite E in H.
  rewrite (Contains_app_r a _ p (Contains_app_l _ b p Ht)) in H.
  discriminate H.
Qed.

(** ** The canonical name of a line *)

Lemma stripDenylist_keeps_out (unicodeLower : string -> string) (c : ascii)
    (name : string) :
  memByte c name = false ->
  memByte c (stripDenylist unicodeLower name) = false.
Proof.
  unfold stripDenylist. generalize denylist. intros tags. revert name.
  induction tags as [| tag tags IH]; intros name H; cbn [fold_left]; [exact H |].
  apply IH. unfold stripTag.
  apply memByte_Replace; [reflexivity |].
  apply memByte_Replace; [reflexivity | exact H].
Qed.

Lemma stripDenylist_no_star (unicodeLower : string -> string) (name : string) :
  memByte "*" (stripDenylist unicodeLower name) = false.
Proof.
  unfold stripDenylist.
  change denylist with (removelast denylist ++ ["*"])%list.
  rewrite fold_left_app. cbn [fold_left]. unfold stripTag at 1.
  apply memByte_Replace; [reflexivity |].
  unfold Replace. cbn [String.eqb Ascii.eqb Bool.eqb orb Z.eqb Z.ltb Z.compare].
  apply replaceFrom_byte. reflexivity.
Qed.

(** The steps of [cleanName] after the denylist bring in neither "("
    nor "*". *)
Lemma cleanName_tail_keeps_out (c : ascii) (cardLine : string) :
  memByte c " // Sticker sheet Xenagos" = false ->
  memByte c cardLine = false ->
  let cardLine :=
    if Contains cardLine " as " then elemAt (Split cardLine " as ") 0
    else cardLine in
  let cardLine :=
    if Contains cardLine " by " then elemAt (Split cardLine " by ") 0
    else cardLine in
  let cardLine :=
    if Contains cardLine " with art" then elemAt (Split cardLine " with art") 0
    else cardLine in
  let cardLine :=
    if Contains cardLine "//" && negb (Contains cardLine " // ")
    then Replace cardLine "//" " // " (-1)
    else cardLine in
  let cardLine := elemAt (Split cardLine " // ") 0 in
  let cardLine := Replace cardLine "Sticker Sheets" "Sticker sheet" (-1) in
  let cardLine := Replace cardLine "Xenegos" "Xenagos" (-1) in
  memByte c (TrimSpace cardLine) = false.
Proof.
  intros Hnews H. cbv zeta.
  assert (Hn1 : memByte c " // " = false).
  { change " // Sticker sheet Xenagos" with (" // " ++ "Sticker sheet Xenagos") in Hnews.
    rewrite memByte_app in Hnews. apply orb_false_iff in Hnews. tauto. }
  assert (Hn2 : memByte c "Sticker sheet" = false).
  { change " // Sticker sheet Xenagos"
      with (" // " ++ "Sticker sheet" ++ " Xenagos") in Hnews.
    rewrite !memByte_app in Hnews.
    apply orb_false_iff in Hnews as [_ Hnews].
    apply orb_false_iff in Hnews. tauto. }
  assert (Hn3 : memByte c "Xenagos" = false).
  { change " // Sticker sheet Xenagos"
      with (" // Sticker sheet " ++ "Xenagos") in Hnews.
    rewrite memByte_app in Hnews. apply orb_false_iff in Hnews. tauto. }
  apply memByte_TrimSpace.
  apply memByte_Replace; [exact Hn3 |].
  apply memByte_Replace; [exact Hn2 |].
  apply memByte_elemAt_Split.
  match goal with
  | |- memByte c (if ?b then Replace ?x _ _ _ else ?x) = false =>
      assert (Hx : memByte c x = false);
      [| destruct b; [apply memByte_Replace; assumption | exact Hx]]
  end.
  match goal with
  | |- memByte c (if ?b then _ else ?x) = false =>
      assert (Hx : memByte c x = false);
      [| destruct b; [apply memByte_elemAt_Split; exact Hx | exact Hx]]
  end.
  match goal with
  | |- memByte c (if ?b then _ else ?x) = false =>
      assert (Hx : memByte c x = false);
      [| destruct b; [apply memByte_elemAt_Split; exact Hx | exact Hx]]
  end.
  destruct (Contains cardLine " as ");
    [apply memByte_elemAt_Split; exact H | exact H].
Qed.

Lemma cleanName_no_parenthesis (unicodeLower : string -> string)
    (field : string) :
  memByte "(" (cleanName unicodeLower field) = false.
Proof.
  unfold cleanName. cbv zeta.
  apply (cleanName_tail_keeps_out "("); [reflexivity |].
  apply stripDenylist_keeps_out.
  match goal with
  | |- memByte _ (if ?b then Replace ?x _ _ _ else ?x) = false =>
      assert (Hx : memByte "(" x = false);
      [| destruct b; [apply memByte_Replace; [reflexivity | exact Hx] | exact Hx]]
  end.
  match goal with
  | |- memByte _ (if ?b then _ else ?x) = false =>
      assert (Hx : memByte "(" x = false);
      [| destruct b; [apply memByte_elemAt_Split; exact Hx | exact Hx]]
  end.
  destruct (Contains (TrimSpace field) "(") eqn:E.
  - rewrite <- Contains_byte. exact (proj1 (Split_head "(" _ ltac:(discriminate))).
  - rewrite <- Contains_byte. exact E.
Qed.

Lemma cleanName_no_star (unicodeLower : string -> string) (field : string) :
  memByte "*" (cleanName unicodeLower field) = false.
Proof.
  unfold cleanName. cbv zeta.
  apply (cleanName_tail_keeps_out "*"); [reflexivity |].
  apply stripDenylist_no_star.
Qed.

(** X13: a name that line canonicalization returns has no white space
    at either end and contains neither "(" nor "*"; the count returned
    with it is within the range of [int]. *)
Theorem cleanLine_name_is_clean :
  forall (unicodeLower : string -> string) (line name : string) (n : Z),
    cleanLine unicodeLower line = inr (name, n) ->
    TrimSpace name = name
    /\ memByte "(" name = false
    /\ memByte "*" name = false
    /\ minInt <= n <= maxInt.
Proof.
  intros unicodeLower line name n H. unfold cleanLine in H.
  destruct (negb (length (Split (normalizeLine line) "x ") =? 2)%nat);
    [discriminate H |].
  pose proof (Atoi_range (elemAt (Split (normalizeLine line) "x ") 0)) as Hrange.
  destruct (Atoi (elemAt (Split (normalizeLine line) "x ") 0)) as [num [e |]];
    [discriminate H |].
  inversion H; subst name n. cbn [fst] in Hrange.
  split; [| split; [| split]].
  - unfold cleanName. cbv zeta. apply TrimSpace_idempotent.
  - apply cleanName_no_parenthesis.
  - apply cleanName_no_star.
  - exact Hrange.
Qed.

Lemma cleanLine_name_is_clean_witness :
  cleanLine noUnicode "1x  Borderless Swords to Plowshares* (Foil) "
  = inr ("Swords to Plowshares", 1)
  /\ TrimSpace "Swords to Plowshares" = "Swords to Plowshares"
  /\ memByte "(" "Swords to Plowshares" = false.
Proof.
  assert (H : cleanLine noUnicode "1x  Borderless Swords to Plowshares* (Foil) "
              = inr ("Swords to Plowshares", 1)) by reflexivity.
  split; [exact H |].
  destruct (cleanLine_name_is_clean noUnicode _ _ _ H) as (Htrim & Hparen & _).
  split; [exact Htrim | exact Hparen].
Defined.

(** ** The catalogue: results, headers, match *)

Lemma dropBytes_suffix (s : string) :
  forall k : nat, exists pre : string, s = pre ++ dropBytes k s.
Proof.
  induction s as [| c s IH]; intros k.
  - exists "". destruct k; reflexivity.
  - destruct k as [| k]; [exists ""; reflexivity |].
    destruct (IH k) as [pre Hpre]. exists (String c pre).
    cbn [append dropBytes]. rewrite <- Hpre. reflexivity.
Qed.

Lemma HasSuffix_true (s suffix : string) :
  HasSuffix s suffix = true -> exists pre : string, s = pre ++ suffix.
Proof.
  unfold HasSuffix. intros H. apply andb_true_iff in H as [_ H].
  apply String.eqb_eq in H.
  destruct (dropBytes_suffix s (String.length s - String.length suffix))
    as [pre Hpre].
  exists pre. rewrite <- H. exact Hpre.
Qed.

Lemma searchEntry_number_no_star (card : Scryfall.Card) :
  HasSuffix (Scryfall.CollectorNumber card) BLACKSTAR = false ->
  HasSuffix (Number (searchEntry card)) BLACKSTAR = false.
Proof.
  intros H. unfold searchEntry. cbn [Number].
  destruct (0 <? length (Scryfall.CardFaces card))%nat; [| exact H].
  destruct (HasSuffix (Scryfall.CollectorNumber card ++ "a") BLACKSTAR) eqn:E;
    [| reflexivity].
  apply HasSuffix_true in E as [pre E].
  apply (f_equal lastByte) in E.
  rewrite !lastByte_app in E by discriminate. discriminate E.
Qed.

Lemma searchCards_filter (cards : list Scryfall.Card) :
  searchCards cards = map searchEntry (List.filter retained cards).
Proof.
  induction cards as [| card rest IH]; [reflexivity |].
  cbn [searchCards List.filter]. unfold retained at 1.
  destruct (existsb (String.eqb "sldbonus") (Scryfall.PromoTypes card));
    [exact IH |].
  destruct (HasSuffix (Scryfall.CollectorNumber card) BLACKSTAR); [exact IH |].
  cbn [negb andb map]. rewrite IH. reflexivity.
Qed.

(** X14: the result of [search] is the list of the retained records,
    in the order of the query, each turned into one entry; it is never
    longer than the list of records. No entry has a name with the face
    separator " // " in it, a number that ends with the black star, or
    a foil or etched flag. *)
Theorem search_result_entries :
  forall cards : list Scryfall.Card,
    searchCards cards = map searchEntry (List.filter retained cards)
    /\ (length (searchCards cards) <= length cards)%nat
    /\ forall entry : CardData,
         entry ∈ searchCards cards ->
         Contains (Name entry) " // " = false
         /\ HasSuffix (Number entry) BLACKSTAR = false
         /\ Foil entry = false /\ Etched entry = false.
Proof.
  intros cards. split; [apply searchCards_filter |]. split.
  - rewrite searchCards_filter, length_map. apply filter_length_le.
  - intros entry H. rewrite searchCards_filter in H.
    apply list_elem_of_In, in_map_iff in H as (card & <- & Hcard).
    apply filter_In in Hcard as [_ Hkeep].
    unfold retained in Hkeep. apply andb_true_iff in Hkeep as [_ Hstar].
    apply negb_true_iff in Hstar.
    split; [| split; [| split; reflexivity]].
    + unfold searchEntry. cbn [Name].
      exact (proj1 (Split_head " // " _ ltac:(discriminate))).
    + exact (searchEntry_number_no_star card Hstar).
Qed.

Lemma search_result_entries_witness :
  mkCardData "Delver of Secrets" "1025a" false false false
    ∈ searchCards [bonusCard; twoFacedCard; starCard]
  /\ Contains "Delver of Secrets" " // " = false
  /\ HasSuffix "1025a" BLACKSTAR = false.
Proof.
  assert (H : mkCardData "Delver of Secrets" "1025a" false false false
                ∈ searchCards [bonusCard; twoFacedCard; starCard]).
  { apply list_elem_of_In. left. reflexivity. }
  split; [exact H |].
  destruct (proj2 (proj2 (search_result_entries
                            [bonusCard; twoFacedCard; starCard])) _ H)
    as (Hname & Hnumber & _).
  split; [exact Hname | exact Hnumber].
Defined.

(** X15: the title of a catalogue header is the text of its element up
    to the first bullet "•", without white space at either end: it never
    contains a bullet, and it is the whole text, trimmed, when the text
    has no bullet. A header without link has the empty URI. The headers
    are as many as the elements. *)
Theorem header_titles_are_cut_and_trimmed :
  forall (text : string) (href : option string)
         (elements : list (string * option string)),
    Contains (Header.Title (headerOf text href)) BULLET = false
    /\ TrimSpace (Header.Title (headerOf text href))
       = Header.Title (headerOf text href)
    /\ (Contains text BULLET = false ->
        Header.Title (headerOf text href) = TrimSpace text)
    /\ Header.URI (headerOf text None) = ""
    /\ length (loadScryfallHeaders elements) = length elements.
Proof.
  intros text href elements. unfold headerOf. cbn [Header.Title Header.URI].
  split; [| split; [| split; [| split]]].
  - apply Contains_TrimSpace.
    exact (proj1 (Split_head BULLET text ltac:(discriminate))).
  - apply TrimSpace_idempotent.
  - intros H. rewrite (Split_none text BULLET H). reflexivity.
  - reflexivity.
  - unfold loadScryfallHeaders. apply length_map.
Qed.

Lemma header_titles_are_cut_and_trimmed_witness :
  Contains "Secret Lair: Bloomburrow" BULLET = false
  /\ headerOf (" Secret Lair: Bloomburrow " ++ BULLET ++ " 5 cards") None
     = Header.mk "Secret Lair: Bloomburrow" ""
  /\ Header.Title (headerOf "Secret Lair: Bloomburrow" None)
     = TrimSpace "Secret Lair: Bloomburrow".
Proof.
  assert (H : Contains "Secret Lair: Bloomburrow" BULLET = false) by reflexivity.
  split; [exact H |]. split; [reflexivity |].
  exact (proj1 (proj2 (proj2 (header_titles_are_cut_and_trimmed
                                "Secret Lair: Bloomburrow" None []))) H).
Defined.

Lemma Contains_empty (s : string) : Contains s "" = true.
Proof. destruct s; reflexivity. Qed.

Lemma matchHeaders_skip (unicodeLower : string -> string)
    (fuzzyMatch : string -> string -> bool) (search : string -> option NameMap)
    (title : string) (pre post : list Header.scryfallHeader)
    (cards : list CardData) :
  (forall header : Header.scryfallHeader,
      In header pre ->
      headerSkipped unicodeLower fuzzyMatch search title header = true) ->
  matchHeaders unicodeLower fuzzyMatch search title (pre ++ post) cards
  = matchHeaders unicodeLower fuzzyMatch search title post cards.
Proof.
  induction pre as [| header pre IH]; intros H; [reflexivity |].
  cbn [app matchHeaders].
  assert (Hpre : forall h : Header.scryfallHeader,
             In h pre -> headerSkipped unicodeLower fuzzyMatch search title h = true).
  { intros h Hh. apply H. right. exact Hh. }
  specialize (H header (or_introl eq_refl)).
  unfold headerSkipped, headerMatches in H. cbv zeta in H.
  destruct (negb _); [exact (IH Hpre) |].
  destruct (search (Header.URI header)); [discriminate H | exact (IH Hpre)].
Qed.

(** X16: in the match against the catalogue the first header counts
    whose title matches and whose query succeeds: the headers before it
    are passed over, the headers after it are not looked at, and each
    card gets the number that the query's map holds for its name, or the
    empty number when the map has no such name. When every header is
    passed over, the cards stay as they are and no match is reported. A
    product whose title is empty matches every header. *)
Theorem matchHeaders_first_match_wins :
  forall (unicodeLower : string -> string)
         (fuzzyMatch : string -> string -> bool)
         (search : string -> option NameMap) (title : string)
         (pre post : list Header.scryfallHeader)
         (header : Header.scryfallHeader) (results : NameMap)
         (cards : list CardData),
    (forall h : Header.scryfallHeader,
        In h pre -> headerSkipped unicodeLower fuzzyMatch search title h = true) ->
    (headerMatches unicodeLower fuzzyMatch title header = true ->
     search (Header.URI header) = Some results ->
     matchHeaders unicodeLower fuzzyMatch search title (pre ++ header :: post) cards
     = (assignNumbers results cards, true)
     /\ (forall (i : nat) (card : CardData),
            cards !! i = Some card ->
            assignNumbers results cards !! i
            = Some (withNumber card (default "" (results (Name card))))))
    /\ matchHeaders unicodeLower fuzzyMatch search title pre cards
       = (cards, false)
    /\ headerMatches unicodeLower fuzzyMatch "" header = true.
Proof.
  intros unicodeLower fuzzyMatch search title pre post header results cards Hpre.
  split; [| split].
  - intros Hmatch Hsearch. split.
    + rewrite (matchHeaders_skip _ _ _ _ pre (header :: post) cards Hpre).
      cbn [matchHeaders]. unfold headerMatches in Hmatch. cbv zeta in Hmatch.
      rewrite Hmatch, Hsearch. reflexivity.
    + intros i card Hi. unfold assignNumbers.
      change (map ?f cards) with (f <$> cards).
      rewrite list_lookup_fmap, Hi. reflexivity.
  - rewrite <- (app_nil_r pre).
    rewrite (matchHeaders_skip _ _ _ _ pre [] cards Hpre). reflexivity.
  - unfold headerMatches.
    change (ToLower unicodeLower "") with "".
    cbv zeta. rewrite Contains_empty. apply orb_true_r.
Qed.

Lemma matchHeaders_first_match_wins_witness :
  matchHeaders noUnicode exactMatch boltCatalogue "Bolt Drop" boltHeaders
    [mkItem "Lightning Bolt" ""; mkItem "Island" "5"]
  = ([mkItem "Lightning Bolt" "82"; mkItem "Island" ""], true)
  /\ matchHeaders noUnicode exactMatch boltCatalogue "Bolt Drop"
       [Header.mk "Commander Deck" "/search?q=deck";
        Header.mk "Bolt Drop Extra" "/search?q=broken"]
       [mkItem "Lightning Bolt" ""]
     = ([mkItem "Lightning Bolt" ""], false).
Proof.
  assert (Hpre : forall h : Header.scryfallHeader,
             In h [Header.mk "Commander Deck" "/search?q=deck";
                   Header.mk "Bolt Drop Extra" "/search?q=broken"] ->
             headerSkipped noUnicode exactMatch boltCatalogue "Bolt Drop" h
             = true).
  { intros h [<- | [<- | []]]; reflexivity. }
  destruct (matchHeaders_first_match_wins noUnicode exactMatch boltCatalogue
              "Bolt Drop"
              [Header.mk "Commander Deck" "/search?q=deck";
               Header.mk "Bolt Drop Extra" "/search?q=broken"]
              [Header.mk "The Bolt Drop" "/search?q=late"]
              (Header.mk "Bolt Drop" "/search?q=bolt")
              (fun name =>
                 if String.eqb name "Lightning Bolt" then Some "82" else None)
              [mkItem "Lightning Bolt" ""; mkItem "Island" "5"] Hpre)
    as (Hfirst & _ & _).
  split.
  - exact (proj1 (Hfirst eq_refl eq_refl)).
  - exact (proj1 (proj2 (matchHeaders_first_match_wins noUnicode exactMatch
                           boltCatalogue "Bolt Drop" _ []
                           (Header.mk "" "") (fun _ => None)
                           [mkItem "Lightning Bolt" ""] Hpre))).
Defined.

(** ** The text written for a product *)

Lemma occurrences_app (c : ascii) (a b : string) :
  occurrences c (a ++ b) = (occurrences c a + occurrences c b)%nat.
Proof.
  induction a as [| d a IH]; [reflexivity |].
  cbn [append occurrences]. rewrite IH. lia.
Qed.

Lemma occurrences_none (c : ascii) (s : string) :
  memByte c s = false -> occurrences c s = 0%nat.
Proof.
  induction s as [| d s IH]; [reflexivity |].
  cbn [memByte occurrences]. intros H. apply orb_false_iff in H as [Hd Hs].
  rewrite Ascii.eqb_sym, Hd, (IH Hs). reflexivity.
Qed.

Lemma cardLineText_newlines (card : CardData) :
  memByte "010" (Name card) = false -> memByte "010" (Number card) = false ->
  occurrences "010" (cardLineText card) = 1%nat.
Proof.
  intros Hname Hnumber. unfold cardLineText. cbv zeta.
  rewrite !occurrences_app, (occurrences_none _ _ Hname).
  assert (Hnum : occurrences "010"
                   (if negb (String.eqb (Number card) "")
                    then ":" ++ Number card else Number card) = 0%nat).
  { destruct (negb (String.eqb (Number card) ""));
      [rewrite occurrences_app |]; rewrite (occurrences_none _ _ Hnumber);
      reflexivity. }
  rewrite Hnum.
  destruct (Foil card), (Etched card), (Token card); reflexivity.
Qed.

Lemma cardLinesText_newlines (cards : list CardData) :
  (forall card : CardData,
      In card cards ->
      memByte "010" (Name card) = false /\ memByte "010" (Number card) = false) ->
  occurrences "010" (cardLinesText cards) = length cards.
Proof.
  induction cards as [| card rest IH]; intros H; [reflexivity |].
  cbn [cardLinesText length]. rewrite occurrences_app.
  destruct (H card (or_introl eq_refl)) as [Hname Hnumber].
  rewrite (cardLineText_newlines card Hname Hnumber), IH; [reflexivity |].
  intros c Hc. apply H. right. exact Hc.
Qed.

(** X17: when no title, link, date, name or number contains a line
    feed, the text written for a product has exactly one line per Item
    after its two or three header lines (the date line is there exactly
    when the release date is not empty). The line of an Item starts with
    "1 [SLD:" exactly when the Item has a number; an Item without number
    is written with the bare code "[SLD]". *)
Theorem dumpText_one_line_per_item :
  forall (cardSet : CardSet) (link releaseDate : string),
    (memByte "010" (Title cardSet) = false ->
     memByte "010" link = false -> memByte "010" releaseDate = false ->
     (forall card : CardData,
         In card (Cards cardSet) ->
         memByte "010" (Name card) = false
         /\ memByte "010" (Number card) = false) ->
     occurrences "010" (dumpText cardSet link releaseDate)
     = ((if String.eqb releaseDate "" then 2 else 3)
        + length (Cards cardSet))%nat)
    /\ (forall card : CardData,
           HasPrefix (cardLineText card) "1 [SLD:"
           = negb (String.eqb (Number card) "")
           /\ (Number card = "" -> HasPrefix (cardLineText card) "1 [SLD] " = true)).
Proof.
  intros cardSet link releaseDate. split.
  - intros Htitle Hlink Hdate Hcards. unfold dumpText.
    rewrite !occurrences_app, (occurrences_none _ _ Htitle),
      (occurrences_none _ _ Hlink), (cardLinesText_newlines _ Hcards).
    destruct (String.eqb releaseDate ""); cbn [negb]; [reflexivity |].
    rewrite !occurrences_app, (occurrences_none _ _ Hdate). reflexivity.
  - intros card. unfold cardLineText. cbv zeta. split.
    + destruct (String.eqb (Number card) "") eqn:E; cbn [negb].
      * apply String.eqb_eq in E. rewrite E. reflexivity.
      * cbn [append]. exact (HasPrefix_refl_app "1 [SLD:" _).
    + intros ->. cbn [String.eqb negb append].
      exact (HasPrefix_refl_app "1 [SLD] " _).
Qed.

Lemma dumpText_one_line_per_item_witness :
  occurrences "010"
    (dumpText (mkCardSet "Bolt Drop" "Bolt Drop"
                 [mkItem "Lightning Bolt" "82"; mkItem "Island" ""])
       "https://secretlair.wizards.com/us/product/1" "2024-05-13")
  = 5%nat
  /\ dumpText (mkCardSet "Bolt Drop" "Bolt Drop"
                 [mkCardData "Lightning Bolt" "82" true false false;
                  mkItem "Island" ""])
       "https://secretlair.wizards.com/us/product/1" ""
     = "// NAME: Bolt Drop" ++ LF
       ++ "// SOURCE: https://secretlair.wizards.com/us/product/1" ++ LF
       ++ "1 [SLD:82] Lightning Bolt [foil]" ++ LF
       ++ "1 [SLD] Island" ++ LF.
Proof.
  split; [| reflexivity].
  apply (proj1 (dumpText_one_line_per_item
                  (mkCardSet "Bolt Drop" "Bolt Drop"
                     [mkItem "Lightning Bolt" "82"; mkItem "Island" ""])
                  "https://secretlair.wizards.com/us/product/1" "2024-05-13"));
    try reflexivity.
  intros card [<- | [<- | []]]; split; reflexivity.
Defined.

(** ** The product page as a whole *)

Lemma file_name_bytes (c : ascii) :
  memByte c (":" ++ unsafeBytes) = true -> memByte c ".txt" = false.
Proof. by_bytes c. Qed.

(** X18: scraping a page fails, with "no cards found", exactly when the
    page gives no card. When it succeeds, the product has the two titles
    that [cleanTitle] derives from the page title; its Items are the
    cards of the page, in order, with their names and flags, only the
    numbers having been resolved; there is at least one; and the name of
    the file that [dumpCards] creates for it contains none of the bytes
    [<], [>], [/], [\], [*] and [:]. *)
Theorem scrapeProduct_result :
  forall (unicodeLower : string -> string) (recognize : string -> option string)
         (fuzzyMatch : string -> string -> bool)
         (search : string -> option NameMap)
         (headers : list Header.scryfallHeader) (page : Page) (doOCR : bool),
    (pageCards unicodeLower (PageTitle page) (Bullets page) (ProductInfo page)
     = None <->
     scrapeProduct unicodeLower recognize fuzzyMatch search headers page doOCR
     = None)
    /\ forall cardSet : CardSet,
         scrapeProduct unicodeLower recognize fuzzyMatch search headers page doOCR
         = Some cardSet ->
         (Filename cardSet, Title cardSet) = cleanTitle (PageTitle page)
         /\ (exists cards : list CardData,
                pageCards unicodeLower (PageTitle page) (Bullets page)
                  (ProductInfo page) = Some cards
                /\ map itemShape (Cards cardSet) = map itemShape cards)
         /\ Cards cardSet <> []
         /\ forall c : ascii,
              memByte c (":" ++ unsafeBytes) = true ->
              memByte c (dumpFileName cardSet) = false.
Proof.
  intros unicodeLower recognize fuzzyMatch search headers page doOCR.
  unfold scrapeProduct. cbv zeta.
  pose proof (cleanTitle_removes_special_characters (PageTitle page)) as Hsafe.
  destruct (cleanTitle (PageTitle page)) as [filename displayTitle] eqn:Etitle.
  cbn [fst snd] in Hsafe.
  pose proof (proj2 (proj2 (proj2
                (pageCards_in_page_order unicodeLower (PageTitle page)
                   (Bullets page) (ProductInfo page))))) as Hpage.
  destruct (pageCards unicodeLower (PageTitle page) (Bullets page)
              (ProductInfo page)) as [cards |] eqn:Ecards.
  - pose proof (matchHeaders_shape unicodeLower fuzzyMatch search
                  (matchingTitle displayTitle) headers cards) as Hmatch.
    destruct (matchHeaders unicodeLower fuzzyMatch search
                (matchingTitle displayTitle) headers cards) as [matched found].
    cbn [fst] in Hmatch.
    split; [split; intros H; discriminate H |].
    intros cardSet H. inversion H; subst cardSet. cbn [Filename Title Cards].
    assert (Hshape : map itemShape
                       (resolveNumbers recognize doOCR (GalleryTitle page)
                          (Images page) matched)
                     = map itemShape cards).
    { rewrite resolveNumbers_shape. exact Hmatch. }
    split; [reflexivity |].
    split; [exists cards; split; [reflexivity | exact Hshape] |].
    split.
    + intros E. rewrite E in Hshape.
      destruct (Hpage cards eq_refl) as [Hne _].
      destruct cards; [contradiction | discriminate Hshape].
    + intros c Hc. unfold dumpFileName. cbn [Filename].
      rewrite memByte_app, (file_name_bytes c Hc), orb_false_r.
      change (":" ++ unsafeBytes) with (String ":" unsafeBytes) in Hc.
      cbn [memByte] in Hc. apply orb_true_iff in Hc as [Hc | Hc].
      * apply Ascii.eqb_eq in Hc. subst c. exact (proj2 (Hsafe ":"%char)).
      * exact (proj1 (proj1 (Hsafe c) Hc)).
  - split; [split; reflexivity |]. intros cardSet H. discriminate H.
Qed.

Lemma scrapeProduct_result_witness :
  scrapeProduct noUnicode always1234 exactMatch boltCatalogue boltHeaders
    boltPage false
  = Some (mkCardSet "Bolt Drop: Part 12 Foil Edition"
            "Bolt Drop- Part 12 Foil Edition"
            [mkCardData "Lightning Bolt" "82" true false false;
             mkItem "Island" "83"; mkItem "Island" "84"])
  /\ memByte "/" (dumpFileName
                    (mkCardSet "Bolt Drop: Part 12 Foil Edition"
                       "Bolt Drop- Part 12 Foil Edition"
                       [mkCardData "Lightning Bolt" "82" true false false;
                        mkItem "Island" "83"; mkItem "Island" "84"]))
     = false.
Proof.
  assert (H : scrapeProduct noUnicode always1234 exactMatch boltCatalogue
                boltHeaders boltPage false
              = Some (mkCardSet "Bolt Drop: Part 12 Foil Edition"
                        "Bolt Drop- Part 12 Foil Edition"
                        [mkCardData "Lightning Bolt" "82" true false false;
                         mkItem "Island" "83"; mkItem "Island" "84"]))
    by reflexivity.
  split; [exact H |].
  apply (proj2 (proj2 (proj2 (proj2 (scrapeProduct_result noUnicode always1234
                  exactMatch boltCatalogue boltHeaders boltPage false) _ H)))).
  reflexivity.
Defined.

(** ** Anchors that do not read as an integer *)

Lemma Atoi_error_value (s : string) (v : Z) (e : NumError) :
  Atoi s = (v, Some e) ->
  match e with
  | ErrSyntax => v = 0
  | ErrRange => v = maxInt \/ v = minInt
  end.
Proof.
  unfold Atoi, ParseInt. destruct s as [| c cs]; [intros H; inversion H; reflexivity |].
  destruct (if Ascii.eqb c "+" then (false, cs)
            else if Ascii.eqb c "-" then (true, cs) else (false, String c cs))
    as [neg digits].
  destruct (ParseUint digits) as [un [[] |]].
  - intros H. inversion H. reflexivity.
  - destruct (negb neg && (2 ^ 63 <=? un));
      [intros H; inversion H; left; reflexivity |].
    destruct (neg && (2 ^ 63 <? un));
      [intros H; inversion H; right; reflexivity | intros H; discriminate H].
  - destruct (negb neg && (2 ^ 63 <=? un));
      [intros H; inversion H; left; reflexivity |].
    destruct (neg && (2 ^ 63 <? un));
      [intros H; inversion H; right; reflexivity | intros H; discriminate H].
Qed.

(** X19: in a Product with some, not all, numbers resolved, the
    backfill does nothing when the anchor, once its leading zeros are
    stripped, is no integer for [Atoi] (a number such as "1025a" or
    "000"). When the anchor is an integer too large for an [int], [Atoi]
    gives the largest [int], the backfill runs from it, and the Item
    after the anchor receives the smallest [int], "-9223372036854775808". *)
Theorem backfill_unreadable_anchor :
  forall cards : list CardData,
    (exists c : CardData, c ∈ cards /\ Number c <> "") ->
    (exists c : CardData, c ∈ cards /\ Number c = "") ->
    exists (p : nat) (anchor : CardData),
      cards !! p = Some anchor /\ Number anchor <> "" /\
      (forall (j : nat) (c : CardData),
          cards !! j = Some c -> len (Number c) <= len (Number anchor)) /\
      (forall (j : nat) (c : CardData),
          (j < p)%nat -> cards !! j = Some c ->
          len (Number c) < len (Number anchor)) /\
      (snd (Atoi (TrimLeft (Number anchor) "0")) = Some ErrSyntax ->
       backfill cards = cards) /\
      (snd (Atoi (TrimLeft (Number anchor) "0")) = Some ErrRange ->
       0 < fst (Atoi (TrimLeft (Number anchor) "0")) ->
       forall next : CardData,
         cards !! S p = Some next ->
         backfill cards !! S p
         = Some (withNumber next "-9223372036854775808")).
Proof.
  intros cards H1 H0.
  destruct (backfill_spec cards H1 H0)
    as (p & anchor & Hp & Hne & Hall & Hfirst & Hpos & Hnot).
  exists p, anchor.
  split; [exact Hp |]. split; [exact Hne |].
  split; [exact Hall |]. split; [exact Hfirst |].
  cbv zeta in *.
  destruct (Atoi (TrimLeft (Number anchor) "0")) as [v e] eqn:E.
  cbn [fst snd] in *. split.
  - intros ->. pose proof (Atoi_error_value _ _ _ E) as Hv. cbn in Hv.
    apply Hnot. lia.
  - intros -> Hv next Hnext.
    pose proof (Atoi_error_value _ _ _ E) as Hrange. cbn in Hrange.
    assert (Hmax : v = maxInt).
    { destruct Hrange as [H | H]; [exact H |]. unfold minInt in H. lia. }
    rewrite (Hpos Hv (S p) next Hnext). subst v.
    replace (maxInt + Z.of_nat (S p) - Z.of_nat p) with (maxInt + 1) by lia.
    reflexivity.
Qed.

Lemma backfill_unreadable_anchor_witness :
  backfill [mkItem "A" ""; mkItem "B" "1025a"] = [mkItem "A" ""; mkItem "B" "1025a"]
  /\ backfill [mkItem "A" "99999999999999999999"; mkItem "B" ""] !! 1%nat
     = Some (mkItem "B" "-9223372036854775808").
Proof.
  split.
  - assert (H1 : exists c : CardData,
               c ∈ [mkItem "A" ""; mkItem "B" "1025a"] /\ Number c <> "").
    { exists (mkItem "B" "1025a"). split; [| discriminate].
      apply list_elem_of_In. simpl. auto. }
    assert (H0 : exists c : CardData,
               c ∈ [mkItem "A" ""; mkItem "B" "1025a"] /\ Number c = "").
    { exists (mkItem "A" ""). split; [| reflexivity].
      apply list_elem_of_In. simpl. auto. }
    destruct (backfill_unreadable_anchor _ H1 H0)
      as (p & anchor & Hp & Hne & _ & _ & Hsyntax & _).
    destruct p as [| [| p]]; simpl in Hp; inversion Hp; subst anchor;
      try (exfalso; apply Hne; reflexivity).
    apply Hsyntax. reflexivity.
  - assert (H1 : exists c : CardData,
               c ∈ [mkItem "A" "99999999999999999999"; mkItem "B" ""]
               /\ Number c <> "").
    { exists (mkItem "A" "99999999999999999999"). split; [| discriminate].
      apply list_elem_of_In. simpl. auto. }
    assert (H0 : exists c : CardData,
               c ∈ [mkItem "A" "99999999999999999999"; mkItem "B" ""]
               /\ Number c = "").
    { exists (mkItem "B" ""). split; [| reflexivity].
      apply list_elem_of_In. simpl. auto. }
    destruct (backfill_unreadable_anchor _ H1 H0)
      as (p & anchor & Hp & Hne & _ & _ & _ & Hrange).
    destruct p as [| [| p]]; simpl in Hp; inversion Hp; subst anchor;
      try (exfalso; apply Hne; reflexivity).
    exact (Hrange eq_refl eq_refl (mkItem "B" "") eq_refl).
Defined.

Lemma backfill_idempotent_witness :
  backfill (backfill scenarioD) = backfill scenarioD
  /\ forall c : CardData, c ∈ backfill scenarioD -> Number c <> "".
Proof.
  destruct (backfill_idempotent scenarioD) as [[Hsame | Hfull] Hagain].
  - discriminate Hsame.
  - split; [exact Hagain | exact Hfull].
Defined.
